(** * NearMart: the cart-to-order commitment pipeline

    A shallow embedding of the Mongoose models [Product], [Cart] and [Order]
    (src/models) and of the request handlers that drive them (the checkout
    [POST /api/customer/order] and the status update
    [PUT /api/retailer/orders/:id/status]; the cart handlers of the customer
    and the order list and the product deletion of the retailer), followed
    by the properties of the pipeline and by further properties of the
    models and of the handlers.

    Modelling conventions.
    - A collection is a finite map from [_id] to the other fields of the
      document ([Orders] is a list, an order's [_id] being its position); a
      document in memory is a [Doc]: the [_id] and the fields.
    - An [async] function is a computation in the monad [M]: it reads and
      writes the [World] and either returns or throws.  What was written
      before a [throw] stays written, as in the database.
    - A JavaScript [Number] holding money is an exact rational ([Q]); a
      quantity or a stock count is an integer ([Z]).  Rounding error of
      binary floating point is outside the model; the one rounding a
      property below rests on is that of zero.
    - [Math.random()] and [new Date()] read the [World].
    - The persistence library validates a document before it runs the
      [pre('save')] hooks.  For a new order the validators of the schemas
      ([required], [min], [enum]) are modelled, and so is the unique index
      on [orderNumber].  A stored document is taken as it is: the [save] of
      a document a method has changed validates what the method wrote, of
      which only the payment status, a string, can be refused.  The
      validators of the cart items are not modelled: the properties of the
      cart take the quantities they add to be positive. *)

From Stdlib Require Import QArith Qround ZArith String List DecimalString.
From Stdlib Require Import Sorted.
From stdpp Require Import gmap strings list.

Open Scope string_scope.
Open Scope Z_scope.

(** ** Documents and schemas *)

Record Doc (K T : Type) := { _id : K; fields : T }.
Arguments _id {K T} _.
Arguments fields {K T} _.

(** The document with the same [_id] and new fields. *)
Definition with_fields {K T} (this : Doc K T) (v : T) : Doc K T :=
  {| _id := _id this; fields := v |}.

Module ProductSchema.
Record t := {
  name : string;
  price : Q;
  stock : Z;
  images : list string;
  retailer : N;
  isAvailable : bool
}.
Definition set_stock (v : Z) (p : t) : t :=
  {| name := name p; price := price p; stock := v;
     images := images p; retailer := retailer p; isAvailable := isAvailable p |}.
Definition set_isAvailable (v : bool) (p : t) : t :=
  {| name := name p; price := price p; stock := stock p;
     images := images p; retailer := retailer p; isAvailable := v |}.
End ProductSchema.

Module RetailerSchema.
Record t := { name : string; storeName : string }.
End RetailerSchema.

Record Address := {
  street : string; city : string; state : string; zipCode : string
}.

Module CustomerSchema.
Record t := { address : Address; phone : option string }.
End CustomerSchema.

Module CartItemSchema.
Record t := {
  product : N;
  quantity : Z;
  price : Q;
  productName : string;
  productImage : string;
  retailerId : N
}.
End CartItemSchema.

Module CartSchema.
Record t := {
  customer : N;
  retailer : option N;
  items : list CartItemSchema.t;
  couponCode : option string;
  discount : Q
}.
Definition set_items (v : list CartItemSchema.t) (c : t) : t :=
  {| customer := customer c; retailer := retailer c; items := v;
     couponCode := couponCode c; discount := discount c |}.
Definition set_retailer (v : option N) (c : t) : t :=
  {| customer := customer c; retailer := v; items := items c;
     couponCode := couponCode c; discount := discount c |}.
End CartSchema.

Module OrderItemSchema.
Record t := {
  product : N;
  quantity : Z;
  price : Q;
  productName : string;
  productImage : string;
  retailer : N;
  retailerName : string
}.
End OrderItemSchema.

(** The [enum] of the [status] paths. *)
Inductive Status :=
  pending | confirmed | processing | out_for_delivery | delivered | cancelled.

#[global] Instance Status_eq_dec : EqDecision Status.
Proof. solve_decision. Defined.

Module StatusHistorySchema.
Record t := { status : Status; timestamp : Z; note : string }.
End StatusHistorySchema.

Module PaymentSchema.
Record t := {
  method : string;
  transactionId : option string;
  status : string;
  amount : Q;
  paidAt : option Z
}.
End PaymentSchema.

Module DeliverySchema.
Record t := {
  address : Address;
  contactPhone : option string;
  instructions : option string;
  expectedDeliveryDate : option Z;
  actualDeliveryDate : option Z;
  trackingNumber : option string
}.
Definition set_expectedDeliveryDate (v : option Z) (d : t) : t :=
  {| address := address d; contactPhone := contactPhone d;
     instructions := instructions d; expectedDeliveryDate := v;
     actualDeliveryDate := actualDeliveryDate d;
     trackingNumber := trackingNumber d |}.
Definition set_actualDeliveryDate (v : option Z) (d : t) : t :=
  {| address := address d; contactPhone := contactPhone d;
     instructions := instructions d;
     expectedDeliveryDate := expectedDeliveryDate d;
     actualDeliveryDate := v; trackingNumber := trackingNumber d |}.
End DeliverySchema.

Module OrderSchema.
Record t := {
  customer : N;
  orderNumber : string;
  items : list OrderItemSchema.t;
  subtotal : Q;
  discount : Q;
  tax : Q;
  deliveryFee : Q;
  total : Q;
  status : Status;
  statusHistory : list StatusHistorySchema.t;
  payment : option PaymentSchema.t;
  delivery : option DeliverySchema.t;
  couponCode : option string;
  cancelReason : option string
}.
End OrderSchema.

(** ** The world: database, environment, clock and random source *)

Record Env := { TAX_RATE : option Q; STANDARD_DELIVERY_FEE : option Q }.

(** [new Date()]: the instant and its calendar fields in local time. *)
Record Date := { getTime : Z; getFullYear : Z; getMonth : Z; getDate : Z }.

Record World := {
  Products : gmap N ProductSchema.t;
  Retailers : gmap N RetailerSchema.t;
  Customers : gmap N CustomerSchema.t;
  Carts : gmap N CartSchema.t;
  Orders : list OrderSchema.t;
  env : Env;
  clock : Date;
  random : nat -> Q;   (* the successive values of [Math.random()] *)
  drawn : nat          (* how many of them have been taken *)
}.

Definition set_Products (v : gmap N ProductSchema.t) (w : World) : World :=
  {| Products := v; Retailers := Retailers w; Customers := Customers w;
     Carts := Carts w; Orders := Orders w; env := env w; clock := clock w;
     random := random w; drawn := drawn w |}.
Definition set_Carts (v : gmap N CartSchema.t) (w : World) : World :=
  {| Products := Products w; Retailers := Retailers w; Customers := Customers w;
     Carts := v; Orders := Orders w; env := env w; clock := clock w;
     random := random w; drawn := drawn w |}.
Definition set_Orders (v : list OrderSchema.t) (w : World) : World :=
  {| Products := Products w; Retailers := Retailers w; Customers := Customers w;
     Carts := Carts w; Orders := v; env := env w; clock := clock w;
     random := random w; drawn := drawn w |}.
Definition set_drawn (v : nat) (w : World) : World :=
  {| Products := Products w; Retailers := Retailers w; Customers := Customers w;
     Carts := Carts w; Orders := Orders w; env := env w; clock := clock w;
     random := random w; drawn := v |}.

(** ** Exceptions and the monad of [async] functions *)

Inductive exn :=
| Error (message : string)      (* throw new Error(message) *)
| TypeError                     (* a property read on null *)
| DuplicateKey (index : string) (* a unique index rejected the write *)
| ValidationError               (* a validator of the schema refused the
                                   document *).

Definition M (A : Type) : Type := World -> (exn + A) * World.

#[global] Instance M_ret : MRet M := fun A x w => (inr x, w).
#[global] Instance M_bind : MBind M := fun A B f c w =>
  match c w with
  | (inl e, w') => (inl e, w')
  | (inr x, w') => f x w'
  end.

Definition throw {A} (e : exn) : M A := fun w => (inl e, w).
Definition try_catch {A} (c : M A) (handler : exn -> M A) : M A := fun w =>
  match c w with
  | (inl e, w') => handler e w'
  | (inr x, w') => (inr x, w')
  end.
Definition gets {A} (f : World -> A) : M A := fun w => (inr (f w), w).
Definition modify (f : World -> World) : M unit := fun w => (inr tt, f w).

(** [for (const x of l) { await f(x); }] *)
Fixpoint for_of {A} (l : list A) (f : A -> M unit) : M unit :=
  match l with
  | [] => mret tt
  | x :: l' => _ ← f x; for_of l' f
  end.

(** [Math.random()] *)
Definition Math_random : M Q := fun w =>
  (inr (random w (drawn w)), set_drawn (S (drawn w)) w).

(** ** JavaScript built-ins used by the models *)

Definition Math_floor (x : Q) : Z := Qfloor x.
Definition Math_round (x : Q) : Z := Qfloor (x + (1 # 2)).

(** [parseFloat(x.toFixed(2))]: the nearest multiple of 0.01, a tie going
    away from zero. *)
Definition toFixed2 (x : Q) : Q :=
  if Qle_bool 0 x then Math_round (x * 100) # 100
  else - (Math_round (- x * 100) # 100).

(** [n.toString()] for an integer *)
Definition toString (n : Z) : string := NilZero.string_of_int (Z.to_int n).

(** [s.padStart(n, '0')] *)
Definition padStart0 (n : nat) (s : string) : string :=
  String.concat "" (replicate (n - String.length s) "0") ++ s.

(** [s.substr(-2)] *)
Definition substr_last2 (s : string) : string :=
  substring (String.length s - 2) 2 s.

(** [a || b] on a value that may be undefined or the empty string *)
Definition or_else (a b : option string) : option string :=
  match a with
  | Some "" | None => b
  | Some _ => a
  end.

(** ** models/Product.js *)

Module Product.
Import ProductSchema.

Definition findById (id : N) : M (option (Doc N ProductSchema.t)) :=
  gets (fun w => (fun p => {| _id := id; fields := p |}) <$> Products w !! id).

Definition save (this : Doc N ProductSchema.t) : M (Doc N ProductSchema.t) :=
  _ ← modify (fun w =>
        set_Products (<[_id this := fields this]> (Products w)) w);
  mret this.

(** [ProductSchema.virtual('inStock')] *)
Definition inStock (this : ProductSchema.t) : bool :=
  (0 <? stock this) && isAvailable this.

(** [ProductSchema.statics.updateStock] *)
Definition updateStock (productId : N) (quantity : Z)
  : M (Doc N ProductSchema.t) :=
  product ← findById productId;
  match product with
  | None => throw (Error "Product not found")
  | Some product =>
      if stock (fields product) <? quantity
      then throw (Error "Insufficient stock")
      else save (with_fields product
                   (set_stock (stock (fields product) - quantity)
                      (fields product)))
  end.

(** [ProductSchema.statics.addStock]; a quantity is an integer here, so
    only its sign is left of [Number.isInteger(quantity)]. *)
Definition addStock (productId : N) (quantity : Z)
  : M (Doc N ProductSchema.t) :=
  if quantity <=? 0
  then throw (Error "Quantity must be a positive integer")
  else
    product ← findById productId;
    match product with
    | None => throw (Error "Product not found")
    | Some product =>
        save (with_fields product
                (set_stock (stock (fields product) + quantity)
                   (fields product)))
    end.

(** [ProductSchema.statics.setAvailability] *)
Definition setAvailability (productId : N) (isAvailable : bool)
  : M (Doc N ProductSchema.t) :=
  product ← findById productId;
  match product with
  | None => throw (Error "Product not found")
  | Some product =>
      save (with_fields product (set_isAvailable isAvailable (fields product)))
  end.

(** [ProductSchema.methods.hasEnoughStock] *)
Definition hasEnoughStock (this : ProductSchema.t) (quantity : Z) : bool :=
  (quantity <=? stock this) && isAvailable this.

(** [Product.findOne({ _id: productId, retailer })] *)
Definition findOne (productId retailerId : N)
  : M (option (Doc N ProductSchema.t)) :=
  gets (fun w =>
    match Products w !! productId with
    | Some p =>
        if N.eqb (retailer p) retailerId
        then Some {| _id := productId; fields := p |}
        else None
    | None => None
    end).

(** [product.remove()] *)
Definition remove (this : Doc N ProductSchema.t)
  : M (Doc N ProductSchema.t) :=
  _ ← modify (fun w => set_Products (delete (_id this) (Products w)) w);
  mret this.

End Product.

(** ** models/Cart.js *)

(** An entry of the list [verifyAvailability] returns. *)
Record UnavailableItem := {
  productId : N;
  productName : string;
  requested : Z;
  available : Z;
  isAvailable : bool
}.

Record Availability := {
  isValid : bool;
  unavailableItems : list UnavailableItem
}.

Module Cart.
Import CartSchema.

Definition findById (id : N) : M (option (Doc N CartSchema.t)) :=
  gets (fun w => (fun c => {| _id := id; fields := c |}) <$> Carts w !! id).

(** [Cart.findOne({ customer })] *)
Definition findOne (customerId : N) : M (option (Doc N CartSchema.t)) :=
  gets (fun w =>
    (fun kc => {| _id := kc.1; fields := kc.2 |}) <$>
    head (filter (fun kc => customer kc.2 = customerId)
            (map_to_list (Carts w)))).

(** [CartSchema.virtual('subtotal')] *)
Definition subtotal (this : CartSchema.t) : Q :=
  fold_left
    (fun total item =>
       (total + CartItemSchema.price item
                * inject_Z (CartItemSchema.quantity item))%Q)
    (items this) 0%Q.

(** [CartSchema.virtual('tax')] *)
Definition tax (e : Env) (this : CartSchema.t) : Q :=
  let taxRate := default (1 # 10)%Q (TAX_RATE e) in
  (inject_Z (Math_round ((subtotal this - discount this) * taxRate * 100))
   / 100)%Q.

(** [CartSchema.virtual('deliveryFee')] *)
Definition deliveryFee (e : Env) (this : CartSchema.t) : Q :=
  default 5%Q (STANDARD_DELIVERY_FEE e).

(** [CartSchema.virtual('total')] *)
Definition total (e : Env) (this : CartSchema.t) : Q :=
  let subtotal := subtotal this in
  let discountedSubtotal := (subtotal - discount this)%Q in
  (discountedSubtotal + tax e this + deliveryFee e this)%Q.

(** [CartSchema.virtual('itemCount')] *)
Definition itemCount (this : CartSchema.t) : Z :=
  fold_left (fun count item => count + CartItemSchema.quantity item)
    (items this) 0.

(** [CartSchema.pre('save')]: every item must carry the retailer of the
    first one. *)
Definition preSave (this : CartSchema.t) : exn + CartSchema.t :=
  match items this with
  | [] => inr this
  | first :: _ =>
      let firstItemRetailerId := CartItemSchema.retailerId first in
      let allFromSameRetailer :=
        forallb (fun item =>
                   N.eqb (CartItemSchema.retailerId item) firstItemRetailerId)
          (items this) in
      if negb allFromSameRetailer
      then inl (Error "All items in cart must be from the same retailer")
      else inr (set_retailer (Some firstItemRetailerId) this)
  end.

(** [this.save()]: the hook, then the write. *)
Definition save (this : Doc N CartSchema.t) : M (Doc N CartSchema.t) :=
  match preSave (fields this) with
  | inl error => throw error
  | inr c =>
      _ ← modify (fun w => set_Carts (<[_id this := c]> (Carts w)) w);
      mret (with_fields this c)
  end.

(** [this.items.findIndex(item => item.product.toString() ===
    productId.toString())]; [None] stands for -1. *)
Definition findIndex (productId : N) (l : list CartItemSchema.t)
  : option nat :=
  fst <$> list_find (fun item => CartItemSchema.product item = productId) l.

(** [CartSchema.methods.addItem] *)
Definition addItem (this : Doc N CartSchema.t) (productId : N)
    (quantity : Z) : M (Doc N CartSchema.t) :=
  product ← Product.findById productId;
  match product with
  | None => throw (Error "Product not found")
  | Some product =>
      let product := fields product in
      if negb (ProductSchema.isAvailable product)
         || (ProductSchema.stock product <? quantity)
      then throw (Error "Product is unavailable or insufficient stock")
      else
        let existingItemIndex := findIndex productId (items (fields this)) in
        match existingItemIndex with
        | Some existingItemIndex =>
            save (with_fields this
              (set_items
                 (alter (fun item =>
                    {| CartItemSchema.product := CartItemSchema.product item;
                       CartItemSchema.quantity :=
                         CartItemSchema.quantity item + quantity;
                       CartItemSchema.price := ProductSchema.price product;
                       CartItemSchema.productName :=
                         CartItemSchema.productName item;
                       CartItemSchema.productImage :=
                         CartItemSchema.productImage item;
                       CartItemSchema.retailerId :=
                         CartItemSchema.retailerId item |})
                    existingItemIndex (items (fields this)))
                 (fields this)))
        | None =>
            let pushed :=
              set_items
                (items (fields this) ++
                 [{| CartItemSchema.product := productId;
                     CartItemSchema.quantity := quantity;
                     CartItemSchema.price := ProductSchema.price product;
                     CartItemSchema.productName := ProductSchema.name product;
                     CartItemSchema.productImage :=
                       match ProductSchema.images product with
                       | image :: _ => image
                       | [] => ""
                       end;
                     CartItemSchema.retailerId :=
                       ProductSchema.retailer product |}])
                (fields this) in
            save (with_fields this
              (match retailer pushed with
               | None =>
                   set_retailer (Some (ProductSchema.retailer product)) pushed
               | Some _ => pushed
               end))
        end
  end.

(** [CartSchema.methods.removeItem] *)
Definition removeItem (this : Doc N CartSchema.t) (productId : N)
  : M (Doc N CartSchema.t) :=
  save (with_fields this
    (set_items
       (filter (fun item => CartItemSchema.product item ≠ productId)
          (items (fields this)))
       (fields this))).

(** [CartSchema.methods.updateItemQuantity] *)
Definition updateItemQuantity (this : Doc N CartSchema.t) (productId : N)
    (quantity : Z) : M (Doc N CartSchema.t) :=
  if quantity <=? 0 then removeItem this productId
  else
    product ← Product.findById productId;
    match product with
    | None => throw (Error "Product not found")
    | Some product =>
        let product := fields product in
        if negb (ProductSchema.isAvailable product)
           || (ProductSchema.stock product <? quantity)
        then throw (Error "Product is unavailable or insufficient stock")
        else
          match findIndex productId (items (fields this)) with
          | None => throw (Error "Item not found in cart")
          | Some itemIndex =>
              save (with_fields this
                (set_items
                   (alter (fun item =>
                      {| CartItemSchema.product := CartItemSchema.product item;
                         CartItemSchema.quantity := quantity;
                         CartItemSchema.price := ProductSchema.price product;
                         CartItemSchema.productName :=
                           CartItemSchema.productName item;
                         CartItemSchema.productImage :=
                           CartItemSchema.productImage item;
                         CartItemSchema.retailerId :=
                           CartItemSchema.retailerId item |})
                      itemIndex (items (fields this)))
                   (fields this)))
          end
    end.

(** [CartSchema.methods.clearCart] *)
Definition clearCart (this : Doc N CartSchema.t) : M (Doc N CartSchema.t) :=
  save (with_fields this
    {| customer := customer (fields this);
       retailer := retailer (fields this);
       items := [];
       couponCode := None;
       discount := 0%Q |}).

(** The body of the loop of [verifyAvailability]: the entry pushed for
    [item], if any, given what [Product.findById(item.product)] returned. *)
Definition check (item : CartItemSchema.t)
    (product : option (Doc N ProductSchema.t)) : list UnavailableItem :=
  match product with
  | None =>
      [{| productId := CartItemSchema.product item;
          productName := CartItemSchema.productName item;
          requested := CartItemSchema.quantity item;
          available := 0;
          isAvailable := false |}]
  | Some product =>
      let product := fields product in
      if negb (ProductSchema.isAvailable product)
         || (ProductSchema.stock product <? CartItemSchema.quantity item)
      then
        [{| productId := CartItemSchema.product item;
            productName := CartItemSchema.productName item;
            requested := CartItemSchema.quantity item;
            available := ProductSchema.stock product;
            isAvailable := ProductSchema.isAvailable product |}]
      else []
  end.

Fixpoint verifyItems (l : list CartItemSchema.t) : M (list UnavailableItem) :=
  match l with
  | [] => mret []
  | item :: l' =>
      product ← Product.findById (CartItemSchema.product item);
      rest ← verifyItems l';
      mret (check item product ++ rest)%list
  end.

(** [CartSchema.methods.verifyAvailability] *)
Definition verifyAvailability (this : CartSchema.t) : M Availability :=
  unavailableItems ← verifyItems (items this);
  mret {| isValid := Nat.eqb (length unavailableItems) 0;
          unavailableItems := unavailableItems |}.

(** [new Cart({ customer, items: [] })]: a document not stored yet, under
    an [_id] no stored cart has. *)
Definition new (customerId : N) : M (Doc N CartSchema.t) :=
  gets (fun w =>
    {| _id := fresh (dom (Carts w));
       fields := {| customer := customerId; retailer := None; items := [];
                    couponCode := None; discount := 0%Q |} |}).

(** [Cart.create({ customer, items: [] })] *)
Definition create (customerId : N) : M (Doc N CartSchema.t) :=
  this ← new customerId;
  save this.

End Cart.

(** ** models/Order.js *)

(** The second and third argument of [createFromCart]. *)
Record PaymentDetails := {
  method : string;
  transactionId : option string
}.

Record DeliveryDetails := {
  address : Address;
  contactPhone : option string;
  instructions : option string;
  fee : option Q
}.

(** A cart item after [populate('items.product')] and, inside it,
    [populate('retailer')]: a reference whose document is gone is null. *)
Record PopulatedItem := {
  item : CartItemSchema.t;
  product : option (Doc N ProductSchema.t);
  product_retailer : option (Doc N RetailerSchema.t)
}.

Module Order.
Import OrderSchema.

Definition findById (id : nat) : M (option (Doc nat OrderSchema.t)) :=
  gets (fun w => (fun o => {| _id := id; fields := o |}) <$> Orders w !! id).

Definition set_status (v : Status) (o : t) : t :=
  {| customer := customer o; orderNumber := orderNumber o; items := items o;
     subtotal := subtotal o; discount := discount o; tax := tax o;
     deliveryFee := deliveryFee o; total := total o; status := v;
     statusHistory := statusHistory o; payment := payment o;
     delivery := delivery o; couponCode := couponCode o;
     cancelReason := cancelReason o |}.
Definition set_statusHistory (v : list StatusHistorySchema.t) (o : t) : t :=
  {| customer := customer o; orderNumber := orderNumber o; items := items o;
     subtotal := subtotal o; discount := discount o; tax := tax o;
     deliveryFee := deliveryFee o; total := total o; status := status o;
     statusHistory := v; payment := payment o;
     delivery := delivery o; couponCode := couponCode o;
     cancelReason := cancelReason o |}.
Definition set_orderNumber (v : string) (o : t) : t :=
  {| customer := customer o; orderNumber := v; items := items o;
     subtotal := subtotal o; discount := discount o; tax := tax o;
     deliveryFee := deliveryFee o; total := total o; status := status o;
     statusHistory := statusHistory o; payment := payment o;
     delivery := delivery o; couponCode := couponCode o;
     cancelReason := cancelReason o |}.
Definition set_payment (v : option PaymentSchema.t) (o : t) : t :=
  {| customer := customer o; orderNumber := orderNumber o; items := items o;
     subtotal := subtotal o; discount := discount o; tax := tax o;
     deliveryFee := deliveryFee o; total := total o; status := status o;
     statusHistory := statusHistory o; payment := v;
     delivery := delivery o; couponCode := couponCode o;
     cancelReason := cancelReason o |}.
Definition set_delivery (v : option DeliverySchema.t) (o : t) : t :=
  {| customer := customer o; orderNumber := orderNumber o; items := items o;
     subtotal := subtotal o; discount := discount o; tax := tax o;
     deliveryFee := deliveryFee o; total := total o; status := status o;
     statusHistory := statusHistory o; payment := payment o;
     delivery := v; couponCode := couponCode o;
     cancelReason := cancelReason o |}.
Definition set_cancelReason (v : option string) (o : t) : t :=
  {| customer := customer o; orderNumber := orderNumber o; items := items o;
     subtotal := subtotal o; discount := discount o; tax := tax o;
     deliveryFee := deliveryFee o; total := total o; status := status o;
     statusHistory := statusHistory o; payment := payment o;
     delivery := delivery o; couponCode := couponCode o;
     cancelReason := v |}.

(** [OrderSchema.pre('save')] on a new document: one order number is
    generated from the date and one value of [Math.random()], and the first
    entry of the history is pushed. *)
Definition preSave (this : OrderSchema.t) : M OrderSchema.t :=
  date ← gets clock;
  let year := substr_last2 (toString (getFullYear date)) in
  let month := padStart0 2 (toString (getMonth date + 1)) in
  let day := padStart0 2 (toString (getDate date)) in
  r ← Math_random;
  let random := padStart0 4 (toString (Math_floor (r * 10000))) in
  mret (set_statusHistory
          (statusHistory this ++
           [{| StatusHistorySchema.status := status this;
               StatusHistorySchema.timestamp := getTime date;
               StatusHistorySchema.note := "Order created" |}])
          (set_orderNumber
             ("NM-" ++ year ++ month ++ day ++ "-" ++ random) this)).

(** [required: true] on a [String]: an absent string is the empty one,
    which the validator refuses as well. *)
Definition required (s : string) : bool := negb (String.eqb s "").

(** [enum: [...]] *)
Definition oneOf (enum : list string) (s : string) : bool :=
  existsb (String.eqb s) enum.

(** The validators of [OrderItemSchema]. *)
Definition validateItem (item : OrderItemSchema.t) : bool :=
  (1 <=? OrderItemSchema.quantity item)
  && Qle_bool (1 # 100) (OrderItemSchema.price item)
  && required (OrderItemSchema.productName item)
  && required (OrderItemSchema.retailerName item).

Definition paymentMethods : list string :=
  ["credit_card"; "debit_card"; "paypal"; "cash_on_delivery"; "wallet"].

Definition paymentStatuses : list string :=
  ["pending"; "completed"; "failed"; "refunded"].

(** The validators of [PaymentSchema]. *)
Definition validatePayment (p : PaymentSchema.t) : bool :=
  oneOf paymentMethods (PaymentSchema.method p)
  && oneOf paymentStatuses (PaymentSchema.status p)
  && Qle_bool 0 (PaymentSchema.amount p).

(** The validators of [DeliverySchema]. *)
Definition validateDelivery (d : DeliverySchema.t) : bool :=
  required (street (DeliverySchema.address d))
  && required (city (DeliverySchema.address d))
  && required (state (DeliverySchema.address d))
  && required (zipCode (DeliverySchema.address d))
  && match DeliverySchema.contactPhone d with
     | Some phone => required phone
     | None => false
     end.

(** The validators of [OrderSchema]; the [enum] of [status] is the type
    [Status] and a reference is always there. *)
Definition validate (doc : OrderSchema.t) : bool :=
  required (orderNumber doc)
  && forallb validateItem (items doc)
  && Qle_bool 0 (subtotal doc)
  && Qle_bool 0 (discount doc)
  && Qle_bool 0 (tax doc)
  && Qle_bool 0 (deliveryFee doc)
  && Qle_bool 0 (total doc)
  && match payment doc with
     | Some p => validatePayment p
     | None => true
     end
  && match delivery doc with
     | Some d => validateDelivery d
     | None => true
     end.

(** [Order.create(doc)]: the validation of the document as it is given,
    before the hook has run; then the hook; then the insertion, which the
    unique index on [orderNumber] rejects when the number is taken. *)
Definition create (doc : OrderSchema.t) : M (Doc nat OrderSchema.t) :=
  if negb (validate doc) then throw ValidationError
  else
    this ← preSave doc;
    orders ← gets Orders;
    if existsb (fun o => String.eqb (orderNumber o) (orderNumber this)) orders
    then throw (DuplicateKey "orderNumber")
    else
      _ ← modify (set_Orders (orders ++ [this]));
      mret {| _id := length orders; fields := this |}.

(** [this.save()] on a stored order: the hook does nothing ([isNew] is
    false) and the document replaces the stored one.  What the methods
    below write passes the validators, but for the payment status, which
    [updatePayment] checks where it saves. *)
Definition save (this : Doc nat OrderSchema.t) : M (Doc nat OrderSchema.t) :=
  _ ← modify (fun w => set_Orders (<[_id this := fields this]> (Orders w)) w);
  mret this.

(** [OrderSchema.virtual('itemCount')] *)
Definition itemCount (this : OrderSchema.t) : Z :=
  fold_left (fun total item => total + OrderItemSchema.quantity item)
    (items this) 0.

(** The two [if]s on [this.delivery] shared by [updateStatus] and the
    retailer's handler. *)
Definition stampDelivery (status : Status) (now : Z)
    (delivery : option DeliverySchema.t) : option DeliverySchema.t :=
  match delivery with
  | None => None
  | Some d =>
      let d :=
        if decide (status = delivered)
        then DeliverySchema.set_actualDeliveryDate (Some now) d
        else d in
      let d :=
        if decide (status = confirmed)
        then match DeliverySchema.expectedDeliveryDate d with
             | None => DeliverySchema.set_expectedDeliveryDate
                         (Some (now + 3 * 24 * 60 * 60 * 1000)) d
             | Some _ => d
             end
        else d in
      Some d
  end.

(** [OrderSchema.methods.updateStatus] *)
Definition updateStatus (this : Doc nat OrderSchema.t) (status : Status)
    (note : string) : M (Doc nat OrderSchema.t) :=
  now ← gets (fun w => getTime (clock w));
  let o := set_status status (fields this) in
  let o := set_statusHistory
             (statusHistory o ++
              [{| StatusHistorySchema.status := status;
                  StatusHistorySchema.timestamp := now;
                  StatusHistorySchema.note := note |}]) o in
  let o := set_delivery (stampDelivery status now (delivery o)) o in
  save (with_fields this o).

(** [OrderSchema.methods.cancelOrder] *)
Definition cancelOrder (this : Doc nat OrderSchema.t) (reason : string)
  : M (Doc nat OrderSchema.t) :=
  if decide (status (fields this) = delivered)
  then throw (Error "Cannot cancel an order that has been delivered")
  else
    now ← gets (fun w => getTime (clock w));
    let o := set_status cancelled (fields this) in
    let o := set_cancelReason (Some reason) o in
    let o := set_statusHistory
               (statusHistory o ++
                [{| StatusHistorySchema.status := cancelled;
                    StatusHistorySchema.timestamp := now;
                    StatusHistorySchema.note := reason |}]) o in
    save (with_fields this o).

(** [OrderSchema.methods.updatePayment]; its [save] refuses a status that
    is not of the [enum] of [PaymentSchema]. *)
Definition updatePayment (this : Doc nat OrderSchema.t) (status : string)
    (transactionId : option string) : M (Doc nat OrderSchema.t) :=
  match payment (fields this) with
  | None => throw (Error "Payment information not found")
  | Some p =>
      now ← gets (fun w => getTime (clock w));
      let p :=
        {| PaymentSchema.method := PaymentSchema.method p;
           PaymentSchema.transactionId :=
             or_else transactionId (PaymentSchema.transactionId p);
           PaymentSchema.status := status;
           PaymentSchema.amount := PaymentSchema.amount p;
           PaymentSchema.paidAt :=
             if String.eqb status "completed" then Some now
             else PaymentSchema.paidAt p |} in
      if negb (oneOf paymentStatuses status) then throw ValidationError
      else save (with_fields this (set_payment (Some p) (fields this)))
  end.

(** [Cart.findById(cartId).populate(...)], the populated items. *)
Definition populate (l : list CartItemSchema.t) : M (list PopulatedItem) :=
  gets (fun w =>
    map (fun item =>
           let p := Products w !! CartItemSchema.product item in
           {| item := item;
              product :=
                (fun p => {| _id := CartItemSchema.product item;
                             fields := p |}) <$> p;
              product_retailer :=
                p ≫= (fun p =>
                  (fun r => {| _id := ProductSchema.retailer p;
                               fields := r |}) <$>
                  Retailers w !! ProductSchema.retailer p) |})
        l).

(** The callback of [cart.items.map]: [None] when [item.product] or
    [item.product.retailer] is null, where the property read throws. *)
Definition orderItem (i : PopulatedItem) : option OrderItemSchema.t :=
  match product i, product_retailer i with
  | Some p, Some r =>
      Some {| OrderItemSchema.product := _id p;
              OrderItemSchema.quantity := CartItemSchema.quantity (item i);
              OrderItemSchema.price := CartItemSchema.price (item i);
              OrderItemSchema.productName :=
                CartItemSchema.productName (item i);
              OrderItemSchema.productImage :=
                CartItemSchema.productImage (item i);
              OrderItemSchema.retailer := _id r;
              OrderItemSchema.retailerName :=
                RetailerSchema.storeName (fields r) |}
  | _, _ => None
  end.

(** [OrderSchema.statics.createFromCart] *)
Definition createFromCart (cartId : N) (paymentDetails : PaymentDetails)
    (deliveryDetails : DeliveryDetails) : M (Doc nat OrderSchema.t) :=
  cart ← Cart.findById cartId;
  match cart with
  | None => throw (Error "Cart not found")
  | Some cart =>
      populated ← populate (CartSchema.items (fields cart));
      if Nat.eqb (length (CartSchema.items (fields cart))) 0
      then throw (Error "Cannot create order with empty cart")
      else
        availability ← Cart.verifyAvailability (fields cart);
        if negb (isValid availability)
        then throw (Error "Some items are unavailable or out of stock")
        else
          match mapM orderItem populated with
          | None => throw TypeError
          | Some items =>
              let subtotal := Cart.subtotal (fields cart) in
              let tax := toFixed2 (subtotal * (1 # 10)) in
              let deliveryFee := default 0%Q (fee deliveryDetails) in
              let total :=
                (subtotal + tax + deliveryFee
                 - CartSchema.discount (fields cart))%Q in
              now ← gets (fun w => getTime (clock w));
              let cod := String.eqb (method paymentDetails)
                           "cash_on_delivery" in
              order ← create
                {| customer := CartSchema.customer (fields cart);
                   orderNumber := "";
                   items := items;
                   subtotal := subtotal;
                   discount := CartSchema.discount (fields cart);
                   tax := tax;
                   deliveryFee := deliveryFee;
                   total := total;
                   status := pending;
                   statusHistory := [];
                   payment := Some
                     {| PaymentSchema.method := method paymentDetails;
                        PaymentSchema.transactionId :=
                          transactionId paymentDetails;
                        PaymentSchema.status :=
                          if cod then "pending" else "completed";
                        PaymentSchema.amount := total;
                        PaymentSchema.paidAt :=
                          if cod then None else Some now |};
                   delivery := Some
                     {| DeliverySchema.address := address deliveryDetails;
                        DeliverySchema.contactPhone :=
                          contactPhone deliveryDetails;
                        DeliverySchema.instructions :=
                          instructions deliveryDetails;
                        DeliverySchema.expectedDeliveryDate :=
                          Some (now + 2 * 24 * 60 * 60 * 1000);
                        DeliverySchema.actualDeliveryDate := None;
                        DeliverySchema.trackingNumber := None |};
                   couponCode := CartSchema.couponCode (fields cart);
                   cancelReason := None |};
              _ ← for_of (CartSchema.items (fields cart)) (fun item =>
                    _ ← Product.updateStock (CartItemSchema.product item)
                          (CartItemSchema.quantity item);
                    mret tt);
              _ ← Cart.clearCart cart;
              mret order
          end
  end.

End Order.

(** ** Request handlers *)

(** What a handler sends: [res.status(code).json({ success, message, ... })]. *)
Record Response := {
  code : nat;
  success : bool;
  message : string;
  body_unavailableItems : list UnavailableItem;
  body_order : option (Doc nat OrderSchema.t)
}.

Definition reply (code : nat) (success : bool) (message : string) : Response :=
  {| code := code; success := success; message := message;
     body_unavailableItems := []; body_order := None |}.

(** The [cart] object of the answers of the cart handlers; [discount] and
    [couponCode] are sent by [GET /cart] only. *)
Record CartView := {
  view_id : N;
  view_items : list CartItemSchema.t;
  view_subtotal : Q;
  view_total : Q;
  view_itemCount : Z;
  view_discount : option Q;
  view_couponCode : option (option string)
}.

(** What a cart handler sends; [available] and [isAvailable] are sent with
    the 400 of a product that cannot be ordered. *)
Record CartResponse := {
  cart_code : nat;
  cart_success : bool;
  cart_message : string;
  cart_available : option Z;
  cart_isAvailable : option bool;
  cart_body : option CartView
}.

Definition cartReply (code : nat) (success : bool) (message : string)
  : CartResponse :=
  {| cart_code := code; cart_success := success; cart_message := message;
     cart_available := None; cart_isAvailable := None; cart_body := None |}.

(** An order as [GET /api/retailer/orders] shows it to a retailer. *)
Record RetailerOrder := {
  ro_id : nat;
  ro_orderNumber : string;
  ro_customer : N;
  ro_status : Status;
  ro_delivery : option DeliverySchema.t;
  ro_statusHistory : list StatusHistorySchema.t;
  ro_items : list OrderItemSchema.t;
  ro_subtotal : Q
}.

Record OrdersResponse := {
  orders_code : nat;
  orders_success : bool;
  orders_count : nat;
  orders_body : list RetailerOrder
}.

Module customer.

(** [router.post('/order', isCustomer, ...)]; [user] is [req.user.id] and
    the other arguments are the fields read from [req.body]. *)
Definition postOrder (user : N) (paymentMethod : option string)
    (deliveryAddress : option Address)
    (deliveryPhone deliveryInstructions : option string) : M Response :=
  try_catch
    (match paymentMethod with
     | None | Some "" => mret (reply 400 false "Payment method is required")
     | Some paymentMethod =>
         cart ← Cart.findOne user;
         match cart with
         | None => mret (reply 400 false "Cart is empty")
         | Some cart =>
             if Nat.eqb (length (CartSchema.items (fields cart))) 0
             then mret (reply 400 false "Cart is empty")
             else
               availability ← Cart.verifyAvailability (fields cart);
               if negb (isValid availability)
               then mret
                 {| code := 400; success := false;
                    message := "Some items are unavailable or out of stock";
                    body_unavailableItems := unavailableItems availability;
                    body_order := None |}
               else
                 customer ← gets (fun w => Customers w !! user);
                 match customer with
                 | None => mret (reply 404 false "Customer not found")
                 | Some customer =>
                     let address :=
                       default (CustomerSchema.address customer)
                         deliveryAddress in
                     let contactPhone :=
                       or_else deliveryPhone
                         (CustomerSchema.phone customer) in
                     order ← Order.createFromCart (_id cart)
                       {| method := paymentMethod; transactionId := None |}
                       {| address := address;
                          contactPhone := contactPhone;
                          instructions := deliveryInstructions;
                          fee := Some 5%Q |};
                     mret {| code := 201; success := true;
                             message := "Order created successfully";
                             body_unavailableItems := [];
                             body_order := Some order |}
                 end
         end
     end)
    (fun error => mret (reply 500 false "Server error")).

(** The [cart] object built from a cart document and [process.env]. *)
Definition cartView (e : Env) (cart : Doc N CartSchema.t)
    (withDiscount : bool) : CartView :=
  {| view_id := _id cart;
     view_items := CartSchema.items (fields cart);
     view_subtotal := Cart.subtotal (fields cart);
     view_total := Cart.total e (fields cart);
     view_itemCount := Cart.itemCount (fields cart);
     view_discount :=
       if withDiscount then Some (CartSchema.discount (fields cart))
       else None;
     view_couponCode :=
       if withDiscount then Some (CartSchema.couponCode (fields cart))
       else None |}.

(** [router.get('/cart', isCustomer, ...)] *)
Definition getCart (user : N) : M CartResponse :=
  try_catch
    (cart ← Cart.findOne user;
     cart ← match cart with
            | None => Cart.create user
            | Some cart => mret cart
            end;
     e ← gets env;
     mret {| cart_code := 200; cart_success := true; cart_message := "";
             cart_available := None; cart_isAvailable := None;
             cart_body := Some (cartView e cart true) |})
    (fun error => mret (cartReply 500 false "Server error")).


(** [router.delete('/cart/remove/:productId', isCustomer, ...)] *)
Definition deleteCartRemove (user : N) (productId : option N)
  : M CartResponse :=
  try_catch
    (match productId with
     | None => mret (cartReply 400 false "Product ID is required")
     | Some productId =>
         cart ← Cart.findOne user;
         match cart with
         | None => mret (cartReply 404 false "Cart not found")
         | Some cart =>
             let itemExists :=
               existsb (fun item =>
                          N.eqb (CartItemSchema.product item) productId)
                 (CartSchema.items (fields cart)) in
             if negb itemExists
             then mret (cartReply 404 false "Item not found in cart")
             else
               _ ← Cart.removeItem cart productId;
               cart ← Cart.findById (_id cart);
               match cart with
               | None => throw TypeError
               | Some cart =>
                   e ← gets env;
                   mret {| cart_code := 200; cart_success := true;
                           cart_message := "Item removed from cart";
                           cart_available := None;
                           cart_isAvailable := None;
                           cart_body := Some (cartView e cart false) |}
               end
         end
     end)
    (fun error => mret (cartReply 500 false "Server error")).

End customer.

Module retailer.

Definition validStatuses : list Status :=
  [confirmed; processing; out_for_delivery; delivered].

(** [router.put('/orders/:id/status', isRetailer, ...)]; [user] is
    [req.user.id], [orderId] is [req.params.id] and [status] is
    [req.body.status] ([None] when it is missing). *)
Definition putOrderStatus (user : N) (orderId : nat) (status : option Status)
  : M Response :=
  try_catch
    (match status with
     | None => mret (reply 400 false "Status is required")
     | Some status =>
         if negb (bool_decide (status ∈ validStatuses))
         then mret (reply 400 false
           "Invalid status. Must be one of: confirmed, processing, out_for_delivery, delivered")
         else
           order ← Order.findById orderId;
           match order with
           | None => mret (reply 404 false "Order not found")
           | Some order =>
               let hasRetailerItems :=
                 existsb (fun item => N.eqb (OrderItemSchema.retailer item) user)
                   (OrderSchema.items (fields order)) in
               if negb hasRetailerItems
               then mret (reply 403 false
                 "This order does not contain any items from your store")
               else if decide (OrderSchema.status (fields order) = cancelled)
               then mret (reply 400 false
                 "Cannot update status for cancelled orders")
               else
                 now ← gets (fun w => getTime (clock w));
                 let o := Order.set_status status (fields order) in
                 let o := Order.set_statusHistory
                   (OrderSchema.statusHistory o ++
                    [{| StatusHistorySchema.status := status;
                        StatusHistorySchema.timestamp := now;
                        StatusHistorySchema.note :=
                          "Status updated by retailer ID: "
                          ++ toString (Z.of_N user) |}]) o in
                 let o := Order.set_delivery
                   (Order.stampDelivery status now (OrderSchema.delivery o))
                   o in
                 order ← Order.save (with_fields order o);
                 mret {| code := 200; success := true;
                         message := "Order status updated successfully";
                         body_unavailableItems := [];
                         body_order := Some order |}
           end
     end)
    (fun error => mret (reply 500 false "Server error")).

(** [router.delete('/products/:id', isRetailer, ...)] *)
Definition deleteProduct (user : N) (productId : N) : M Response :=
  try_catch
    (product ← Product.findOne productId user;
     match product with
     | None => mret (reply 404 false
         "Product not found or not owned by this retailer")
     | Some product =>
         _ ← Product.remove product;
         mret (reply 200 true "Product deleted successfully")
     end)
    (fun error => mret (reply 500 false "Server error")).

(** The object the handler makes of an order for a retailer. *)
Definition retailerOrder (user : N) (order : Doc nat OrderSchema.t)
  : RetailerOrder :=
  let retailerItems :=
    List.filter (fun item => N.eqb (OrderItemSchema.retailer item) user)
      (OrderSchema.items (fields order)) in
  {| ro_id := _id order;
     ro_orderNumber := OrderSchema.orderNumber (fields order);
     ro_customer := OrderSchema.customer (fields order);
     ro_status := OrderSchema.status (fields order);
     ro_delivery := OrderSchema.delivery (fields order);
     ro_statusHistory := OrderSchema.statusHistory (fields order);
     ro_items := retailerItems;
     ro_subtotal :=
       fold_left
         (fun total item =>
            (total + OrderItemSchema.price item
                     * inject_Z (OrderItemSchema.quantity item))%Q)
         retailerItems 0%Q |}.

(** [Order.find({ 'items.retailer': user }).sort({ createdAt: -1 })]: the
    orders are stored in the order of their creation, the newest last. *)
Definition findByRetailer (user : N) : M (list (Doc nat OrderSchema.t)) :=
  gets (fun w =>
    reverse
      (List.filter
         (fun order =>
            existsb (fun item => N.eqb (OrderItemSchema.retailer item) user)
              (OrderSchema.items (fields order)))
         (imap (fun i o => {| _id := i; fields := o |}) (Orders w)))).

(** [router.get('/orders', isRetailer, ...)] *)
Definition getOrders (user : N) : M OrdersResponse :=
  try_catch
    (orders ← findByRetailer user;
     if Nat.eqb (length orders) 0
     then mret {| orders_code := 200; orders_success := true;
                  orders_count := 0; orders_body := [] |}
     else
       let filteredOrders := map (retailerOrder user) orders in
       mret {| orders_code := 200; orders_success := true;
               orders_count := length filteredOrders;
               orders_body := filteredOrders |})
    (fun error =>
       mret {| orders_code := 500; orders_success := false;
               orders_count := 0; orders_body := [] |}).

End retailer.

(** ** Operations that write a cart

    Every way the program has to write a cart: the four methods of the
    model, on any document, and the pipeline, whose last step is
    [clearCart]. *)

Inductive CartOp :=
| OpAddItem (this : Doc N CartSchema.t) (productId : N) (quantity : Z)
| OpRemoveItem (this : Doc N CartSchema.t) (productId : N)
| OpUpdateItemQuantity (this : Doc N CartSchema.t) (productId : N)
    (quantity : Z)
| OpClearCart (this : Doc N CartSchema.t)
| OpCreateFromCart (cartId : N) (paymentDetails : PaymentDetails)
    (deliveryDetails : DeliveryDetails).

Definition runCartOp (op : CartOp) : M unit :=
  match op with
  | OpAddItem this productId quantity =>
      _ ← Cart.addItem this productId quantity; mret tt
  | OpRemoveItem this productId =>
      _ ← Cart.removeItem this productId; mret tt
  | OpUpdateItemQuantity this productId quantity =>
      _ ← Cart.updateItemQuantity this productId quantity; mret tt
  | OpClearCart this =>
      _ ← Cart.clearCart this; mret tt
  | OpCreateFromCart cartId paymentDetails deliveryDetails =>
      _ ← Order.createFromCart cartId paymentDetails deliveryDetails;
      mret tt
  end.

(** The world after a sequence of operations, whether each one succeeds or
    throws. *)
Definition runCartOps (ops : list CartOp) (w : World) : World :=
  fold_left (fun w op => (runCartOp op w).2) ops w.

(** ** Operations on stored orders

    Every way the program has to write the orders once an order is stored:
    the three methods of the model, run on the document [findById] loads,
    the retailer's handler, and the pipeline run for another checkout. *)

Inductive OrderOp :=
| OpUpdateStatus (orderId : nat) (status : Status) (note : string)
| OpCancelOrder (orderId : nat) (reason : string)
| OpUpdatePayment (orderId : nat) (status : string)
    (transactionId : option string)
| OpPutOrderStatus (user : N) (orderId : nat) (status : option Status)
| OpCheckout (cartId : N) (paymentDetails : PaymentDetails)
    (deliveryDetails : DeliveryDetails).

Definition on_order (orderId : nat)
    (f : Doc nat OrderSchema.t -> M (Doc nat OrderSchema.t)) : M unit :=
  order ← Order.findById orderId;
  match order with
  | None => throw (Error "Order not found")
  | Some order => _ ← f order; mret tt
  end.

Definition runOrderOp (op : OrderOp) : M unit :=
  match op with
  | OpUpdateStatus orderId status note =>
      on_order orderId (fun this => Order.updateStatus this status note)
  | OpCancelOrder orderId reason =>
      on_order orderId (fun this => Order.cancelOrder this reason)
  | OpUpdatePayment orderId status transactionId =>
      on_order orderId
        (fun this => Order.updatePayment this status transactionId)
  | OpPutOrderStatus user orderId status =>
      _ ← retailer.putOrderStatus user orderId status; mret tt
  | OpCheckout cartId paymentDetails deliveryDetails =>
      _ ← Order.createFromCart cartId paymentDetails deliveryDetails;
      mret tt
  end.

(** The world after a sequence of operations, whether each one succeeds or
    throws. *)
Definition runOrderOps (ops : list OrderOp) (w : World) : World :=
  fold_left (fun w op => (runOrderOp op w).2) ops w.

(** ** Predicates and functions of the statements *)

(** The world after a sequence of [Product.updateStock] calls, whether each
    one succeeds or throws. *)
Definition runUpdateStock (calls : list (N * Z)) (w : World) : World :=
  fold_left (fun w c => (Product.updateStock c.1 c.2 w).2) calls w.

(** The five amounts of an order. *)
Definition amounts (o : OrderSchema.t) : Q * Q * Q * Q * Q :=
  (OrderSchema.subtotal o, OrderSchema.discount o, OrderSchema.tax o,
   OrderSchema.deliveryFee o, OrderSchema.total o).

(** No stock is negative. *)
Definition stockNonNegative (w : World) : Prop :=
  forall id p, Products w !! id = Some p -> 0 <= ProductSchema.stock p.

(** What the loop of [verifyAvailability] collects, as a function of the
    catalog. *)
Definition unavailableIn (w : World) (l : list CartItemSchema.t)
  : list UnavailableItem :=
  l ≫= (fun item =>
    Cart.check item
      ((fun p => {| _id := CartItemSchema.product item; fields := p |})
       <$> Products w !! CartItemSchema.product item)).

(** All the items of a cart carry one retailer. *)
Definition singleRetailer (c : CartSchema.t) : Prop :=
  forall x y, x ∈ CartSchema.items c -> y ∈ CartSchema.items c ->
    CartItemSchema.retailerId x = CartItemSchema.retailerId y.

(** Every stored cart is a single-retailer cart. *)
Definition cartsSingleRetailer (w : World) : Prop :=
  forall id c, Carts w !! id = Some c -> singleRetailer c.

(** The retailer captured on each line is the retailer of the product the
    line refers to (a product never changes hands: no handler writes
    [product.retailer]). *)
Definition catalogConsistent (w : World) (c : CartSchema.t) : Prop :=
  forall item p, item ∈ CartSchema.items c ->
    Products w !! CartItemSchema.product item = Some p ->
    ProductSchema.retailer p = CartItemSchema.retailerId item.

(** The lines of a cart for one product. *)
Definition linesFor (productId : N) (c : CartSchema.t)
  : list CartItemSchema.t :=
  filter (fun item => CartItemSchema.product item = productId)
    (CartSchema.items c).

(** The order number the hook builds from a date and a value of
    [Math.random()]: the prefix from the date, the suffix from the random
    value. *)
Definition orderNumberOf (d : Date) (r : Q) : string :=
  "NM-" ++ substr_last2 (toString (getFullYear d))
  ++ padStart0 2 (toString (getMonth d + 1))
  ++ padStart0 2 (toString (getDate d))
  ++ "-" ++ padStart0 4 (toString (Math_floor (r * 10000))).

(** The order number the next [Order.create] builds in a world. *)
Definition nextOrderNumber (w : World) : string :=
  orderNumberOf (clock w) (random w (drawn w)).

(** An order number is stored. *)
Definition numberTaken (n : string) (w : World) : Prop :=
  exists o, o ∈ Orders w /\ OrderSchema.orderNumber o = n.

(** The failures of the gates that come before the order is stored. *)
Definition gateErrors : list exn :=
  [Error "Cart not found";
   Error "Cannot create order with empty cart";
   Error "Some items are unavailable or out of stock";
   TypeError].

(** ** Functions and relations of the further properties *)

(** The order [updateStatus] writes, and the retailer's handler with its
    own note. *)
Definition statusUpdated (o : OrderSchema.t) (status : Status) (now : Z)
    (note : string) : OrderSchema.t :=
  let o := Order.set_status status o in
  let o := Order.set_statusHistory
             (OrderSchema.statusHistory o ++
              [{| StatusHistorySchema.status := status;
                  StatusHistorySchema.timestamp := now;
                  StatusHistorySchema.note := note |}]) o in
  Order.set_delivery (Order.stampDelivery status now (OrderSchema.delivery o))
    o.

(** The order [cancelOrder] writes. *)
Definition cancelledWith (o : OrderSchema.t) (reason : string) (now : Z)
  : OrderSchema.t :=
  let o := Order.set_status cancelled o in
  let o := Order.set_cancelReason (Some reason) o in
  Order.set_statusHistory
    (OrderSchema.statusHistory o ++
     [{| StatusHistorySchema.status := cancelled;
         StatusHistorySchema.timestamp := now;
         StatusHistorySchema.note := reason |}]) o.

(** The payment [updatePayment] writes. *)
Definition paymentUpdated (p : PaymentSchema.t) (status : string)
    (transactionId : option string) (now : Z) : PaymentSchema.t :=
  {| PaymentSchema.method := PaymentSchema.method p;
     PaymentSchema.transactionId :=
       or_else transactionId (PaymentSchema.transactionId p);
     PaymentSchema.status := status;
     PaymentSchema.amount := PaymentSchema.amount p;
     PaymentSchema.paidAt :=
       if String.eqb status "completed" then Some now
       else PaymentSchema.paidAt p |}.

(** Every order of [l] is at its place in [l'], related by [R] to what it
    was. *)
Definition related (R : relation OrderSchema.t)
    (l l' : list OrderSchema.t) : Prop :=
  forall i o, l !! i = Some o -> exists o', l' !! i = Some o' /\ R o o'.

(** The last entry of the history of an order carries its status. *)
Definition historyTracksStatus (o : OrderSchema.t) : Prop :=
  StatusHistorySchema.status <$> last (OrderSchema.statusHistory o)
  = Some (OrderSchema.status o).

(** The expected delivery date of an order, if it has one. *)
Definition expectedDelivery (o : OrderSchema.t) : option Z :=
  OrderSchema.delivery o ≫= DeliverySchema.expectedDeliveryDate.

(** The stored orders as documents, from the id [k] on. *)
Definition docsFrom (k : nat) (l : list OrderSchema.t)
  : list (Doc nat OrderSchema.t) :=
  imap (fun i o => {| _id := (k + i)%nat; fields := o |}) l.

(** ** Sample data for the concrete runs *)

Module Sample.

Definition home : Address :=
  {| street := "1 Main Street"; city := "Springfield"; state := "IL";
     zipCode := "62701" |}.

Definition product (name : string) (price : Q) (stock : Z) (retailer : N)
  : ProductSchema.t :=
  {| ProductSchema.name := name; ProductSchema.price := price;
     ProductSchema.stock := stock; ProductSchema.images := [];
     ProductSchema.retailer := retailer; ProductSchema.isAvailable := true |}.

Definition line (productId : N) (name : string) (price : Q) (quantity : Z)
    (retailer : N) : CartItemSchema.t :=
  {| CartItemSchema.product := productId;
     CartItemSchema.quantity := quantity;
     CartItemSchema.price := price;
     CartItemSchema.productName := name;
     CartItemSchema.productImage := "";
     CartItemSchema.retailerId := retailer |}.

Definition cart (items : list CartItemSchema.t) (discount : Q)
  : CartSchema.t :=
  {| CartSchema.customer := 7%N; CartSchema.retailer := None;
     CartSchema.items := items; CartSchema.couponCode := None;
     CartSchema.discount := discount |}.

(** Retailers 100 and 200, customer 7 with the cart 50, products 1 and 2 of
    retailer 100 and product 3 of retailer 200, on 2 November 2026. *)
Definition world (apples : Z) (c : CartSchema.t) (orders : list OrderSchema.t)
  : World :=
  {| Products :=
       <[1%N := product "apple" (299 # 100) apples 100%N]>
       (<[2%N := product "bread" (199 # 100) 1 100%N]>
       (<[3%N := product "soap" (10 # 1) 5 200%N]> ∅));
     Retailers :=
       <[100%N := {| RetailerSchema.name := "Ann";
                     RetailerSchema.storeName := "Corner Shop" |}]>
       (<[200%N := {| RetailerSchema.name := "Bob";
                      RetailerSchema.storeName := "Drug Store" |}]> ∅);
     Customers :=
       <[7%N := {| CustomerSchema.address := home;
                   CustomerSchema.phone := Some "555-0100" |}]> ∅;
     Carts := <[50%N := c]> ∅;
     Orders := orders;
     env := {| TAX_RATE := None; STANDARD_DELIVERY_FEE := None |};
     clock := {| getTime := 1793577600000; getFullYear := 2026;
                 getMonth := 10; getDate := 2 |};
     random := fun n => match n with
                        | O => (1234 # 10000)%Q
                        | _ => (5678 # 10000)%Q
                        end;
     drawn := 0 |}.

Definition cash : PaymentDetails :=
  {| method := "cash_on_delivery"; transactionId := None |}.

Definition toHome : DeliveryDetails :=
  {| address := home; contactPhone := Some "555-0100";
     instructions := None; fee := Some 5%Q |}.

(** A stored order of retailer 100 in a given status. *)
Definition order (number : string) (status : Status) : OrderSchema.t :=
  {| OrderSchema.customer := 7%N;
     OrderSchema.orderNumber := number;
     OrderSchema.items :=
       [{| OrderItemSchema.product := 1%N;
           OrderItemSchema.quantity := 1;
           OrderItemSchema.price := 299 # 100;
           OrderItemSchema.productName := "apple";
           OrderItemSchema.productImage := "";
           OrderItemSchema.retailer := 100%N;
           OrderItemSchema.retailerName := "Corner Shop" |}];
     OrderSchema.subtotal := 299 # 100;
     OrderSchema.discount := 0;
     OrderSchema.tax := 30 # 100;
     OrderSchema.deliveryFee := 5;
     OrderSchema.total := 829 # 100;
     OrderSchema.status := status;
     OrderSchema.statusHistory := [];
     OrderSchema.payment := None;
     OrderSchema.delivery := None;
     OrderSchema.couponCode := None;
     OrderSchema.cancelReason := None |}.

End Sample.

(** * Properties *)

(** Unfolding of the monad's operations in a goal and in the context. *)
Ltac unfold_M :=
  unfold mbind, M_bind, mret, M_ret, gets, throw, modify, try_catch in *.

(** The world a computation leaves does not depend on what is done with
    its value. *)
Lemma discard_world {A} (c : M A) (w : World) :
  ((_ ← c; mret tt) w).2 = (c w).2.
Proof. unfold mbind, M_bind. now destruct (c w) as [[e|x] w']. Qed.

(** ** The catalog: [Product.updateStock] *)

Section Catalog.

Import ProductSchema.

Lemma findById_eq (id : N) (w : World) :
  Product.findById id w =
  (inr ((fun p => {| _id := id; fields := p |}) <$> Products w !! id), w).
Proof. reflexivity. Qed.

Lemma updateStock_absent (w : World) (productId : N) (quantity : Z) :
  Products w !! productId = None ->
  Product.updateStock productId quantity w
  = (inl (Error "Product not found"), w).
Proof.
  intros Hnone. unfold Product.updateStock, Product.findById. unfold_M.
  now rewrite Hnone.
Qed.

Lemma updateStock_insufficient (w : World) (productId : N) (quantity : Z)
    (p : ProductSchema.t) :
  Products w !! productId = Some p -> stock p < quantity ->
  Product.updateStock productId quantity w
  = (inl (Error "Insufficient stock"), w).
Proof.
  intros Hp Hlt. unfold Product.updateStock, Product.findById. unfold_M.
  rewrite Hp. simpl.
  now destruct (Z.ltb_spec (stock p) quantity); [|lia].
Qed.

Lemma updateStock_enough (w : World) (productId : N) (quantity : Z)
    (p : ProductSchema.t) :
  Products w !! productId = Some p -> quantity <= stock p ->
  Product.updateStock productId quantity w
  = (inr {| _id := productId;
            fields := set_stock (stock p - quantity) p |},
     set_Products
       (<[productId := set_stock (stock p - quantity) p]> (Products w)) w).
Proof.
  intros Hp Hle. unfold Product.updateStock, Product.findById. unfold_M.
  rewrite Hp. simpl.
  now destruct (Z.ltb_spec (stock p) quantity); [lia|].
Qed.

Lemma updateStock_nonNegative (w : World) (productId : N) (quantity : Z) :
  stockNonNegative w ->
  stockNonNegative (Product.updateStock productId quantity w).2.
Proof.
  intros Hinv.
  destruct (Products w !! productId) as [p|] eqn:Hp.
  - destruct (Z.lt_ge_cases (stock p) quantity) as [Hlt|Hge].
    + now rewrite (updateStock_insufficient w productId quantity p).
    + rewrite (updateStock_enough w productId quantity p) by assumption.
      intros id q. simpl. rewrite lookup_insert.
      case_decide as Hid; [|apply Hinv].
      intros [= <-]. simpl. lia.
  - now rewrite updateStock_absent.
Qed.

Lemma runUpdateStock_nonNegative (calls : list (N * Z)) (w : World) :
  stockNonNegative w -> stockNonNegative (runUpdateStock calls w).
Proof.
  revert w. induction calls as [|c calls IH]; intros w Hinv; [exact Hinv|].
  apply IH, updateStock_nonNegative, Hinv.
Qed.

End Catalog.

(** ** The cart: [verifyAvailability] *)

Section Verifier.

Lemma verifyItems_eq (l : list CartItemSchema.t) (w : World) :
  Cart.verifyItems l w = (inr (unavailableIn w l), w).
Proof.
  induction l as [|item l IH]; [reflexivity|].
  simpl. unfold_M. unfold Product.findById. unfold_M.
  now rewrite IH.
Qed.

Lemma verifyAvailability_eq (this : CartSchema.t) (w : World) :
  Cart.verifyAvailability this w
  = (inr {| isValid :=
              Nat.eqb (length (unavailableIn w (CartSchema.items this))) 0;
            unavailableItems := unavailableIn w (CartSchema.items this) |},
     w).
Proof.
  unfold Cart.verifyAvailability. unfold_M. now rewrite verifyItems_eq.
Qed.

Lemma unavailableIn_elem (w : World) (l : list CartItemSchema.t)
    (item : CartItemSchema.t) (u : UnavailableItem) :
  item ∈ l ->
  u ∈ Cart.check item
        ((fun p => {| _id := CartItemSchema.product item; fields := p |})
         <$> Products w !! CartItemSchema.product item) ->
  u ∈ unavailableIn w l.
Proof.
  intros Hitem Hu. unfold unavailableIn.
  apply list_elem_of_bind. now exists item.
Qed.

Lemma not_valid_of_elem (l : list UnavailableItem) (u : UnavailableItem) :
  u ∈ l -> Nat.eqb (length l) 0 = false.
Proof. now intros Hu; destruct l; [inversion Hu|]. Qed.

End Verifier.

(** ** The gates of the pipeline *)

Section Gates.

Lemma findOne_stored (user : N) (w : World) (cart : Doc N CartSchema.t) :
  Cart.findOne user w = (inr (Some cart), w) ->
  Carts w !! _id cart = Some (fields cart).
Proof.
  unfold Cart.findOne. unfold_M. intros [= Hhead].
  destruct (filter _ (map_to_list (Carts w))) as [|kc l] eqn:Hfilter;
    [discriminate|].
  injection Hhead as <-. simpl.
  assert (kc ∈ filter (fun kc => CartSchema.customer kc.2 = user)
                 (map_to_list (Carts w))) as Hin.
  { rewrite Hfilter. apply list_elem_of_here. }
  apply list_elem_of_filter in Hin as [_ Hin].
  destruct kc as [k c]. now apply elem_of_map_to_list in Hin.
Qed.

Lemma unavailableIn_nonempty (w : World) (l : list CartItemSchema.t)
    (u : UnavailableItem) :
  u ∈ unavailableIn w l -> Nat.eqb (length l) 0 = false.
Proof. now intros Hu; destruct l; [inversion Hu|]. Qed.

(** An unavailable line closes the second gate of [createFromCart]. *)
Lemma createFromCart_unavailable (w : World) (cartId : N)
    (c : CartSchema.t) (u : UnavailableItem)
    (paymentDetails : PaymentDetails) (deliveryDetails : DeliveryDetails) :
  Carts w !! cartId = Some c ->
  u ∈ unavailableIn w (CartSchema.items c) ->
  Order.createFromCart cartId paymentDetails deliveryDetails w
  = (inl (Error "Some items are unavailable or out of stock"), w).
Proof.
  intros Hc Hu. unfold Order.createFromCart, Cart.findById, Order.populate.
  unfold_M. rewrite Hc. cbn [fmap option_fmap option_map fields].
  rewrite (unavailableIn_nonempty w _ u Hu), verifyAvailability_eq.
  cbn [isValid]. now rewrite (not_valid_of_elem _ u Hu).
Qed.

End Gates.

(** ** The cart: the single-retailer hook and [addItem] *)

Section SingleRetailer.

Import CartSchema.

Lemma preSave_conflict (c : CartSchema.t) (x y : CartItemSchema.t) :
  x ∈ items c -> y ∈ items c ->
  CartItemSchema.retailerId x <> CartItemSchema.retailerId y ->
  Cart.preSave c
  = inl (Error "All items in cart must be from the same retailer").
Proof.
  intros Hx Hy Hxy. unfold Cart.preSave.
  destruct (items c) as [|first l] eqn:Hitems; [inversion Hx|].
  destruct (forallb _ (first :: l)) eqn:Hall; [|reflexivity].
  exfalso. apply Hxy. rewrite forallb_forall in Hall.
  apply list_elem_of_In, Hall, N.eqb_eq in Hx.
  apply list_elem_of_In, Hall, N.eqb_eq in Hy.
  congruence.
Qed.

Lemma preSave_inr (c c' : CartSchema.t) :
  Cart.preSave c = inr c' -> items c' = items c /\ singleRetailer c'.
Proof.
  unfold Cart.preSave, singleRetailer.
  destruct (items c) as [|first l] eqn:Hitems.
  - intros [= <-]. rewrite Hitems. split; [reflexivity|].
    intros x y Hx. inversion Hx.
  - destruct (forallb _ (first :: l)) eqn:Hall; [|discriminate].
    intros [= <-]. simpl. rewrite Hitems. split; [reflexivity|].
    rewrite forallb_forall in Hall. intros x y Hx Hy.
    apply list_elem_of_In, Hall, N.eqb_eq in Hx.
    apply list_elem_of_In, Hall, N.eqb_eq in Hy.
    congruence.
Qed.

Lemma save_conflict (this : Doc N CartSchema.t) (x y : CartItemSchema.t)
    (w : World) :
  x ∈ items (fields this) -> y ∈ items (fields this) ->
  CartItemSchema.retailerId x <> CartItemSchema.retailerId y ->
  Cart.save this w
  = (inl (Error "All items in cart must be from the same retailer"), w).
Proof.
  intros Hx Hy Hxy. unfold Cart.save.
  now rewrite (preSave_conflict _ x y Hx Hy Hxy).
Qed.

(** What [save] returns is what it stored, under the document's [_id], and
    it is a single-retailer cart with the items it was given. *)
Lemma save_inr (this saved : Doc N CartSchema.t) (w w' : World) :
  Cart.save this w = (inr saved, w') ->
  _id saved = _id this
  /\ items (fields saved) = items (fields this)
  /\ singleRetailer (fields saved)
  /\ w' = set_Carts (<[_id this := fields saved]> (Carts w)) w.
Proof.
  unfold Cart.save.
  destruct (Cart.preSave (fields this)) as [e|c] eqn:Hhook;
    [discriminate|].
  unfold_M. intros [= <- <-]. simpl.
  apply preSave_inr in Hhook as [Hitems Hsingle]. auto.
Qed.

Lemma save_keeps_invariant (this : Doc N CartSchema.t) (w : World) :
  cartsSingleRetailer w -> cartsSingleRetailer (Cart.save this w).2.
Proof.
  intros Hinv.
  destruct (Cart.save this w) as [[e|saved] w'] eqn:Hsave.
  - unfold Cart.save in Hsave.
    destruct (Cart.preSave (fields this)); [|discriminate].
    now injection Hsave as _ <-.
  - apply save_inr in Hsave as (_ & _ & Hsingle & ->).
    intros id c. simpl. rewrite lookup_insert.
    case_decide; [now intros [= <-]|apply Hinv].
Qed.

(** The world [addItem] leaves is the one it found or the one a [save]
    made of it. *)
Lemma addItem_world (this : Doc N CartSchema.t) (productId : N)
    (quantity : Z) (w : World) :
  (Cart.addItem this productId quantity w).2 = w
  \/ exists c, (Cart.addItem this productId quantity w).2 = (Cart.save c w).2.
Proof.
  unfold Cart.addItem, Product.findById. unfold_M.
  destruct (Products w !! productId) as [p|]; simpl; [|now left].
  destruct (negb _ || _); [now left|].
  destruct (Cart.findIndex _ _); right; eexists; reflexivity.
Qed.

Lemma addItem_keeps_invariant (this : Doc N CartSchema.t) (productId : N)
    (quantity : Z) (w : World) :
  cartsSingleRetailer w ->
  cartsSingleRetailer (Cart.addItem this productId quantity w).2.
Proof.
  intros Hinv.
  destruct (addItem_world this productId quantity w) as [-> | [c ->]];
    [exact Hinv | now apply save_keeps_invariant].
Qed.

Lemma findIndex_Some (productId : N) (l : list CartItemSchema.t) (i : nat) :
  Cart.findIndex productId l = Some i ->
  exists x, l !! i = Some x /\ CartItemSchema.product x = productId
    /\ forall j y, l !! j = Some y -> (j < i)%nat ->
         CartItemSchema.product y <> productId.
Proof.
  unfold Cart.findIndex.
  destruct (list_find _ l) as [[k x]|] eqn:Hfind; [|discriminate].
  intros [= <-]. apply list_find_Some in Hfind. now exists x.
Qed.

Lemma findIndex_None (productId : N) (l : list CartItemSchema.t) :
  Cart.findIndex productId l = None ->
  Forall (fun x => CartItemSchema.product x <> productId) l.
Proof.
  unfold Cart.findIndex.
  destruct (list_find _ l) as [[k x]|] eqn:Hfind; [discriminate|].
  intros _. now apply list_find_None in Hfind.
Qed.

End SingleRetailer.

(** ** The cart: adding a product twice *)

Section ReAdd.

Import CartSchema.

Lemma findIndex_fresh (productId : N) (l : list CartItemSchema.t) :
  Forall (fun x => CartItemSchema.product x <> productId) l ->
  Cart.findIndex productId l = None.
Proof.
  unfold Cart.findIndex. induction 1 as [|x l Hx _ IH]; [reflexivity|].
  simpl. rewrite decide_False by exact Hx.
  destruct (list_find _ l); [discriminate | reflexivity].
Qed.

Lemma findIndex_snoc (productId : N) (l : list CartItemSchema.t)
    (x : CartItemSchema.t) :
  Forall (fun y => CartItemSchema.product y <> productId) l ->
  CartItemSchema.product x = productId ->
  Cart.findIndex productId (l ++ [x]) = Some (length l).
Proof.
  unfold Cart.findIndex. intros Hl Hx.
  induction Hl as [|y l Hy _ IH]; simpl.
  - now rewrite decide_True.
  - rewrite decide_False by exact Hy.
    destruct (list_find _ (l ++ [x])) as [[k z]|]; [|discriminate].
    simpl in *. congruence.
Qed.

Lemma linesFor_nil_Forall (productId : N) (c : CartSchema.t) :
  linesFor productId c = [] ->
  Forall (fun x => CartItemSchema.product x <> productId) (items c).
Proof.
  intros Hnil. apply Forall_forall. intros x Hx Hproduct.
  now apply (filter_nil_not_elem_of _ _ x Hnil Hproduct).
Qed.

Lemma Forall_linesFor_nil (productId : N) (l : list CartItemSchema.t) :
  Forall (fun x => CartItemSchema.product x <> productId) l ->
  filter (fun item => CartItemSchema.product item = productId) l = [].
Proof.
  induction 1 as [|x l Hx _ IH]; [reflexivity|].
  now rewrite filter_cons_False.
Qed.

End ReAdd.

(** ** The order: creation *)

Section Creation.

Import OrderSchema.

Lemma numberTaken_existsb (n : string) (w : World) :
  existsb (fun o => String.eqb (orderNumber o) n) (Orders w) = true
  <-> numberTaken n w.
Proof.
  unfold numberTaken. rewrite existsb_exists. split.
  - intros (o & Hin & Heq). exists o.
    split; [now apply list_elem_of_In | now apply String.eqb_eq].
  - intros (o & Hin & Heq). exists o.
    split; [now apply list_elem_of_In | now apply String.eqb_eq].
Qed.

(** The document the hook makes of a new order. *)
Lemma preSave_eq (doc : OrderSchema.t) (w : World) :
  Order.preSave doc w
  = (inr (Order.set_statusHistory
            (statusHistory doc ++
             [{| StatusHistorySchema.status := status doc;
                 StatusHistorySchema.timestamp := getTime (clock w);
                 StatusHistorySchema.note := "Order created" |}])
            (Order.set_orderNumber (nextOrderNumber w) doc)),
     set_drawn (S (drawn w)) w).
Proof. reflexivity. Qed.

(** A document that fails a validator is refused before the hook runs:
    no random value is drawn and nothing is stored. *)
Lemma create_invalid (doc : OrderSchema.t) (w : World) :
  Order.validate doc = false ->
  Order.create doc w = (inl ValidationError, w).
Proof. intros Hinvalid. unfold Order.create. now rewrite Hinvalid. Qed.

(** A document with no order number fails the validation. *)
Lemma validate_orderNumber (doc : OrderSchema.t) :
  orderNumber doc = "" -> Order.validate doc = false.
Proof.
  intros Hnone. unfold Order.validate, Order.required. now rewrite Hnone.
Qed.

Lemma create_taken (doc : OrderSchema.t) (w : World) :
  Order.validate doc = true ->
  numberTaken (nextOrderNumber w) w ->
  Order.create doc w
  = (inl (DuplicateKey "orderNumber"), set_drawn (S (drawn w)) w).
Proof.
  intros Hvalid Htaken. apply numberTaken_existsb in Htaken.
  unfold Order.create. rewrite Hvalid. cbn [negb].
  unfold mbind at 1, M_bind. rewrite preSave_eq.
  unfold_M. simpl. now rewrite Htaken.
Qed.

Lemma create_free (doc : OrderSchema.t) (w : World) :
  Order.validate doc = true ->
  ~ numberTaken (nextOrderNumber w) w ->
  exists o,
    Order.create doc w
    = (inr {| _id := length (Orders w); fields := o |},
       set_Orders (Orders w ++ [o]) (set_drawn (S (drawn w)) w))
    /\ orderNumber o = nextOrderNumber w
    /\ amounts o = amounts doc.
Proof.
  intros Hvalid Hfree. rewrite <- numberTaken_existsb in Hfree.
  apply not_true_is_false in Hfree.
  unfold Order.create. rewrite Hvalid. cbn [negb].
  unfold mbind at 1, M_bind. rewrite preSave_eq.
  unfold_M. simpl. rewrite Hfree. eexists. split; [reflexivity|].
  split; reflexivity.
Qed.

(** [create] either leaves the orders as they are or appends the document
    with its amounts. *)
Lemma create_orders (doc : OrderSchema.t) (w : World) :
  match Order.create doc w with
  | (inl _, w') => Orders w' = Orders w
  | (inr order, w') =>
      Orders w' = (Orders w ++ [fields order])%list
      /\ _id order = length (Orders w)
      /\ amounts (fields order) = amounts doc
      /\ ~ numberTaken (orderNumber (fields order)) w
  end.
Proof.
  destruct (Order.validate doc) eqn:Hvalid;
    [|now rewrite (create_invalid doc w Hvalid)].
  destruct (existsb (fun o => String.eqb (orderNumber o) (nextOrderNumber w))
              (Orders w)) eqn:Htaken.
  - apply numberTaken_existsb in Htaken.
    now rewrite (create_taken doc w Hvalid Htaken).
  - assert (~ numberTaken (nextOrderNumber w) w) as Hfree.
    { rewrite <- numberTaken_existsb. now rewrite Htaken. }
    destruct (create_free doc w Hvalid Hfree)
      as (o & -> & Hnumber & Hamounts).
    simpl. rewrite Hnumber. auto.
Qed.

Lemma create_unique (doc : OrderSchema.t) (w : World) :
  NoDup (orderNumber <$> Orders w) ->
  NoDup (orderNumber <$> Orders (Order.create doc w).2).
Proof.
  intros Hunique. pose proof (create_orders doc w) as Hcreate.
  destruct (Order.create doc w) as [[e|order] w']; simpl.
  - now rewrite Hcreate.
  - destruct Hcreate as (-> & _ & _ & Hfree).
    rewrite fmap_app. apply NoDup_app. split; [exact Hunique|].
    split; [|apply NoDup_singleton].
    intros n Hn Hn'. apply list_elem_of_singleton in Hn' as ->.
    apply Hfree. apply list_elem_of_fmap in Hn as (o & Heq & Hin).
    now exists o.
Qed.

End Creation.

(** ** The pipeline: the gates and the creation *)

Section Commit.

Import OrderSchema.

(** [createFromCart] always throws and leaves the world as it found it.  It
    stops at a gate, or it reaches [Order.create] with a document that has
    no order number: the validation refuses it before the hook could set
    one.  The stock loop and the clearing of the cart are never reached. *)
Lemma createFromCart_throws (cartId : N) (paymentDetails : PaymentDetails)
    (deliveryDetails : DeliveryDetails) (w : World) :
  exists e,
    Order.createFromCart cartId paymentDetails deliveryDetails w = (inl e, w)
    /\ (e ∈ gateErrors
        \/ e = ValidationError
           /\ exists c,
                Carts w !! cartId = Some c
                /\ CartSchema.items c <> []
                /\ unavailableIn w (CartSchema.items c) = []).
Proof.
  remember (Order.createFromCart cartId paymentDetails deliveryDetails w)
    as run eqn:Hrun.
  unfold Order.createFromCart, Cart.findById, Order.populate in Hrun.
  unfold mbind at 1, M_bind, gets in Hrun.
  destruct (Carts w !! cartId) as [c|] eqn:Hc; simpl in Hrun.
  2: { eexists. split; [exact Hrun|]. left. apply list_elem_of_here. }
  unfold mbind at 1, M_bind in Hrun.
  destruct (CartSchema.items c) as [|first l] eqn:Hitems.
  { eexists. split; [exact Hrun|]. left.
    apply list_elem_of_further, list_elem_of_here. }
  cbn [length Nat.eqb] in Hrun.
  unfold mbind at 1, M_bind in Hrun.
  rewrite verifyAvailability_eq in Hrun. cbn [isValid] in Hrun.
  cbn [fields] in Hrun. rewrite Hitems in Hrun.
  destruct (unavailableIn w (first :: l)) as [|u us] eqn:Hverified.
  2: { eexists. split; [exact Hrun|]. left.
       do 2 apply list_elem_of_further. apply list_elem_of_here. }
  cbn [length Nat.eqb negb] in Hrun.
  destruct (mapM _ _) as [items|].
  2: { eexists. split; [exact Hrun|]. left.
       do 3 apply list_elem_of_further. apply list_elem_of_here. }
  unfold mbind at 1, M_bind, gets in Hrun.
  unfold mbind at 1, M_bind in Hrun.
  rewrite create_invalid in Hrun by (now apply validate_orderNumber).
  eexists. split; [exact Hrun|]. right. split; [reflexivity|].
  exists c. rewrite Hitems. auto.
Qed.

Lemma createFromCart_world (cartId : N) (paymentDetails : PaymentDetails)
    (deliveryDetails : DeliveryDetails) (w : World) :
  (Order.createFromCart cartId paymentDetails deliveryDetails w).2 = w.
Proof.
  now destruct (createFromCart_throws cartId paymentDetails deliveryDetails w)
    as (e & -> & _).
Qed.

End Commit.

(** ** The carts: what is stored is single-retailer *)

Section CartWrites.

Lemma updateItemQuantity_keeps_invariant (this : Doc N CartSchema.t)
    (productId : N) (quantity : Z) (w : World) :
  cartsSingleRetailer w ->
  cartsSingleRetailer (Cart.updateItemQuantity this productId quantity w).2.
Proof.
  intros Hinv. unfold Cart.updateItemQuantity, Cart.removeItem.
  destruct (quantity <=? 0); [now apply save_keeps_invariant|].
  unfold Product.findById. unfold_M.
  destruct (Products w !! productId) as [p|]; simpl; [|exact Hinv].
  destruct (negb _ || _); [exact Hinv|].
  destruct (Cart.findIndex _ _); [now apply save_keeps_invariant|].
  exact Hinv.
Qed.

Lemma createFromCart_keeps_invariant (cartId : N)
    (paymentDetails : PaymentDetails) (deliveryDetails : DeliveryDetails)
    (w : World) :
  cartsSingleRetailer w ->
  cartsSingleRetailer
    (Order.createFromCart cartId paymentDetails deliveryDetails w).2.
Proof. now rewrite createFromCart_world. Qed.

Lemma runCartOp_keeps_invariant (op : CartOp) (w : World) :
  cartsSingleRetailer w -> cartsSingleRetailer (runCartOp op w).2.
Proof.
  intros Hinv.
  destruct op as [this productId quantity | this productId
                 | this productId quantity | this
                 | cartId paymentDetails deliveryDetails];
    unfold runCartOp; rewrite discard_world.
  - now apply addItem_keeps_invariant.
  - now apply save_keeps_invariant.
  - now apply updateItemQuantity_keeps_invariant.
  - now apply save_keeps_invariant.
  - now apply createFromCart_keeps_invariant.
Qed.

Lemma runCartOps_keeps_invariant (ops : list CartOp) (w : World) :
  cartsSingleRetailer w -> cartsSingleRetailer (runCartOps ops w).
Proof.
  revert w. induction ops as [|op ops IH]; intros w Hinv; [exact Hinv|].
  apply IH, runCartOp_keeps_invariant, Hinv.
Qed.

End CartWrites.

(** ** The claims *)

(** C1. Whatever step of [createFromCart] fails, the pipeline aborts with
    no order created and no stock changed, the carts being left alone too:
    the failure is one of the gates (no cart, an empty cart, a line that is
    unavailable or out of stock, a line whose retailer is gone) or the
    refusal of the order by its validators, and each comes before any
    write. *)
Theorem createFromCart_failure_writes_nothing (cartId : N)
    (paymentDetails : PaymentDetails) (deliveryDetails : DeliveryDetails)
    (w w' : World) (e : exn) :
  Order.createFromCart cartId paymentDetails deliveryDetails w
  = (inl e, w') ->
  Orders w' = Orders w /\ Products w' = Products w /\ Carts w' = Carts w.
Proof.
  intros Hrun.
  destruct (createFromCart_throws cartId paymentDetails deliveryDetails w)
    as (e' & Hthrown & _).
  rewrite Hthrown in Hrun. injection Hrun as _ <-. auto.
Qed.

(** The checkout of an empty cart stops at the second gate, and the
    checkout of two apples and a loaf, all in stock, is refused by the
    validators of the order: no order is stored and the ten apples are
    ten. *)
Lemma createFromCart_failure_writes_nothing_witness :
  (exists w',
     Order.createFromCart 50%N Sample.cash Sample.toHome
       (Sample.world 10 (Sample.cart [] 0) [])
     = (inl (Error "Cannot create order with empty cart"), w')
     /\ Orders w' = []
     /\ Products w' = Products (Sample.world 10 (Sample.cart [] 0) []))
  /\ (exists w',
        Order.createFromCart 50%N Sample.cash Sample.toHome
          (Sample.world 10
             (Sample.cart [Sample.line 1%N "apple" (299 # 100) 2 100%N;
                           Sample.line 2%N "bread" (199 # 100) 1 100%N] 0)
             [])
        = (inl ValidationError, w')
        /\ Orders w' = []
        /\ ProductSchema.stock <$> Products w' !! 1%N = Some 10).
Proof.
  split.
  - destruct (Order.createFromCart 50%N Sample.cash Sample.toHome
                (Sample.world 10 (Sample.cart [] 0) []))
      as [[e|order] w'] eqn:Hrun; [|vm_compute in Hrun; discriminate].
    destruct (createFromCart_failure_writes_nothing _ _ _ _ _ _ Hrun)
      as (Horders & Hproducts & _).
    exists w'. split; [|split; [exact Horders | exact Hproducts]].
    vm_compute in Hrun. injection Hrun as <- <-. reflexivity.
  - destruct (Order.createFromCart 50%N Sample.cash Sample.toHome
                (Sample.world 10
                   (Sample.cart [Sample.line 1%N "apple" (299 # 100) 2 100%N;
                                 Sample.line 2%N "bread" (199 # 100) 1 100%N]
                      0) []))
      as [[e|order] w'] eqn:Hrun; [|vm_compute in Hrun; discriminate].
    destruct (createFromCart_failure_writes_nothing _ _ _ _ _ _ Hrun)
      as (Horders & Hproducts & _).
    exists w'. split; [|split; [exact Horders|now rewrite Hproducts]].
    vm_compute in Hrun. injection Hrun as <- <-. reflexivity.
Defined.

(** C3 as the spec has it fails: the retailer's handler moves a delivered
    order back to confirmed, [updateStatus] itself moves a cancelled order,
    and [cancelOrder] accepts an order that is already cancelled. *)
Lemma terminal_status_not_absorbing :
  (exists r w',
     retailer.putOrderStatus 100%N 0 (Some confirmed)
       (Sample.world 10 (Sample.cart [] 0)
          [Sample.order "NM-261101-0001" delivered])
     = (inr r, w')
     /\ code r = 200%nat
     /\ OrderSchema.status <$> Orders w' !! 0%nat = Some confirmed)
  /\ (exists o w',
        Order.updateStatus
          {| _id := 0%nat; fields := Sample.order "NM-261101-0001" cancelled |}
          processing ""
          (Sample.world 10 (Sample.cart [] 0)
             [Sample.order "NM-261101-0001" cancelled])
        = (inr o, w')
        /\ OrderSchema.status <$> Orders w' !! 0%nat = Some processing)
  /\ (exists o w',
        Order.cancelOrder
          {| _id := 0%nat; fields := Sample.order "NM-261101-0001" cancelled |}
          "changed my mind"
          (Sample.world 10 (Sample.cart [] 0)
             [Sample.order "NM-261101-0001" cancelled])
        = (inr o, w')
        /\ OrderSchema.cancelReason <$> Orders w' !! 0%nat
           = Some (Some "changed my mind")).
Proof.
  split; [|split]; do 2 eexists; (split; [vm_compute; reflexivity|]);
    try split; reflexivity.
Qed.

(** C3, as the code has it.  The retailer's status update never succeeds on
    a cancelled order and changes nothing, answering 400 'Cannot update
    status for cancelled orders' to a request that is otherwise in order;
    [cancelOrder] on a delivered order throws 'Cannot cancel an order that
    has been delivered' and changes nothing. *)
Theorem terminal_status_guards :
  (forall (w : World) (user : N) (orderId : nat) (status : option Status)
          (o : OrderSchema.t),
     Orders w !! orderId = Some o ->
     OrderSchema.status o = cancelled ->
     exists r,
       retailer.putOrderStatus user orderId status w = (inr r, w)
       /\ success r = false
       /\ (forall s, status = Some s -> s ∈ retailer.validStatuses ->
           existsb (fun item => N.eqb (OrderItemSchema.retailer item) user)
             (OrderSchema.items o) = true ->
           code r = 400%nat
           /\ message r = "Cannot update status for cancelled orders"))
  /\ (forall (w : World) (this : Doc nat OrderSchema.t) (reason : string),
        OrderSchema.status (fields this) = delivered ->
        Order.cancelOrder this reason w
        = (inl (Error "Cannot cancel an order that has been delivered"), w)).
Proof.
  split.
  - intros w user orderId status o Ho Hcancelled.
    unfold retailer.putOrderStatus, try_catch.
    destruct status as [s|]; simpl.
    + destruct (bool_decide (s ∈ retailer.validStatuses)) eqn:Hvalid; simpl.
      * unfold Order.findById. unfold_M. rewrite Ho. simpl.
        destruct (existsb _ (OrderSchema.items o)) eqn:Hitems; simpl.
        -- rewrite decide_True by exact Hcancelled.
           eexists. split; [reflexivity|]. simpl. auto.
        -- eexists. split; [reflexivity|]. simpl.
           split; [reflexivity|]. intros; discriminate.
      * eexists. split; [reflexivity|]. simpl. split; [reflexivity|].
        intros s' [= <-] Hs'. apply bool_decide_eq_false in Hvalid.
        contradiction.
    + eexists. split; [reflexivity|]. simpl. split; [reflexivity|].
      intros; discriminate.
  - intros w this reason Hdelivered. unfold Order.cancelOrder.
    now rewrite decide_True by exact Hdelivered.
Qed.

(** The guards on the sample order: a cancelled order refuses the status
    update, a delivered order refuses the cancellation. *)
Lemma terminal_status_guards_witness :
  (exists r,
     retailer.putOrderStatus 100%N 0 (Some delivered)
       (Sample.world 10 (Sample.cart [] 0)
          [Sample.order "NM-261101-0001" cancelled])
     = (inr r,
        Sample.world 10 (Sample.cart [] 0)
          [Sample.order "NM-261101-0001" cancelled])
     /\ code r = 400%nat
     /\ message r = "Cannot update status for cancelled orders")
  /\ Order.cancelOrder
       {| _id := 0%nat; fields := Sample.order "NM-261101-0001" delivered |}
       "too late"
       (Sample.world 10 (Sample.cart [] 0)
          [Sample.order "NM-261101-0001" delivered])
     = (inl (Error "Cannot cancel an order that has been delivered"),
        Sample.world 10 (Sample.cart [] 0)
          [Sample.order "NM-261101-0001" delivered]).
Proof.
  split.
  - destruct (proj1 terminal_status_guards
                (Sample.world 10 (Sample.cart [] 0)
                   [Sample.order "NM-261101-0001" cancelled])
                100%N 0%nat (Some delivered)
                (Sample.order "NM-261101-0001" cancelled))
      as (r & Hrun & Hfail & Hanswer); [reflexivity | reflexivity |].
    exists r. split; [exact Hrun|].
    apply (Hanswer delivered); [reflexivity | | reflexivity].
    unfold retailer.validStatuses.
    do 3 apply list_elem_of_further. apply list_elem_of_here.
  - apply (proj2 terminal_status_guards). reflexivity.
Defined.

(** C4. When the cart holds a line for product P with quantity 3 and P's
    stock is 1 at checkout, the checkout handler answers 400 'Some items are
    unavailable or out of stock' with a list that has P with [requested] 3
    and [available] 1, [createFromCart] on that cart throws the same
    failure, and neither changes the world: no order is created and P's
    stock is what it was. *)
Theorem checkout_reverification (w : World) (user : N)
    (cart : Doc N CartSchema.t) (item : CartItemSchema.t)
    (p : ProductSchema.t) (paymentMethod : string)
    (deliveryAddress : option Address)
    (deliveryPhone deliveryInstructions : option string)
    (paymentDetails : PaymentDetails) (deliveryDetails : DeliveryDetails) :
  paymentMethod <> "" ->
  Cart.findOne user w = (inr (Some cart), w) ->
  item ∈ CartSchema.items (fields cart) ->
  CartItemSchema.quantity item = 3 ->
  Products w !! CartItemSchema.product item = Some p ->
  ProductSchema.stock p = 1 ->
  (exists r,
     customer.postOrder user (Some paymentMethod) deliveryAddress
       deliveryPhone deliveryInstructions w = (inr r, w)
     /\ code r = 400%nat
     /\ message r = "Some items are unavailable or out of stock"
     /\ body_order r = None
     /\ {| productId := CartItemSchema.product item;
           productName := CartItemSchema.productName item;
           requested := 3;
           available := 1;
           isAvailable := ProductSchema.isAvailable p |}
        ∈ body_unavailableItems r)
  /\ Order.createFromCart (_id cart) paymentDetails deliveryDetails w
     = (inl (Error "Some items are unavailable or out of stock"), w).
Proof.
  intros Hmethod Hcart Hitem Hquantity Hp Hstock.
  assert ({| productId := CartItemSchema.product item;
             productName := CartItemSchema.productName item;
             requested := 3;
             available := 1;
             isAvailable := ProductSchema.isAvailable p |}
          ∈ unavailableIn w (CartSchema.items (fields cart))) as Hu.
  { apply (unavailableIn_elem w _ item); [exact Hitem|].
    rewrite Hp. simpl. rewrite Hstock, Hquantity.
    rewrite orb_true_r. apply list_elem_of_singleton. reflexivity. }
  split.
  - unfold customer.postOrder, try_catch.
    destruct paymentMethod as [|a m]; [contradiction|].
    unfold mbind at 1, M_bind. rewrite Hcart.
    rewrite (unavailableIn_nonempty w _ _ Hu).
    unfold mbind, M_bind. rewrite verifyAvailability_eq.
    cbn [isValid]. rewrite (not_valid_of_elem _ _ Hu). simpl.
    eexists. split; [reflexivity|]. simpl. auto.
  - eapply createFromCart_unavailable; [|exact Hu].
    eapply findOne_stored, Hcart.
Qed.

(** The stale cart of the sample data: three apples asked, one in stock. *)
Lemma checkout_reverification_witness :
  (exists r,
     customer.postOrder 7%N (Some "cash_on_delivery") None None None
       (Sample.world 1
          (Sample.cart [Sample.line 1%N "apple" (299 # 100) 3 100%N] 0) [])
     = (inr r,
        Sample.world 1
          (Sample.cart [Sample.line 1%N "apple" (299 # 100) 3 100%N] 0) [])
     /\ code r = 400%nat
     /\ message r = "Some items are unavailable or out of stock"
     /\ body_order r = None
     /\ {| productId := 1%N; productName := "apple"; requested := 3;
           available := 1; isAvailable := true |}
        ∈ body_unavailableItems r)
  /\ Order.createFromCart 50%N Sample.cash Sample.toHome
       (Sample.world 1
          (Sample.cart [Sample.line 1%N "apple" (299 # 100) 3 100%N] 0) [])
     = (inl (Error "Some items are unavailable or out of stock"),
        Sample.world 1
          (Sample.cart [Sample.line 1%N "apple" (299 # 100) 3 100%N] 0) []).
Proof.
  apply (checkout_reverification
           (Sample.world 1
              (Sample.cart [Sample.line 1%N "apple" (299 # 100) 3 100%N] 0)
              [])
           7%N
           {| _id := 50%N;
              fields :=
                Sample.cart [Sample.line 1%N "apple" (299 # 100) 3 100%N] 0 |}
           (Sample.line 1%N "apple" (299 # 100) 3 100%N)
           (Sample.product "apple" (299 # 100) 1 100%N)
           "cash_on_delivery" None None None Sample.cash Sample.toHome).
  - discriminate.
  - vm_compute. reflexivity.
  - simpl. apply list_elem_of_singleton. reflexivity.
  - reflexivity.
  - reflexivity.
  - reflexivity.
Defined.

(** C6. When the cart holds a line of retailer A, adding an orderable
    product of another retailer B, in a positive quantity, throws 'All items in cart must be from the
    same retailer' and writes nothing; and, since every write of a cart goes
    through the hook, whatever sequence of cart operations runs ([addItem],
    [removeItem], [updateItemQuantity], [clearCart], the pipeline), every
    stored cart stays a single-retailer cart. *)
Theorem addItem_cross_retailer :
  (forall (w : World) (this : Doc N CartSchema.t) (productId : N)
          (quantity : Z) (p : ProductSchema.t) (item : CartItemSchema.t),
     0 < quantity ->
     Products w !! productId = Some p ->
     ProductSchema.isAvailable p = true ->
     quantity <= ProductSchema.stock p ->
     item ∈ CartSchema.items (fields this) ->
     CartItemSchema.retailerId item <> ProductSchema.retailer p ->
     catalogConsistent w (fields this) ->
     Cart.addItem this productId quantity w
     = (inl (Error "All items in cart must be from the same retailer"), w))
  /\ (forall (ops : list CartOp) (w : World),
        cartsSingleRetailer w -> cartsSingleRetailer (runCartOps ops w)).
Proof.
  split; [|apply runCartOps_keeps_invariant].
  intros w this productId quantity p item _ Hp Havailable Hstock Hitem
    Hother Hcatalog.
  unfold Cart.addItem, Product.findById. unfold_M. rewrite Hp. simpl.
  rewrite Havailable. simpl.
  destruct (Z.ltb_spec (ProductSchema.stock p) quantity) as [|_]; [lia|].
  destruct (Cart.findIndex _ _) as [i|] eqn:Hindex.
  - apply findIndex_Some in Hindex as (held & Hheld & Hproduct & _).
    assert (ProductSchema.retailer p = CartItemSchema.retailerId held)
      as Hsame.
    { apply Hcatalog; [eapply list_elem_of_lookup_2, Hheld|].
      now rewrite Hproduct. }
    apply list_elem_of_lookup_1 in Hitem as [j Hj].
    assert (i <> j) as Hij by (intros ->; congruence).
    eapply (save_conflict _ item); simpl.
    + eapply list_elem_of_lookup_2.
      rewrite list_lookup_alter_ne; [exact Hj | exact Hij].
    + eapply list_elem_of_lookup_2.
      rewrite list_lookup_alter_eq, Hheld. reflexivity.
    + simpl. congruence.
  - eapply (save_conflict _ item); simpl.
    + destruct (CartSchema.retailer (fields this)); simpl;
        apply elem_of_app; now left.
    + destruct (CartSchema.retailer (fields this)); simpl;
        apply elem_of_app; right; apply list_elem_of_singleton; reflexivity.
    + simpl. exact Hother.
Qed.

(** Soap of retailer 200 does not enter a cart of retailer 100. *)
Lemma addItem_cross_retailer_witness :
  Cart.addItem
    {| _id := 50%N;
       fields := Sample.cart [Sample.line 1%N "apple" (299 # 100) 2 100%N] 0 |}
    3%N 1
    (Sample.world 10
       (Sample.cart [Sample.line 1%N "apple" (299 # 100) 2 100%N] 0) [])
  = (inl (Error "All items in cart must be from the same retailer"),
     Sample.world 10
       (Sample.cart [Sample.line 1%N "apple" (299 # 100) 2 100%N] 0) [])
  /\ cartsSingleRetailer
       (runCartOps
          [OpAddItem
             {| _id := 50%N;
                fields :=
                  Sample.cart
                    [Sample.line 1%N "apple" (299 # 100) 2 100%N] 0 |}
             2%N 1;
           OpAddItem
             {| _id := 50%N;
                fields :=
                  Sample.cart
                    [Sample.line 1%N "apple" (299 # 100) 2 100%N] 0 |}
             3%N 1;
           OpCreateFromCart 50%N Sample.cash Sample.toHome]
          (Sample.world 10
             (Sample.cart [Sample.line 1%N "apple" (299 # 100) 2 100%N] 0)
             [])).
Proof.
  split.
  - apply (proj1 addItem_cross_retailer _ _ _ _
             (Sample.product "soap" (10 # 1) 5 200%N)
             (Sample.line 1%N "apple" (299 # 100) 2 100%N)).
    + lia.
    + reflexivity.
    + reflexivity.
    + simpl. lia.
    + simpl. apply list_elem_of_singleton. reflexivity.
    + simpl. discriminate.
    + intros item p Hitem. simpl in Hitem.
      apply list_elem_of_singleton in Hitem as ->. simpl.
      now intros [= <-].
  - apply (proj2 addItem_cross_retailer).
    intros id c. simpl. rewrite lookup_insert.
    case_decide; [|now rewrite lookup_empty].
    intros [= <-] x y Hx Hy. simpl in Hx, Hy.
    apply list_elem_of_singleton in Hx as ->.
    now apply list_elem_of_singleton in Hy as ->.
Defined.

(** C7. [Product.updateStock] (the spec's [decrementStock]) throws
    'Product not found' when no product has the id, throws
    'Insufficient stock' when the stock is less than the quantity, and
    otherwise stores the product with its stock lowered by the quantity;
    hence no sequence of calls makes a stock negative. *)
Theorem updateStock_decrements (w : World) (productId : N) (quantity : Z) :
  (Products w !! productId = None ->
   Product.updateStock productId quantity w
   = (inl (Error "Product not found"), w))
  /\ (forall p, Products w !! productId = Some p ->
       ProductSchema.stock p < quantity ->
       Product.updateStock productId quantity w
       = (inl (Error "Insufficient stock"), w))
  /\ (forall p, Products w !! productId = Some p ->
       quantity <= ProductSchema.stock p ->
       exists w',
         Product.updateStock productId quantity w
         = (inr {| _id := productId;
                   fields := ProductSchema.set_stock
                               (ProductSchema.stock p - quantity) p |}, w')
         /\ Products w' !! productId
            = Some (ProductSchema.set_stock
                      (ProductSchema.stock p - quantity) p)
         /\ forall id, id <> productId ->
              Products w' !! id = Products w !! id)
  /\ (forall calls, stockNonNegative w ->
       stockNonNegative (runUpdateStock calls w)).
Proof.
  split; [apply updateStock_absent|].
  split; [apply updateStock_insufficient|].
  split; [|intros calls; apply runUpdateStock_nonNegative].
  intros p Hp Hle. eexists. split; [now apply updateStock_enough|].
  simpl. split; [apply lookup_insert_eq|].
  intros id Hid. now apply lookup_insert_ne.
Qed.

(** The three cases on the sample catalog, and a sequence of four calls. *)
Lemma updateStock_decrements_witness :
  Product.updateStock 9%N 1 (Sample.world 10 (Sample.cart [] 0) [])
  = (inl (Error "Product not found"), Sample.world 10 (Sample.cart [] 0) [])
  /\ Product.updateStock 1%N 11 (Sample.world 10 (Sample.cart [] 0) [])
     = (inl (Error "Insufficient stock"),
        Sample.world 10 (Sample.cart [] 0) [])
  /\ (exists w',
        Product.updateStock 1%N 4 (Sample.world 10 (Sample.cart [] 0) [])
        = (inr {| _id := 1%N;
                  fields := Sample.product "apple" (299 # 100) 6 100%N |}, w')
        /\ Products w' !! 1%N
           = Some (Sample.product "apple" (299 # 100) 6 100%N))
  /\ stockNonNegative
       (runUpdateStock [(1%N, 4); (1%N, 7); (2%N, 1); (9%N, 1)]
          (Sample.world 10 (Sample.cart [] 0) [])).
Proof.
  pose (w := Sample.world 10 (Sample.cart [] 0) []).
  split; [|split; [|split]].
  - apply (proj1 (updateStock_decrements w 9%N 1)). reflexivity.
  - apply (proj1 (proj2 (updateStock_decrements w 1%N 11))
             (Sample.product "apple" (299 # 100) 10 100%N));
      [reflexivity | simpl; lia].
  - destruct (proj1 (proj2 (proj2 (updateStock_decrements w 1%N 4)))
                (Sample.product "apple" (299 # 100) 10 100%N))
      as (w' & Hrun & Hstored & _); [reflexivity | simpl; lia |].
    exists w'. split; assumption.
  - apply (proj2 (proj2 (proj2 (updateStock_decrements w 1%N 0)))).
    intros id p. unfold w, Sample.world. simpl.
    rewrite !lookup_insert. repeat case_decide; try discriminate;
      intros [= <-]; simpl; lia.
Defined.

(** C8 as the spec has it fails: a valid order is created, the number the
    hook draws is the number of a stored order, the next value of
    [Math.random()] would have given a free number, and [Order.create]
    throws the duplicate-key failure all the same, after that single draw
    and with the stored orders as they were. *)
Lemma order_number_collision_not_retried :
  Order.validate (Sample.order "draft" pending) = true
  /\ exists w',
       Order.create (Sample.order "draft" pending)
         (Sample.world 10 (Sample.cart [] 0)
            [Sample.order "NM-261102-1234" delivered])
       = (inl (DuplicateKey "orderNumber"), w')
       /\ drawn w' = 1%nat
       /\ Orders w' = [Sample.order "NM-261102-1234" delivered]
       /\ nextOrderNumber w' = "NM-261102-5678"
       /\ ~ numberTaken (nextOrderNumber w') w'.
Proof.
  split; [reflexivity|].
  eexists. split; [vm_compute; reflexivity|].
  split; [reflexivity|]. split; [reflexivity|]. split; [reflexivity|].
  intros (o & Hin & Hnumber). simpl in Hin.
  apply list_elem_of_singleton in Hin as ->. discriminate Hnumber.
Qed.

(** C8, as the code has it.  [Order.create] validates the document first:
    one that fails a validator is refused before the hook runs, no value of
    [Math.random()] drawn and nothing stored.  For a document that passes,
    the hook builds the order number from the date and one value of
    [Math.random()]; when that number is already stored, the unique index
    refuses the write and [Order.create] throws the duplicate-key failure
    after that one draw, storing nothing; when it is free, the order is
    appended under that number.  Whatever the document, the stored order
    numbers stay distinct. *)
Theorem create_order_number (doc : OrderSchema.t) (w : World) :
  (Order.validate doc = false ->
   Order.create doc w = (inl ValidationError, w))
  /\ (Order.validate doc = true ->
      numberTaken (nextOrderNumber w) w ->
      Order.create doc w
      = (inl (DuplicateKey "orderNumber"), set_drawn (S (drawn w)) w))
  /\ (Order.validate doc = true ->
      ~ numberTaken (nextOrderNumber w) w ->
      exists o,
        Order.create doc w
        = (inr {| _id := length (Orders w); fields := o |},
           set_Orders (Orders w ++ [o]) (set_drawn (S (drawn w)) w))
        /\ OrderSchema.orderNumber o
           = orderNumberOf (clock w) (random w (drawn w)))
  /\ (NoDup (OrderSchema.orderNumber <$> Orders w) ->
      NoDup (OrderSchema.orderNumber <$> Orders (Order.create doc w).2)).
Proof.
  split; [apply create_invalid|].
  split; [apply create_taken|].
  split; [|apply create_unique].
  intros Hvalid Hfree.
  destruct (create_free doc w Hvalid Hfree) as (o & Hrun & Hn & _).
  now exists o.
Qed.

(** On 2 November 2026 the draw 0.1234 gives NM-261102-1234, taken in one
    world and free in the other; a document with no order number is
    refused. *)
Lemma create_order_number_witness :
  Order.create (Sample.order "" pending)
    (Sample.world 10 (Sample.cart [] 0) [])
  = (inl ValidationError, Sample.world 10 (Sample.cart [] 0) [])
  /\ Order.create (Sample.order "draft" pending)
       (Sample.world 10 (Sample.cart [] 0)
          [Sample.order "NM-261102-1234" delivered])
     = (inl (DuplicateKey "orderNumber"),
        set_drawn 1
          (Sample.world 10 (Sample.cart [] 0)
             [Sample.order "NM-261102-1234" delivered]))
  /\ (exists o w',
        Order.create (Sample.order "draft" pending)
          (Sample.world 10 (Sample.cart [] 0) [])
        = (inr {| _id := 0%nat; fields := o |}, w')
        /\ OrderSchema.orderNumber o = "NM-261102-1234")
  /\ NoDup (OrderSchema.orderNumber <$>
            Orders (Order.create (Sample.order "draft" pending)
                      (Sample.world 10 (Sample.cart [] 0) [])).2).
Proof.
  split; [|split; [|split]].
  - apply (proj1 (create_order_number (Sample.order "" pending)
                    (Sample.world 10 (Sample.cart [] 0) []))).
    reflexivity.
  - apply (proj1 (proj2 (create_order_number (Sample.order "draft" pending)
                           (Sample.world 10 (Sample.cart [] 0)
                              [Sample.order "NM-261102-1234" delivered]))));
      [reflexivity|].
    exists (Sample.order "NM-261102-1234" delivered).
    split; [apply list_elem_of_here | reflexivity].
  - destruct (proj1 (proj2 (proj2 (create_order_number
                                     (Sample.order "draft" pending)
                                     (Sample.world 10 (Sample.cart [] 0)
                                        [])))))
      as (o & Hrun & Hnumber).
    + reflexivity.
    + intros (o & Hin & _). inversion Hin.
    + exists o. eexists. split; [exact Hrun | exact Hnumber].
  - apply (proj2 (proj2 (proj2 (create_order_number
                                  (Sample.order "draft" pending)
                                  (Sample.world 10 (Sample.cart [] 0) []))))).
    apply NoDup_nil_2.
Defined.

(** C9 as the spec has it, for any cart, fails on a cart that already holds
    the product: the two adds go on top of the quantity held. *)
Lemma readd_on_cart_holding_product :
  exists c1 w1 c2 w2,
    Cart.addItem
      {| _id := 50%N;
         fields :=
           Sample.cart [Sample.line 1%N "apple" (299 # 100) 1 100%N] 0 |}
      1%N 2
      (Sample.world 10
         (Sample.cart [Sample.line 1%N "apple" (299 # 100) 1 100%N] 0) [])
    = (inr c1, w1)
    /\ Cart.addItem c1 1%N 3 w1 = (inr c2, w2)
    /\ CartItemSchema.quantity <$> linesFor 1%N (fields c2) = [6].
Proof.
  do 4 eexists. split; [vm_compute; reflexivity|].
  split; [vm_compute; reflexivity|]. reflexivity.
Qed.

(** C9, as the code has it.  On a cart that has no line for P, adding P with
    quantity 2 and then adding P with quantity 3, when both adds succeed,
    stores a cart with exactly one line for P, of quantity 5 and with the
    catalog price P has at the second add. *)
Theorem addItem_twice (w1 w1' w2 w2' : World)
    (this c1 c2 : Doc N CartSchema.t) (productId : N)
    (p2 : ProductSchema.t) :
  linesFor productId (fields this) = [] ->
  Cart.addItem this productId 2 w1 = (inr c1, w1') ->
  Cart.addItem c1 productId 3 w2 = (inr c2, w2') ->
  Products w2 !! productId = Some p2 ->
  exists line,
    linesFor productId (fields c2) = [line]
    /\ CartItemSchema.quantity line = 5
    /\ CartItemSchema.price line = ProductSchema.price p2
    /\ Carts w2' !! _id this = Some (fields c2).
Proof.
  intros Hfresh Hadd1 Hadd2 Hp2.
  apply linesFor_nil_Forall in Hfresh.
  (* the first add pushes a line *)
  unfold Cart.addItem, Product.findById in Hadd1. unfold_M.
  destruct (Products w1 !! productId) as [p1|]; [|discriminate].
  simpl in Hadd1. destruct (negb _ || _); [discriminate|].
  rewrite (findIndex_fresh _ _ Hfresh) in Hadd1.
  apply save_inr in Hadd1 as (Hid1 & Hitems1 & _ & _).
  simpl in Hid1.
  assert (CartSchema.items (fields c1)
          = (CartSchema.items (fields this)
             ++ [{| CartItemSchema.product := productId;
                    CartItemSchema.quantity := 2;
                    CartItemSchema.price := ProductSchema.price p1;
                    CartItemSchema.productName := ProductSchema.name p1;
                    CartItemSchema.productImage :=
                      match ProductSchema.images p1 with
                      | image :: _ => image
                      | [] => ""
                      end;
                    CartItemSchema.retailerId :=
                      ProductSchema.retailer p1 |}])%list) as Hpushed.
  { rewrite Hitems1. simpl.
    now destruct (CartSchema.retailer (fields this)). }
  clear Hitems1.
  (* the second add finds it *)
  unfold Cart.addItem, Product.findById in Hadd2. unfold_M.
  rewrite Hp2 in Hadd2. simpl in Hadd2.
  destruct (negb _ || _); [discriminate|].
  rewrite Hpushed in Hadd2.
  rewrite findIndex_snoc in Hadd2; [|exact Hfresh|reflexivity].
  apply save_inr in Hadd2 as (Hid2 & Hitems2 & _ & ->).
  simpl in Hid2, Hitems2.
  rewrite <- (Nat.add_0_r (length _)), alter_app_r in Hitems2.
  simpl in Hitems2.
  eexists. unfold linesFor. rewrite Hitems2, filter_app.
  rewrite (Forall_linesFor_nil _ _ Hfresh). simpl.
  rewrite filter_cons_True, filter_nil by reflexivity.
  split; [reflexivity|]. simpl.
  repeat split. rewrite Hid1. apply lookup_insert_eq.
Qed.

(** Two apples, then three, on a cart that holds a loaf. *)
Lemma addItem_twice_witness :
  exists line,
    linesFor 1%N
      (CartSchema.set_retailer (Some 100%N)
         (Sample.cart
            [Sample.line 2%N "bread" (199 # 100) 1 100%N;
             Sample.line 1%N "apple" (299 # 100) 5 100%N] 0))
    = [line]
    /\ CartItemSchema.quantity line = 5
    /\ CartItemSchema.price line = (299 # 100)%Q.
Proof.
  pose (this := {| _id := 50%N;
                   fields := Sample.cart
                     [Sample.line 2%N "bread" (199 # 100) 1 100%N] 0 |}).
  pose (c1 := {| _id := 50%N;
                 fields := CartSchema.set_retailer (Some 100%N)
                   (Sample.cart
                      [Sample.line 2%N "bread" (199 # 100) 1 100%N;
                       Sample.line 1%N "apple" (299 # 100) 2 100%N] 0) |}).
  pose (c2 := {| _id := 50%N;
                 fields := CartSchema.set_retailer (Some 100%N)
                   (Sample.cart
                      [Sample.line 2%N "bread" (199 # 100) 1 100%N;
                       Sample.line 1%N "apple" (299 # 100) 5 100%N] 0) |}).
  pose (w1 := Sample.world 10 (fields this) []).
  pose (w2 := Sample.world 10 (fields c1) []).
  destruct (addItem_twice w1 (Cart.addItem this 1%N 2 w1).2
              w2 (Cart.addItem c1 1%N 3 w2).2 this c1 c2 1%N
              (Sample.product "apple" (299 # 100) 10 100%N))
    as (line & Hlines & Hquantity & Hprice & _).
  - reflexivity.
  - vm_compute. reflexivity.
  - vm_compute. reflexivity.
  - reflexivity.
  - exists line. auto.
Defined.

(** C10. For a cart line whose product is no longer in the catalog,
    [verifyAvailability] returns (it does not throw) a result with
    [isValid] false and, for that line, an entry with [available] 0 and
    [isAvailable] false. *)
Theorem verifyAvailability_deleted_product (w : World) (this : CartSchema.t)
    (item : CartItemSchema.t) :
  item ∈ CartSchema.items this ->
  Products w !! CartItemSchema.product item = None ->
  exists a,
    Cart.verifyAvailability this w = (inr a, w)
    /\ isValid a = false
    /\ {| productId := CartItemSchema.product item;
          productName := CartItemSchema.productName item;
          requested := CartItemSchema.quantity item;
          available := 0;
          isAvailable := false |} ∈ unavailableItems a.
Proof.
  intros Hitem Hgone. eexists. split; [apply verifyAvailability_eq|].
  assert ({| productId := CartItemSchema.product item;
             productName := CartItemSchema.productName item;
             requested := CartItemSchema.quantity item;
             available := 0;
             isAvailable := false |}
          ∈ unavailableIn w (CartSchema.items this)) as Hin.
  { apply (unavailableIn_elem w _ item); [exact Hitem|].
    rewrite Hgone. simpl. apply list_elem_of_singleton. reflexivity. }
  simpl. split; [|exact Hin]. eapply not_valid_of_elem, Hin.
Qed.

(** A line for product 9, which the sample catalog does not have. *)
Lemma verifyAvailability_deleted_product_witness :
  exists a,
    Cart.verifyAvailability
      (Sample.cart [Sample.line 9%N "pear" (1 # 2) 2 100%N] 0)
      (Sample.world 10 (Sample.cart [] 0) [])
    = (inr a, Sample.world 10 (Sample.cart [] 0) [])
    /\ isValid a = false
    /\ {| productId := 9%N; productName := "pear"; requested := 2;
          available := 0; isAvailable := false |} ∈ unavailableItems a.
Proof.
  apply (verifyAvailability_deleted_product
           (Sample.world 10 (Sample.cart [] 0) [])
           (Sample.cart [Sample.line 9%N "pear" (1 # 2) 2 100%N] 0)
           (Sample.line 9%N "pear" (1 # 2) 2 100%N)).
  - simpl. apply list_elem_of_singleton. reflexivity.
  - reflexivity.
Defined.

(** * Further properties of the models and of the handlers *)

(** ** The catalog: restocking and availability *)

Section Restock.

Import ProductSchema.

Lemma addStock_enough (w : World) (productId : N) (quantity : Z)
    (p : ProductSchema.t) :
  0 < quantity -> Products w !! productId = Some p ->
  Product.addStock productId quantity w
  = (inr {| _id := productId;
            fields := set_stock (stock p + quantity) p |},
     set_Products
       (<[productId := set_stock (stock p + quantity) p]> (Products w)) w).
Proof.
  intros Hpositive Hp. unfold Product.addStock.
  destruct (Z.leb_spec quantity 0) as [|_]; [lia|].
  unfold Product.findById. unfold_M. now rewrite Hp.
Qed.

End Restock.

(** X1. [Product.addStock] refuses a quantity that is not positive before it
    looks the product up, throws 'Product not found' for an unknown id, and
    otherwise stores the product with its stock raised by the quantity, the
    rest of the world as it was. *)
Theorem addStock_restocks (w : World) (productId : N) (quantity : Z) :
  (quantity <= 0 ->
   Product.addStock productId quantity w
   = (inl (Error "Quantity must be a positive integer"), w))
  /\ (0 < quantity -> Products w !! productId = None ->
      Product.addStock productId quantity w
      = (inl (Error "Product not found"), w))
  /\ (0 < quantity ->
      forall p, Products w !! productId = Some p ->
        Product.addStock productId quantity w
        = (inr {| _id := productId;
                  fields := ProductSchema.set_stock
                              (ProductSchema.stock p + quantity) p |},
           set_Products
             (<[productId := ProductSchema.set_stock
                               (ProductSchema.stock p + quantity) p]>
                (Products w)) w)).
Proof.
  split; [|split].
  - intros Hquantity. unfold Product.addStock.
    now destruct (Z.leb_spec quantity 0) as [_|]; [|lia].
  - intros Hquantity Hnone. unfold Product.addStock.
    destruct (Z.leb_spec quantity 0) as [|_]; [lia|].
    unfold Product.findById. unfold_M. now rewrite Hnone.
  - intros Hquantity p Hp. now apply addStock_enough.
Qed.

(** The three cases on the sample catalog. *)
Lemma addStock_restocks_witness :
  Product.addStock 9%N 0 (Sample.world 10 (Sample.cart [] 0) [])
  = (inl (Error "Quantity must be a positive integer"),
     Sample.world 10 (Sample.cart [] 0) [])
  /\ Product.addStock 9%N 5 (Sample.world 10 (Sample.cart [] 0) [])
     = (inl (Error "Product not found"),
        Sample.world 10 (Sample.cart [] 0) [])
  /\ ProductSchema.stock <$>
     Products (Product.addStock 1%N 5
                 (Sample.world 10 (Sample.cart [] 0) [])).2 !! 1%N
     = Some 15.
Proof.
  set (w := Sample.world 10 (Sample.cart [] 0) []).
  split; [|split].
  - apply (proj1 (addStock_restocks w 9%N 0)). lia.
  - apply (proj1 (proj2 (addStock_restocks w 9%N 5))); [lia | reflexivity].
  - rewrite (proj2 (proj2 (addStock_restocks w 1%N 5))
               ltac:(lia) (Sample.product "apple" (299 # 100) 10 100%N)
               eq_refl).
    reflexivity.
Defined.

(** X2. Taking a quantity out of a stock that has it and putting it back,
    or putting it in and taking it out, gives the world back as it was. *)
Theorem updateStock_addStock_round_trip (w : World) (productId : N)
    (quantity : Z) (p : ProductSchema.t) :
  Products w !! productId = Some p ->
  0 < quantity ->
  quantity <= ProductSchema.stock p ->
  (Product.addStock productId quantity
     (Product.updateStock productId quantity w).2).2 = w
  /\ (Product.updateStock productId quantity
        (Product.addStock productId quantity w).2).2 = w.
Proof.
  intros Hp Hpositive Henough. split.
  - rewrite (updateStock_enough w productId quantity p Hp Henough).
    cbn [snd].
    erewrite addStock_enough;
      [|exact Hpositive | simpl; apply lookup_insert_eq].
    cbn [snd]. destruct w as [products ? ? ? ? ? ? ? ?]. simpl in *.
    unfold set_Products. simpl. f_equal.
    rewrite insert_insert_eq. apply insert_id.
    rewrite Hp. f_equal. destruct p. unfold ProductSchema.set_stock. simpl.
    f_equal. lia.
  - rewrite (addStock_enough w productId quantity p Hpositive Hp).
    cbn [snd].
    erewrite updateStock_enough;
      [|simpl; apply lookup_insert_eq | simpl; lia].
    cbn [snd]. destruct w as [products ? ? ? ? ? ? ? ?]. simpl in *.
    unfold set_Products. simpl. f_equal.
    rewrite insert_insert_eq. apply insert_id.
    rewrite Hp. f_equal. destruct p. unfold ProductSchema.set_stock. simpl.
    f_equal. lia.
Qed.

(** Four apples out of ten and back. *)
Lemma updateStock_addStock_round_trip_witness :
  (Product.addStock 1%N 4
     (Product.updateStock 1%N 4
        (Sample.world 10 (Sample.cart [] 0) [])).2).2
  = Sample.world 10 (Sample.cart [] 0) [].
Proof.
  apply (updateStock_addStock_round_trip
           (Sample.world 10 (Sample.cart [] 0) []) 1%N 4
           (Sample.product "apple" (299 # 100) 10 100%N)).
  - reflexivity.
  - lia.
  - simpl. lia.
Defined.

(** X3. [Product.setAvailability] throws 'Product not found' for an unknown
    id and otherwise stores the flag, touching no other product and no other
    field; setting the same flag again changes nothing; and once the flag is
    false, [addItem] refuses the product for any cart and any quantity. *)
Theorem setAvailability_sets_flag (w : World) (productId : N) (b : bool) :
  (Products w !! productId = None ->
   Product.setAvailability productId b w
   = (inl (Error "Product not found"), w))
  /\ (forall p, Products w !! productId = Some p ->
      exists w',
        Product.setAvailability productId b w
        = (inr {| _id := productId;
                  fields := ProductSchema.set_isAvailable b p |}, w')
        /\ Products w' !! productId
           = Some (ProductSchema.set_isAvailable b p)
        /\ ProductSchema.stock (ProductSchema.set_isAvailable b p)
           = ProductSchema.stock p
        /\ ProductSchema.price (ProductSchema.set_isAvailable b p)
           = ProductSchema.price p
        /\ (forall id, id <> productId ->
              Products w' !! id = Products w !! id)
        /\ (Product.setAvailability productId b w').2 = w'
        /\ (b = false ->
            forall this quantity,
              Cart.addItem this productId quantity w'
              = (inl (Error "Product is unavailable or insufficient stock"),
                 w'))).
Proof.
  split.
  - intros Hnone. unfold Product.setAvailability, Product.findById.
    unfold_M. now rewrite Hnone.
  - intros p Hp. eexists. split.
    { unfold Product.setAvailability, Product.findById. unfold_M.
      rewrite Hp. reflexivity. }
    simpl. split; [apply lookup_insert_eq|].
    split; [reflexivity|]. split; [reflexivity|].
    split; [intros id Hid; now apply lookup_insert_ne|].
    split.
    + unfold Product.setAvailability, Product.findById. unfold_M. simpl.
      rewrite lookup_insert_eq. simpl. unfold set_Products. simpl.
      now rewrite insert_insert_eq.
    + intros -> this quantity.
      unfold Cart.addItem, Product.findById. unfold_M. simpl.
      now rewrite lookup_insert_eq.
Qed.

(** The apples are taken off sale: they stay ten, and no cart takes them. *)
Lemma setAvailability_sets_flag_witness :
  exists w',
    (Product.setAvailability 1%N false
       (Sample.world 10 (Sample.cart [] 0) [])).2 = w'
    /\ ProductSchema.stock <$> Products w' !! 1%N = Some 10
    /\ Cart.addItem {| _id := 50%N; fields := Sample.cart [] 0 |} 1%N 1 w'
       = (inl (Error "Product is unavailable or insufficient stock"), w').
Proof.
  destruct (proj2 (setAvailability_sets_flag
                     (Sample.world 10 (Sample.cart [] 0) []) 1%N false)
              (Sample.product "apple" (299 # 100) 10 100%N) eq_refl)
    as (w' & Hrun & Hstored & _ & _ & _ & _ & Hrefused).
  exists w'. rewrite Hrun. split; [reflexivity|].
  split; [now rewrite Hstored|]. now apply Hrefused.
Defined.

(** ** The verifier: when a cart is valid *)

Section Valid.

Lemma check_nil (item : CartItemSchema.t) (w : World) :
  Cart.check item
    ((fun p => {| _id := CartItemSchema.product item; fields := p |})
     <$> Products w !! CartItemSchema.product item) = []
  <-> exists p,
        Products w !! CartItemSchema.product item = Some p
        /\ Product.hasEnoughStock p (CartItemSchema.quantity item) = true.
Proof.
  unfold Product.hasEnoughStock.
  destruct (Products w !! CartItemSchema.product item) as [p|]; simpl.
  2: { split; [discriminate | now intros (p & Hp & _)]. }
  destruct (ProductSchema.isAvailable p) eqn:Havailable; simpl.
  2: { split; [discriminate|]. intros (q & [= <-] & Henough).
       now rewrite Havailable, andb_false_r in Henough. }
  destruct (Z.ltb_spec (ProductSchema.stock p)
              (CartItemSchema.quantity item)) as [Hless|Henough]; split.
  - discriminate.
  - intros (q & [= <-] & Henough).
    rewrite Havailable, andb_true_r in Henough.
    apply Z.leb_le in Henough. lia.
  - intros _. exists p. split; [reflexivity|].
    rewrite Havailable, andb_true_r. now apply Z.leb_le.
  - reflexivity.
Qed.

Lemma unavailableIn_nil (w : World) (l : list CartItemSchema.t) :
  unavailableIn w l = []
  <-> forall item, item ∈ l ->
        exists p,
          Products w !! CartItemSchema.product item = Some p
          /\ Product.hasEnoughStock p (CartItemSchema.quantity item) = true.
Proof.
  unfold unavailableIn. induction l as [|x l IH].
  - split; [intros _ item Hitem; inversion Hitem | reflexivity].
  - rewrite bind_cons. split.
    + intros Hnil. apply app_eq_nil in Hnil as [Hx Hl].
      intros item Hitem. apply elem_of_cons in Hitem as [->|Hitem].
      * now apply check_nil.
      * now apply IH.
    + intros Hall.
      rewrite (proj2 (check_nil x w)) by (apply Hall, list_elem_of_here).
      simpl. apply IH. intros item Hitem.
      now apply Hall, list_elem_of_further.
Qed.

End Valid.

(** X4. [verifyAvailability] never throws and writes nothing, and its
    [isValid] is true exactly when every line's product is in the catalog
    and [hasEnoughStock] for the line's quantity; it reports at most one
    entry per line. *)
Theorem verifyAvailability_valid_iff (w : World) (this : CartSchema.t) :
  exists a,
    Cart.verifyAvailability this w = (inr a, w)
    /\ (isValid a = true <->
        forall item, item ∈ CartSchema.items this ->
          exists p,
            Products w !! CartItemSchema.product item = Some p
            /\ Product.hasEnoughStock p (CartItemSchema.quantity item)
               = true)
    /\ (length (unavailableItems a) <= length (CartSchema.items this))%nat.
Proof.
  eexists. split; [apply verifyAvailability_eq|]. simpl. split.
  - rewrite <- unavailableIn_nil.
    destruct (unavailableIn w (CartSchema.items this)); simpl;
      split; (reflexivity || discriminate).
  - unfold unavailableIn.
    induction (CartSchema.items this) as [|x l IH]; [reflexivity|].
    rewrite bind_cons, length_app. simpl.
    assert (length (Cart.check x
              ((fun p => {| _id := CartItemSchema.product x; fields := p |})
               <$> Products w !! CartItemSchema.product x)) <= 1)%nat.
    { destruct (Products w !! CartItemSchema.product x) as [p|]; simpl;
        [|lia].
      destruct (negb _ || _); simpl; lia. }
    lia.
Qed.

(** ** The cart: removing, updating, clearing, adding *)

Section CartMethods.

Import CartSchema.

(** The hook keeps everything but the [retailer] field. *)
Lemma preSave_fields (c c' : CartSchema.t) :
  Cart.preSave c = inr c' ->
  customer c' = customer c /\ discount c' = discount c
  /\ couponCode c' = couponCode c
  /\ retailer c' = match items c with
                   | [] => retailer c
                   | first :: _ => Some (CartItemSchema.retailerId first)
                   end.
Proof.
  unfold Cart.preSave. destruct (items c) as [|first l].
  - now intros [= <-].
  - destruct (negb _); [discriminate|]. now intros [= <-].
Qed.

(** The hook lets a single-retailer cart through. *)
Lemma preSave_single (c : CartSchema.t) :
  singleRetailer c -> exists c', Cart.preSave c = inr c'.
Proof.
  intros Hsingle. unfold Cart.preSave.
  destruct (items c) as [|first l] eqn:Hitems; [now eexists|].
  destruct (forallb _ (first :: l)) eqn:Hall; [now eexists|].
  exfalso. apply not_true_iff_false in Hall. apply Hall.
  apply forallb_forall. intros x Hx. apply N.eqb_eq.
  apply Hsingle; rewrite Hitems;
    [now apply list_elem_of_In | apply list_elem_of_here].
Qed.

Lemma save_single (this : Doc N CartSchema.t) (w : World) :
  singleRetailer (fields this) ->
  exists saved,
    Cart.save this w
    = (inr saved, set_Carts (<[_id this := fields saved]> (Carts w)) w)
    /\ _id saved = _id this
    /\ items (fields saved) = items (fields this)
    /\ customer (fields saved) = customer (fields this)
    /\ discount (fields saved) = discount (fields this)
    /\ couponCode (fields saved) = couponCode (fields this)
    /\ retailer (fields saved)
       = match items (fields this) with
         | [] => retailer (fields this)
         | first :: _ => Some (CartItemSchema.retailerId first)
         end.
Proof.
  intros Hsingle. destruct (preSave_single _ Hsingle) as [c' Hhook].
  pose proof (preSave_inr _ _ Hhook) as [Hitems _].
  pose proof (preSave_fields _ _ Hhook) as (Hc & Hd & Hcoupon & Hr).
  exists (with_fields this c'). unfold Cart.save. rewrite Hhook.
  split; [reflexivity|]. simpl. auto 10.
Qed.

Lemma singleRetailer_sub (c c' : CartSchema.t) :
  (forall x, x ∈ items c' -> x ∈ items c) ->
  singleRetailer c -> singleRetailer c'.
Proof. intros Hsub Hsingle x y Hx Hy. apply Hsingle; now apply Hsub. Qed.

Lemma filter_other (productId other : N) (l : list CartItemSchema.t) :
  other <> productId ->
  filter (fun item => CartItemSchema.product item = other)
    (filter (fun item => CartItemSchema.product item <> productId) l)
  = filter (fun item => CartItemSchema.product item = other) l.
Proof.
  intros Hother. induction l as [|x l IH]; [reflexivity|].
  rewrite (filter_cons (fun item => CartItemSchema.product item <> productId)).
  destruct (decide (CartItemSchema.product x <> productId)) as [Hkeep|Hdrop].
  - rewrite !filter_cons. destruct (decide _); now rewrite IH.
  - rewrite IH, filter_cons_False; [reflexivity|].
    intros Hx. apply Hdrop. congruence.
Qed.

Lemma filter_removed (productId : N) (l : list CartItemSchema.t) :
  filter (fun item => CartItemSchema.product item = productId)
    (filter (fun item => CartItemSchema.product item <> productId) l) = [].
Proof.
  induction l as [|x l IH]; [reflexivity|].
  rewrite (filter_cons (fun item => CartItemSchema.product item <> productId)).
  destruct (decide _) as [Hkeep|Hdrop]; [|exact IH].
  now rewrite filter_cons_False.
Qed.

Lemma filter_absent (productId : N) (l : list CartItemSchema.t) :
  filter (fun item => CartItemSchema.product item = productId) l = [] ->
  filter (fun item => CartItemSchema.product item <> productId) l = l.
Proof.
  induction l as [|x l IH]; [reflexivity|].
  rewrite filter_cons. destruct (decide _) as [|Hx]; [discriminate|].
  intros Hl. rewrite filter_cons_True by exact Hx. now rewrite IH.
Qed.

End CartMethods.

(** X5. On a single-retailer cart [removeItem] succeeds and stores a cart
    with no line for the product, the lines of every other product, the
    discount and the coupon as they were; when the cart has no line for the
    product the items are unchanged (the method does not report the absence);
    the catalog and the orders are not touched. *)
Theorem removeItem_removes (w : World) (this : Doc N CartSchema.t)
    (productId : N) :
  singleRetailer (fields this) ->
  exists saved w',
    Cart.removeItem this productId w = (inr saved, w')
    /\ linesFor productId (fields saved) = []
    /\ (forall other, other <> productId ->
          linesFor other (fields saved) = linesFor other (fields this))
    /\ (linesFor productId (fields this) = [] ->
          CartSchema.items (fields saved) = CartSchema.items (fields this))
    /\ CartSchema.discount (fields saved) = CartSchema.discount (fields this)
    /\ CartSchema.couponCode (fields saved)
       = CartSchema.couponCode (fields this)
    /\ Carts w' !! _id this = Some (fields saved)
    /\ Products w' = Products w
    /\ Orders w' = Orders w.
Proof.
  intros Hsingle. unfold Cart.removeItem.
  match goal with
  | |- context [Cart.save ?doc w] =>
      destruct (save_single doc w)
        as (saved & Hrun & Hid & Hitems & _ & Hdiscount & Hcoupon & _)
  end.
  { eapply singleRetailer_sub; [|exact Hsingle]. simpl.
    intros x Hx. now apply list_elem_of_filter in Hx as [_ Hx]. }
  exists saved. eexists. split; [exact Hrun|]. simpl in *.
  unfold linesFor. rewrite Hitems.
  split; [apply filter_removed|].
  split; [intros other Hother; now apply filter_other|].
  split; [apply filter_absent|].
  split; [exact Hdiscount|]. split; [exact Hcoupon|].
  split; [apply lookup_insert_eq|]. split; reflexivity.
Qed.

(** The loaf leaves a cart of apples and a loaf. *)
Lemma removeItem_removes_witness :
  exists saved w',
    Cart.removeItem
      {| _id := 50%N;
         fields :=
           Sample.cart [Sample.line 1%N "apple" (299 # 100) 2 100%N;
                        Sample.line 2%N "bread" (199 # 100) 1 100%N] 0 |}
      2%N (Sample.world 10 (Sample.cart [] 0) [])
    = (inr saved, w')
    /\ linesFor 2%N (fields saved) = []
    /\ linesFor 1%N (fields saved)
       = [Sample.line 1%N "apple" (299 # 100) 2 100%N].
Proof.
  destruct (removeItem_removes (Sample.world 10 (Sample.cart [] 0) [])
              {| _id := 50%N;
                 fields :=
                   Sample.cart
                     [Sample.line 1%N "apple" (299 # 100) 2 100%N;
                      Sample.line 2%N "bread" (199 # 100) 1 100%N] 0 |}
              2%N)
    as (saved & w' & Hrun & Hgone & Hkept & _).
  - intros x y Hx Hy. simpl in Hx, Hy.
    apply elem_of_cons in Hx as [->|Hx];
      [|apply list_elem_of_singleton in Hx as ->];
      (apply elem_of_cons in Hy as [->|Hy];
       [|apply list_elem_of_singleton in Hy as ->]); reflexivity.
  - exists saved, w'. split; [exact Hrun|]. split; [exact Hgone|].
    rewrite (Hkept 1%N) by discriminate. reflexivity.
Defined.

Section UpdateQuantity.

Import CartSchema.

Lemma singleRetailer_retailers (c c' : CartSchema.t) :
  (forall x, x ∈ items c' ->
     exists x', x' ∈ items c
       /\ CartItemSchema.retailerId x' = CartItemSchema.retailerId x) ->
  singleRetailer c -> singleRetailer c'.
Proof.
  intros Hsame Hsingle x y Hx Hy.
  destruct (Hsame x Hx) as (x' & Hx' & <-).
  destruct (Hsame y Hy) as (y' & Hy' & <-).
  now apply Hsingle.
Qed.

Lemma single_line_split (productId : N) (l : list CartItemSchema.t)
    (line : CartItemSchema.t) :
  filter (fun item => CartItemSchema.product item = productId) l = [line] ->
  exists l1 l2,
    l = (l1 ++ line :: l2)%list
    /\ Forall (fun x => CartItemSchema.product x <> productId) l1
    /\ Forall (fun x => CartItemSchema.product x <> productId) l2
    /\ CartItemSchema.product line = productId.
Proof.
  induction l as [|x l IH]; [discriminate|].
  rewrite filter_cons. destruct (decide _) as [Hx|Hx].
  - intros [= -> Hrest]. exists [], l. split; [reflexivity|].
    split; [constructor|]. split; [|exact Hx].
    apply Forall_forall. intros y Hy Hpid.
    now apply (filter_nil_not_elem_of _ _ y Hrest Hpid).
  - intros Hl. destruct (IH Hl) as (l1 & l2 & -> & Hl1 & Hl2 & Hline).
    exists (x :: l1), l2. split; [reflexivity|].
    split; [now constructor|]. now split.
Qed.

Lemma findIndex_middle (productId : N) (l1 l2 : list CartItemSchema.t)
    (x : CartItemSchema.t) :
  Forall (fun y => CartItemSchema.product y <> productId) l1 ->
  CartItemSchema.product x = productId ->
  Cart.findIndex productId (l1 ++ x :: l2) = Some (length l1).
Proof.
  unfold Cart.findIndex. intros Hl Hx.
  induction Hl as [|y l Hy _ IH]; simpl.
  - now rewrite decide_True.
  - rewrite decide_False by exact Hy.
    destruct (list_find _ (l ++ x :: l2)) as [[k z]|]; [|discriminate].
    simpl in *. congruence.
Qed.

End UpdateQuantity.

(** X6. [updateItemQuantity] with a quantity that is not positive is
    [removeItem].  With a positive quantity it throws, writing nothing, when
    the product is unknown, when it cannot be ordered in that quantity, and
    when the cart has no line for it; on a single-retailer cart with one
    line for the product it stores that line with the quantity given (not
    added to the one held) and the catalog price, the lines of the other
    products as they were. *)
Theorem updateItemQuantity_sets (w : World) (this : Doc N CartSchema.t)
    (productId : N) (quantity : Z) :
  (quantity <= 0 ->
   Cart.updateItemQuantity this productId quantity w
   = Cart.removeItem this productId w)
  /\ (0 < quantity -> Products w !! productId = None ->
      Cart.updateItemQuantity this productId quantity w
      = (inl (Error "Product not found"), w))
  /\ (0 < quantity ->
      forall p, Products w !! productId = Some p ->
        ProductSchema.isAvailable p = false
        \/ ProductSchema.stock p < quantity ->
        Cart.updateItemQuantity this productId quantity w
        = (inl (Error "Product is unavailable or insufficient stock"), w))
  /\ (0 < quantity ->
      forall p, Products w !! productId = Some p ->
        ProductSchema.isAvailable p = true ->
        quantity <= ProductSchema.stock p ->
        linesFor productId (fields this) = [] ->
        Cart.updateItemQuantity this productId quantity w
        = (inl (Error "Item not found in cart"), w))
  /\ (0 < quantity ->
      forall p line, Products w !! productId = Some p ->
        ProductSchema.isAvailable p = true ->
        quantity <= ProductSchema.stock p ->
        linesFor productId (fields this) = [line] ->
        singleRetailer (fields this) ->
        exists saved w',
          Cart.updateItemQuantity this productId quantity w
          = (inr saved, w')
          /\ linesFor productId (fields saved)
             = [{| CartItemSchema.product := productId;
                   CartItemSchema.quantity := quantity;
                   CartItemSchema.price := ProductSchema.price p;
                   CartItemSchema.productName :=
                     CartItemSchema.productName line;
                   CartItemSchema.productImage :=
                     CartItemSchema.productImage line;
                   CartItemSchema.retailerId :=
                     CartItemSchema.retailerId line |}]
          /\ (forall other, other <> productId ->
                linesFor other (fields saved) = linesFor other (fields this))
          /\ Carts w' !! _id this = Some (fields saved)
          /\ Products w' = Products w).
Proof.
  split.
  { intros Hquantity. unfold Cart.updateItemQuantity.
    now destruct (Z.leb_spec quantity 0) as [_|]; [|lia]. }
  assert (forall c : M (Doc N CartSchema.t),
            0 < quantity ->
            (if quantity <=? 0 then Cart.removeItem this productId else c)
            = c) as Hpositive.
  { intros c Hq. now destruct (Z.leb_spec quantity 0) as [|_]; [lia|]. }
  unfold Cart.updateItemQuantity.
  split; [|split; [|split]]; intros Hquantity; rewrite Hpositive by lia;
    unfold Product.findById; unfold_M.
  - intros Hnone. now rewrite Hnone.
  - intros p Hp Hrefused. rewrite Hp. simpl.
    destruct Hrefused as [-> | Hless]; [reflexivity|].
    destruct (Z.ltb_spec (ProductSchema.stock p) quantity); [|lia].
    now rewrite orb_true_r.
  - intros p Hp Havailable Henough Habsent. rewrite Hp. simpl.
    rewrite Havailable. simpl.
    destruct (Z.ltb_spec (ProductSchema.stock p) quantity); [lia|].
    now rewrite (findIndex_fresh _ _ (linesFor_nil_Forall _ _ Habsent)).
  - intros p line Hp Havailable Henough Hline Hsingle. rewrite Hp. simpl.
    rewrite Havailable. simpl.
    destruct (Z.ltb_spec (ProductSchema.stock p) quantity); [lia|].
    destruct (single_line_split _ _ _ Hline)
      as (l1 & l2 & Hitems & Hl1 & Hl2 & Hproduct).
    rewrite Hitems, (findIndex_middle _ _ _ _ Hl1 Hproduct).
    rewrite <- (Nat.add_0_r (length l1)), alter_app_r. simpl.
    match goal with
    | |- context [Cart.save ?doc w] =>
        destruct (save_single doc w)
          as (saved & Hrun & Hid & Hsaved & _)
    end.
    { eapply singleRetailer_retailers; [|exact Hsingle].
      intros z Hz. simpl in Hz. rewrite Hitems.
      apply elem_of_app in Hz as [Hz|Hz].
      - exists z. split; [apply elem_of_app; now left | reflexivity].
      - apply elem_of_cons in Hz as [->|Hz].
        + exists line. split; [|reflexivity].
          apply elem_of_app. right. apply list_elem_of_here.
        + exists z. split; [|reflexivity].
          apply elem_of_app. right. now apply list_elem_of_further. }
    exists saved. eexists. split; [exact Hrun|]. simpl in *.
    unfold linesFor. rewrite Hsaved, Hitems.
    split.
    { rewrite filter_app, (Forall_linesFor_nil _ _ Hl1).
      rewrite filter_cons_True by exact Hproduct.
      rewrite (Forall_linesFor_nil _ _ Hl2). simpl. now rewrite Hproduct. }
    split.
    { intros other Hother. rewrite !filter_app.
      rewrite !(filter_cons_False _ _ l2); [reflexivity| |];
        simpl; congruence. }
    split; [apply lookup_insert_eq | reflexivity].
Qed.

(** The cart holds two apples; the quantity is set to five. *)
Lemma updateItemQuantity_sets_witness :
  exists saved w',
    Cart.updateItemQuantity
      {| _id := 50%N;
         fields :=
           Sample.cart [Sample.line 1%N "apple" (1 # 1) 2 100%N] 0 |}
      1%N 5 (Sample.world 10 (Sample.cart [] 0) [])
    = (inr saved, w')
    /\ linesFor 1%N (fields saved)
       = [Sample.line 1%N "apple" (299 # 100) 5 100%N].
Proof.
  destruct (proj2 (proj2 (proj2 (proj2
              (updateItemQuantity_sets
                 (Sample.world 10 (Sample.cart [] 0) [])
                 {| _id := 50%N;
                    fields :=
                      Sample.cart
                        [Sample.line 1%N "apple" (1 # 1) 2 100%N] 0 |}
                 1%N 5))))
              ltac:(lia)
              (Sample.product "apple" (299 # 100) 10 100%N)
              (Sample.line 1%N "apple" (1 # 1) 2 100%N))
    as (saved & w' & Hrun & Hline & _).
  - reflexivity.
  - reflexivity.
  - simpl. lia.
  - reflexivity.
  - intros x y Hx Hy. simpl in Hx, Hy.
    apply list_elem_of_singleton in Hx as ->.
    now apply list_elem_of_singleton in Hy as ->.
  - exists saved, w'. split; [exact Hrun | exact Hline].
Defined.

(** X7. [clearCart] succeeds on any cart: it stores the cart with no item,
    a discount of zero and no coupon, for the same customer and with the
    retailer it had.  The cleared cart counts no item and has subtotal zero,
    and its total is the delivery fee, not zero. *)
Theorem clearCart_empties (w : World) (this : Doc N CartSchema.t) :
  exists saved,
    Cart.clearCart this w
    = (inr saved, set_Carts (<[_id this := fields saved]> (Carts w)) w)
    /\ CartSchema.items (fields saved) = []
    /\ CartSchema.discount (fields saved) = 0%Q
    /\ CartSchema.couponCode (fields saved) = None
    /\ CartSchema.customer (fields saved)
       = CartSchema.customer (fields this)
    /\ CartSchema.retailer (fields saved)
       = CartSchema.retailer (fields this)
    /\ Cart.itemCount (fields saved) = 0
    /\ Cart.subtotal (fields saved) = 0%Q
    /\ (Cart.total (env w) (fields saved)
        == Cart.deliveryFee (env w) (fields saved))%Q.
Proof.
  eexists. split; [reflexivity|]. simpl.
  repeat (split; [reflexivity|]).
  unfold Cart.total, Cart.tax, Cart.subtotal, Math_round.
  cbn [fields CartSchema.items CartSchema.discount fold_left].
  rewrite (Qfloor_comp _ (1 # 2)) by ring.
  change (Qfloor (1 # 2)) with 0. unfold Qdiv. ring.
Qed.

Section Append.

Import CartSchema.

Lemma singleRetailer_all (c : CartSchema.t) (r : N) :
  (forall z, z ∈ items c -> CartItemSchema.retailerId z = r) ->
  singleRetailer c.
Proof. intros Hall x y Hx Hy. now rewrite (Hall x Hx), (Hall y Hy). Qed.

Lemma items_keep_retailer (c c' : CartSchema.t) (r : option N) :
  items match retailer c with
        | None => set_retailer r c'
        | Some _ => c'
        end = items c'.
Proof. now destruct (retailer c). Qed.

End Append.

(** X8. Adding, in a positive quantity, an orderable product the cart has no
    line for, when the lines of the cart are of the product's retailer,
    succeeds: a line is appended with the quantity and with the price, name,
    first image and retailer the catalog has at that moment, the cart's
    retailer is the product's, the subtotal grows by price times quantity
    and the item count by the quantity.  The stock is not touched: a cart
    reserves nothing. *)
Theorem addItem_appends (w : World) (this : Doc N CartSchema.t)
    (productId : N) (quantity : Z) (p : ProductSchema.t) :
  0 < quantity ->
  Products w !! productId = Some p ->
  ProductSchema.isAvailable p = true ->
  quantity <= ProductSchema.stock p ->
  linesFor productId (fields this) = [] ->
  Forall (fun item => CartItemSchema.retailerId item
                      = ProductSchema.retailer p)
    (CartSchema.items (fields this)) ->
  exists saved w',
    Cart.addItem this productId quantity w = (inr saved, w')
    /\ CartSchema.items (fields saved)
       = (CartSchema.items (fields this)
          ++ [{| CartItemSchema.product := productId;
                 CartItemSchema.quantity := quantity;
                 CartItemSchema.price := ProductSchema.price p;
                 CartItemSchema.productName := ProductSchema.name p;
                 CartItemSchema.productImage :=
                   match ProductSchema.images p with
                   | image :: _ => image
                   | [] => ""
                   end;
                 CartItemSchema.retailerId :=
                   ProductSchema.retailer p |}])%list
    /\ CartSchema.retailer (fields saved) = Some (ProductSchema.retailer p)
    /\ Cart.subtotal (fields saved)
       = (Cart.subtotal (fields this)
          + ProductSchema.price p * inject_Z quantity)%Q
    /\ Cart.itemCount (fields saved)
       = Cart.itemCount (fields this) + quantity
    /\ Carts w' !! _id this = Some (fields saved)
    /\ Products w' = Products w.
Proof.
  intros _ Hp Havailable Henough Hfresh Hretailer.
  unfold Cart.addItem, Product.findById. unfold_M. rewrite Hp. simpl.
  rewrite Havailable. simpl.
  destruct (Z.ltb_spec (ProductSchema.stock p) quantity); [lia|].
  rewrite (findIndex_fresh _ _ (linesFor_nil_Forall _ _ Hfresh)).
  match goal with
  | |- context [Cart.save ?doc w] =>
      destruct (save_single doc w)
        as (saved & Hrun & Hid & Hitems & _ & _ & _ & Hhooked)
  end.
  { apply (singleRetailer_all _ (ProductSchema.retailer p)).
    intros z Hz. cbn [fields with_fields] in Hz.
    rewrite items_keep_retailer in Hz. simpl in Hz.
    apply elem_of_app in Hz as [Hz|Hz].
    - rewrite Forall_forall in Hretailer. now apply Hretailer.
    - now apply list_elem_of_singleton in Hz as ->. }
  exists saved. eexists. split; [exact Hrun|].
  assert (CartSchema.items (fields saved)
          = (CartSchema.items (fields this)
             ++ [{| CartItemSchema.product := productId;
                    CartItemSchema.quantity := quantity;
                    CartItemSchema.price := ProductSchema.price p;
                    CartItemSchema.productName := ProductSchema.name p;
                    CartItemSchema.productImage :=
                      match ProductSchema.images p with
                      | image :: _ => image
                      | [] => ""
                      end;
                    CartItemSchema.retailerId :=
                      ProductSchema.retailer p |}])%list) as Hpushed.
  { rewrite Hitems. simpl. now destruct (CartSchema.retailer (fields this)). }
  split; [exact Hpushed|]. split.
  { rewrite Hhooked.
    replace (CartSchema.items _) with
      (CartSchema.items (fields this)
       ++ [{| CartItemSchema.product := productId;
              CartItemSchema.quantity := quantity;
              CartItemSchema.price := ProductSchema.price p;
              CartItemSchema.productName := ProductSchema.name p;
              CartItemSchema.productImage :=
                match ProductSchema.images p with
                | image :: _ => image
                | [] => ""
                end;
              CartItemSchema.retailerId := ProductSchema.retailer p |}])%list
      by (simpl; now destruct (CartSchema.retailer (fields this))).
    destruct (CartSchema.items (fields this)) as [|first l]; [reflexivity|].
    simpl. f_equal. now apply Forall_cons in Hretailer as [-> _]. }
  unfold Cart.subtotal, Cart.itemCount. rewrite Hpushed, !fold_left_app.
  simpl. split; [reflexivity|]. split; [reflexivity|].
  split; [apply lookup_insert_eq | reflexivity].
Qed.

(** A loaf joins two apples: 5.98 + 1.99. *)
Lemma addItem_appends_witness :
  exists saved w',
    Cart.addItem
      {| _id := 50%N;
         fields :=
           Sample.cart [Sample.line 1%N "apple" (299 # 100) 2 100%N] 0 |}
      2%N 1 (Sample.world 10 (Sample.cart [] 0) [])
    = (inr saved, w')
    /\ (Cart.subtotal (fields saved) == 797 # 100)%Q
    /\ Cart.itemCount (fields saved) = 3
    /\ Products w' = Products (Sample.world 10 (Sample.cart [] 0) []).
Proof.
  destruct (addItem_appends (Sample.world 10 (Sample.cart [] 0) [])
              {| _id := 50%N;
                 fields :=
                   Sample.cart
                     [Sample.line 1%N "apple" (299 # 100) 2 100%N] 0 |}
              2%N 1 (Sample.product "bread" (199 # 100) 1 100%N))
    as (saved & w' & Hrun & _ & _ & Hsubtotal & Hcount & _ & Hproducts).
  - lia.
  - reflexivity.
  - reflexivity.
  - simpl. lia.
  - reflexivity.
  - repeat constructor.
  - exists saved, w'. split; [exact Hrun|].
    rewrite Hsubtotal, Hcount. split; [reflexivity|].
    split; [reflexivity | exact Hproducts].
Defined.

(** ** The orders: what the later operations keep *)

Section Preserved.

Variable R : relation OrderSchema.t.
Hypothesis R_refl : forall o, R o o.
Hypothesis R_trans : forall o1 o2 o3, R o1 o2 -> R o2 o3 -> R o1 o3.
Hypothesis R_status :
  forall o status now note, R o (statusUpdated o status now note).
Hypothesis R_cancel :
  forall o reason now,
    OrderSchema.status o <> delivered -> R o (cancelledWith o reason now).
Hypothesis R_payment :
  forall o p status transactionId now,
    OrderSchema.payment o = Some p ->
    R o (Order.set_payment
           (Some (paymentUpdated p status transactionId now)) o).

Lemma related_refl (l : list OrderSchema.t) : related R l l.
Proof. intros i o Hi. exists o. auto. Qed.

Lemma related_trans (l1 l2 l3 : list OrderSchema.t) :
  related R l1 l2 -> related R l2 l3 -> related R l1 l3.
Proof.
  intros H12 H23 i o Hi.
  destruct (H12 i o Hi) as (o2 & Hi2 & Ho2).
  destruct (H23 i o2 Hi2) as (o3 & Hi3 & Ho3).
  exists o3. split; [exact Hi3|]. eapply R_trans; eassumption.
Qed.

Lemma related_insert (l : list OrderSchema.t) (i : nat)
    (o o' : OrderSchema.t) :
  l !! i = Some o -> R o o' -> related R l (<[i := o']> l).
Proof.
  intros Hi Ho j oj Hj. destruct (decide (j = i)) as [->|Hne].
  - exists o'. split.
    + apply list_lookup_insert_eq. now apply lookup_lt_Some in Hi.
    + congruence.
  - exists oj. split; [|apply R_refl].
    rewrite list_lookup_insert_ne by congruence. exact Hj.
Qed.

Lemma on_order_related (orderId : nat)
    (f : Doc nat OrderSchema.t -> M (Doc nat OrderSchema.t)) (w : World) :
  (forall this, Orders w !! _id this = Some (fields this) ->
     related R (Orders w) (Orders (f this w).2)) ->
  related R (Orders w) (Orders (on_order orderId f w).2).
Proof.
  intros Hf. unfold on_order, Order.findById. unfold_M.
  destruct (Orders w !! orderId) as [o|] eqn:Ho; simpl;
    [|apply related_refl].
  specialize (Hf {| _id := orderId; fields := o |} Ho).
  now destruct (f _ w) as [[e|o'] w'].
Qed.

Lemma runOrderOp_related (op : OrderOp) (w : World) :
  related R (Orders w) (Orders (runOrderOp op w).2).
Proof.
  destruct op as [orderId s note | orderId reason | orderId s transactionId
                 | user orderId s | cartId paymentDetails deliveryDetails];
    unfold runOrderOp.
  - apply on_order_related. intros this Hthis.
    apply (related_insert _ _ (fields this)); [exact Hthis|].
    apply R_status.
  - apply on_order_related. intros this Hthis.
    unfold Order.cancelOrder.
    destruct (decide _) as [Hdelivered|Hdelivered];
      [apply related_refl|].
    apply (related_insert _ _ (fields this)); [exact Hthis|].
    now apply R_cancel.
  - apply on_order_related. intros this Hthis.
    unfold Order.updatePayment.
    destruct (OrderSchema.payment (fields this)) as [p|] eqn:Hp;
      [|apply related_refl].
    unfold mbind, M_bind, gets.
    destruct (negb _); [apply related_refl|].
    apply (related_insert _ _ (fields this)); [exact Hthis|].
    now apply R_payment.
  - rewrite discard_world.
    unfold retailer.putOrderStatus, try_catch.
    destruct s as [s|]; simpl; [|apply related_refl].
    destruct (bool_decide _); simpl; [|apply related_refl].
    unfold Order.findById. unfold_M.
    destruct (Orders w !! orderId) as [o|] eqn:Ho; simpl;
      [|apply related_refl].
    destruct (existsb _ _); simpl; [|apply related_refl].
    destruct (decide _); simpl; [apply related_refl|].
    apply (related_insert _ _ o); [exact Ho|].
    apply R_status.
  - rewrite discard_world, createFromCart_world. apply related_refl.
Qed.

Lemma runOrderOps_related (ops : list OrderOp) (w : World) :
  related R (Orders w) (Orders (runOrderOps ops w)).
Proof.
  revert w. induction ops as [|op ops IH]; intros w;
    [apply related_refl|].
  eapply related_trans; [apply runOrderOp_related | apply IH].
Qed.

End Preserved.

(** X9. The status history of a stored order is append-only: whatever
    sequence of later operations runs ([updateStatus], [cancelOrder],
    [updatePayment], the retailer's status update, another checkout), the
    order stays stored at its place and the history it had is a prefix of
    the history it has. *)
Theorem status_history_append_only (ops : list OrderOp) (w : World)
    (i : nat) (o : OrderSchema.t) :
  Orders w !! i = Some o ->
  exists o',
    Orders (runOrderOps ops w) !! i = Some o'
    /\ OrderSchema.statusHistory o `prefix_of` OrderSchema.statusHistory o'.
Proof.
  apply (runOrderOps_related
           (fun o o' => OrderSchema.statusHistory o
                        `prefix_of` OrderSchema.statusHistory o')).
  - reflexivity.
  - intros o1 o2 o3 H12 H23. now transitivity (OrderSchema.statusHistory o2).
  - intros o1 s now note. now apply prefix_app_r.
  - intros o1 reason now _. now apply prefix_app_r.
  - reflexivity.
Qed.

(** An order confirmed, delivered, paid and cancelled: the entry it was
    created with is still the first of its history. *)
Lemma status_history_append_only_witness :
  exists o',
    Orders (runOrderOps
              [OpUpdateStatus 0 confirmed "accepted";
               OpPutOrderStatus 100%N 0 (Some delivered);
               OpUpdatePayment 0 "completed" None;
               OpCancelOrder 0 "too late"]
              (Sample.world 10 (Sample.cart [] 0)
                 [Order.set_statusHistory
                    [{| StatusHistorySchema.status := pending;
                        StatusHistorySchema.timestamp := 0;
                        StatusHistorySchema.note := "Order created" |}]
                    (Sample.order "NM-261101-0001" pending)])) !! 0%nat
    = Some o'
    /\ [{| StatusHistorySchema.status := pending;
           StatusHistorySchema.timestamp := 0;
           StatusHistorySchema.note := "Order created" |}]
       `prefix_of` OrderSchema.statusHistory o'.
Proof.
  apply (status_history_append_only _ _ 0%nat
           (Order.set_statusHistory _ (Sample.order "NM-261101-0001" pending))).
  reflexivity.
Defined.

(** X10. What an order records of the purchase is fixed: no later operation
    changes the lines, the customer, the order number or the coupon code of
    a stored order, nor the method and the amount of its payment. *)
Theorem order_snapshot_fixed (ops : list OrderOp) (w : World)
    (i : nat) (o : OrderSchema.t) :
  Orders w !! i = Some o ->
  exists o',
    Orders (runOrderOps ops w) !! i = Some o'
    /\ OrderSchema.items o' = OrderSchema.items o
    /\ OrderSchema.customer o' = OrderSchema.customer o
    /\ OrderSchema.orderNumber o' = OrderSchema.orderNumber o
    /\ OrderSchema.couponCode o' = OrderSchema.couponCode o
    /\ PaymentSchema.method <$> OrderSchema.payment o'
       = PaymentSchema.method <$> OrderSchema.payment o
    /\ PaymentSchema.amount <$> OrderSchema.payment o'
       = PaymentSchema.amount <$> OrderSchema.payment o.
Proof.
  apply (runOrderOps_related
           (fun o o' =>
              OrderSchema.items o' = OrderSchema.items o
              /\ OrderSchema.customer o' = OrderSchema.customer o
              /\ OrderSchema.orderNumber o' = OrderSchema.orderNumber o
              /\ OrderSchema.couponCode o' = OrderSchema.couponCode o
              /\ PaymentSchema.method <$> OrderSchema.payment o'
                 = PaymentSchema.method <$> OrderSchema.payment o
              /\ PaymentSchema.amount <$> OrderSchema.payment o'
                 = PaymentSchema.amount <$> OrderSchema.payment o)).
  - intros o1. repeat split.
  - intros o1 o2 o3 (? & ? & ? & ? & ? & ?) (? & ? & ? & ? & ? & ?).
    repeat split; congruence.
  - intros o1 s now note. repeat split.
  - intros o1 reason now _. repeat split.
  - intros o1 p s transactionId now Hp. simpl. rewrite Hp.
    repeat split.
Qed.

(** The order of one apple keeps its line and its number through four
    operations. *)
Lemma order_snapshot_fixed_witness :
  exists o',
    Orders (runOrderOps
              [OpUpdateStatus 0 confirmed "accepted";
               OpPutOrderStatus 100%N 0 (Some delivered);
               OpUpdatePayment 0 "completed" None;
               OpCancelOrder 0 "too late"]
              (Sample.world 10 (Sample.cart [] 0)
                 [Sample.order "NM-261101-0001" pending])) !! 0%nat
    = Some o'
    /\ OrderSchema.items o'
       = OrderSchema.items (Sample.order "NM-261101-0001" pending)
    /\ OrderSchema.customer o' = 7%N
    /\ OrderSchema.orderNumber o' = "NM-261101-0001".
Proof.
  destruct (order_snapshot_fixed
              [OpUpdateStatus 0 confirmed "accepted";
               OpPutOrderStatus 100%N 0 (Some delivered);
               OpUpdatePayment 0 "completed" None;
               OpCancelOrder 0 "too late"]
              (Sample.world 10 (Sample.cart [] 0)
                 [Sample.order "NM-261101-0001" pending])
              0%nat (Sample.order "NM-261101-0001" pending) eq_refl)
    as (o' & Hstored & Hitems & Hcustomer & Hnumber & _).
  exists o'. auto.
Defined.

(** X11. The history tracks the status: when the last entry of the history
    of a stored order carries the status of the order, every later
    operation keeps it so, since each write of the status pushes an entry
    with it. *)
Theorem history_tracks_status (ops : list OrderOp) (w : World) (i : nat)
    (o : OrderSchema.t) :
  Orders w !! i = Some o ->
  historyTracksStatus o ->
  exists o',
    Orders (runOrderOps ops w) !! i = Some o'
    /\ historyTracksStatus o'.
Proof.
  intros Hstored Htracks.
  destruct (runOrderOps_related
              (fun o o' => historyTracksStatus o -> historyTracksStatus o'))
    with (ops := ops) (w := w) (i := i) (o := o)
    as (o' & Hstored' & Hkept); try exact Hstored.
  - auto.
  - auto.
  - intros o1 s now note _. unfold historyTracksStatus. simpl.
    now rewrite last_snoc.
  - intros o1 reason now _ _. unfold historyTracksStatus. simpl.
    now rewrite last_snoc.
  - intros o1 p s transactionId now _ Hp. exact Hp.
  - exists o'. auto.
Qed.

(** A pending order with its first entry, after it is confirmed, paid and
    cancelled. *)
Lemma history_tracks_status_witness :
  exists o',
    Orders (runOrderOps
              [OpUpdateStatus 0 confirmed "accepted";
               OpUpdatePayment 0 "completed" None;
               OpCancelOrder 0 "too late"]
              (Sample.world 10 (Sample.cart [] 0)
                 [statusUpdated (Sample.order "NM-261101-0001" pending)
                    pending 0 "Order created"])) !! 0%nat
    = Some o'
    /\ historyTracksStatus o'.
Proof.
  apply (history_tracks_status _ _ 0%nat
           (statusUpdated (Sample.order "NM-261101-0001" pending)
              pending 0 "Order created")); reflexivity.
Defined.

(** X12. The expected delivery date of a stored order, once it is set, is
    never changed by a later operation; a confirmation applies its three
    days to an order, valid as it is stored, that has a delivery and no
    expected date. *)
Theorem expected_delivery_fixed :
  (forall (ops : list OrderOp) (w : World) (i : nat) (o : OrderSchema.t)
          (t : Z),
     Orders w !! i = Some o ->
     expectedDelivery o = Some t ->
     exists o',
       Orders (runOrderOps ops w) !! i = Some o'
       /\ expectedDelivery o' = Some t)
  /\ (forall (this : Doc nat OrderSchema.t) (note : string) (w : World)
             (d : DeliverySchema.t),
        Order.validate (fields this) = true ->
        OrderSchema.delivery (fields this) = Some d ->
        DeliverySchema.expectedDeliveryDate d = None ->
        exists saved w',
          Order.updateStatus this confirmed note w = (inr saved, w')
          /\ Orders w' = <[_id this := fields saved]> (Orders w)
          /\ expectedDelivery (fields saved)
             = Some (getTime (clock w) + 3 * 24 * 60 * 60 * 1000)).
Proof.
  split.
  - intros ops w i o t Hstored Hdate.
    destruct (runOrderOps_related
                (fun o o' => forall t, expectedDelivery o = Some t ->
                                       expectedDelivery o' = Some t))
      with (ops := ops) (w := w) (i := i) (o := o)
      as (o' & Hstored' & Hkept); try exact Hstored.
    + auto.
    + auto.
    + intros o1 s now note t'. unfold expectedDelivery, statusUpdated. simpl.
      destruct (OrderSchema.delivery o1) as [d|]; simpl; [|discriminate].
      intros Ht. destruct (decide (s = delivered)), (decide (s = confirmed));
        simpl; try rewrite Ht; simpl; first [exact Ht | reflexivity].
    + intros o1 reason now _ t' Ht. exact Ht.
    + intros o1 p s transactionId now _ t' Ht. exact Ht.
    + exists o'. auto.
  - intros this note w d _ Hd Hnone.
    exists (with_fields this
              (statusUpdated (fields this) confirmed (getTime (clock w))
                 note)).
    exists (set_Orders
              (<[_id this :=
                   statusUpdated (fields this) confirmed (getTime (clock w))
                     note]> (Orders w)) w).
    split; [reflexivity|]. split; [reflexivity|].
    unfold expectedDelivery. simpl. rewrite Hd. simpl. now rewrite Hnone.
Qed.

(** An order expected on a given day is confirmed by its retailer and then
    delivered: still expected that day; and an order with no expected date
    is confirmed on 2 November 2026: expected three days later. *)
Lemma expected_delivery_fixed_witness :
  (exists o',
     Orders (runOrderOps
               [OpPutOrderStatus 100%N 0 (Some confirmed);
                OpUpdateStatus 0 delivered "left at the door"]
               (Sample.world 10 (Sample.cart [] 0)
                  [Order.set_delivery
                     (Some {| DeliverySchema.address := Sample.home;
                              DeliverySchema.contactPhone := Some "555-0100";
                              DeliverySchema.instructions := None;
                              DeliverySchema.expectedDeliveryDate :=
                                Some 1793750400000;
                              DeliverySchema.actualDeliveryDate := None;
                              DeliverySchema.trackingNumber := None |})
                     (Sample.order "NM-261101-0001" pending)])) !! 0%nat
     = Some o'
     /\ expectedDelivery o' = Some 1793750400000)
  /\ (exists saved w',
        Order.updateStatus
          {| _id := 0%nat;
             fields :=
               Order.set_delivery
                 (Some {| DeliverySchema.address := Sample.home;
                          DeliverySchema.contactPhone := Some "555-0100";
                          DeliverySchema.instructions := None;
                          DeliverySchema.expectedDeliveryDate := None;
                          DeliverySchema.actualDeliveryDate := None;
                          DeliverySchema.trackingNumber := None |})
                 (Sample.order "NM-261101-0001" pending) |}
          confirmed "accepted"
          (Sample.world 10 (Sample.cart [] 0)
             [Sample.order "NM-261101-0001" pending])
        = (inr saved, w')
        /\ expectedDelivery (fields saved)
           = Some (1793577600000 + 259200000)).
Proof.
  split.
  - apply (proj1 expected_delivery_fixed _ _ 0%nat
             (Order.set_delivery
                (Some {| DeliverySchema.address := Sample.home;
                         DeliverySchema.contactPhone := Some "555-0100";
                         DeliverySchema.instructions := None;
                         DeliverySchema.expectedDeliveryDate :=
                           Some 1793750400000;
                         DeliverySchema.actualDeliveryDate := None;
                         DeliverySchema.trackingNumber := None |})
                (Sample.order "NM-261101-0001" pending)));
      reflexivity.
  - destruct (proj2 expected_delivery_fixed
                {| _id := 0%nat;
                   fields :=
                     Order.set_delivery
                       (Some {| DeliverySchema.address := Sample.home;
                                DeliverySchema.contactPhone :=
                                  Some "555-0100";
                                DeliverySchema.instructions := None;
                                DeliverySchema.expectedDeliveryDate := None;
                                DeliverySchema.actualDeliveryDate := None;
                                DeliverySchema.trackingNumber := None |})
                       (Sample.order "NM-261101-0001" pending) |}
                "accepted"
                (Sample.world 10 (Sample.cart [] 0)
                   [Sample.order "NM-261101-0001" pending])
                _ eq_refl eq_refl eq_refl)
      as (saved & w' & Hrun & _ & Hdate).
    exists saved, w'. split; [exact Hrun | exact Hdate].
Defined.

(** ** The pipeline: no run commits *)

(** X13. No run of [createFromCart] returns. Every run throws one of five
    failures and leaves the world as it found it: 'Cart not found',
    'Cannot create order with empty cart', 'Some items are unavailable or
    out of stock', the type error of a line whose retailer is gone, or,
    when the cart is stored, holds a line and every line is available, the
    refusal of the order by its validators: the document carries no order
    number, which is required, and the hook that sets one runs after the
    validation. *)
Theorem createFromCart_never_commits (cartId : N)
    (paymentDetails : PaymentDetails) (deliveryDetails : DeliveryDetails)
    (w : World) :
  exists e,
    Order.createFromCart cartId paymentDetails deliveryDetails w = (inl e, w)
    /\ e ∈ [Error "Cart not found";
            Error "Cannot create order with empty cart";
            Error "Some items are unavailable or out of stock";
            TypeError;
            ValidationError]
    /\ (e = ValidationError ->
        exists c,
          Carts w !! cartId = Some c
          /\ CartSchema.items c <> []
          /\ unavailableIn w (CartSchema.items c) = []).
Proof.
  destruct (createFromCart_throws cartId paymentDetails deliveryDetails w)
    as (e & Hrun & [Hgate | [-> Hcart]]).
  - exists e. split; [exact Hrun|]. unfold gateErrors in Hgate. split.
    + repeat (apply elem_of_cons in Hgate as [->|Hgate];
              [repeat (first [apply list_elem_of_here
                             | apply list_elem_of_further])|]).
      inversion Hgate.
    + intros ->.
      repeat (apply elem_of_cons in Hgate as [Hgate|Hgate];
              [discriminate|]).
      inversion Hgate.
  - exists ValidationError. split; [exact Hrun|]. split; [|auto].
    do 4 apply list_elem_of_further. apply list_elem_of_here.
Qed.

(** ** The handlers of the customer *)

Section CustomerHandlers.

Lemma findOne_run (user : N) (w : World) :
  exists cart, Cart.findOne user w = (inr cart, w).
Proof. eexists. reflexivity. Qed.

Lemma findOne_customer (user : N) (w : World) (cart : Doc N CartSchema.t) :
  Cart.findOne user w = (inr (Some cart), w) ->
  CartSchema.customer (fields cart) = user.
Proof.
  unfold Cart.findOne. unfold_M. intros [= Hhead].
  destruct (filter _ (map_to_list (Carts w))) as [|kc l] eqn:Hfilter;
    [discriminate|].
  injection Hhead as <-. simpl.
  assert (kc ∈ filter (fun kc => CartSchema.customer kc.2 = user)
                 (map_to_list (Carts w))) as Hin.
  { rewrite Hfilter. apply list_elem_of_here. }
  now apply list_elem_of_filter in Hin as [Hcustomer _].
Qed.

End CustomerHandlers.

(** X17. The checkout handler always answers, with 400, 404 or 500, never
    with 201, it sends no order and it writes nothing. It answers 500
    exactly when the request is in order (a payment method, a cart of the
    customer that holds a line, every line available, the customer
    stored): the pipeline then throws, as every run of it does, and the
    handler's catch answers. *)
Theorem postOrder_outcomes (user : N) (paymentMethod : option string)
    (deliveryAddress : option Address)
    (deliveryPhone deliveryInstructions : option string) (w : World) :
  exists resp,
    customer.postOrder user paymentMethod deliveryAddress deliveryPhone
      deliveryInstructions w = (inr resp, w)
    /\ (code resp = 400 \/ code resp = 404 \/ code resp = 500)%nat
    /\ success resp = false
    /\ body_order resp = None
    /\ (code resp = 500%nat <->
        exists method cart customer,
          paymentMethod = Some method
          /\ method <> ""
          /\ Cart.findOne user w = (inr (Some cart), w)
          /\ CartSchema.items (fields cart) <> []
          /\ unavailableIn w (CartSchema.items (fields cart)) = []
          /\ Customers w !! user = Some customer).
Proof.
  unfold customer.postOrder, try_catch.
  destruct paymentMethod as [[|a m]|].
  1, 3: eexists; split; [reflexivity|]; simpl;
    split; [auto|]; split; [reflexivity|]; split; [reflexivity|];
    split; [discriminate|];
    intros (method & cart & customer & [= <-] & Hmethod & _);
    now destruct Hmethod.
  unfold mbind at 1, M_bind.
  destruct (findOne_run user w) as [[cart|] Hcart]; rewrite Hcart.
  2: { eexists. split; [reflexivity|]. simpl.
       split; [auto|]. split; [reflexivity|]. split; [reflexivity|].
       split; [discriminate|].
       intros (method & cart & customer & _ & _ & [=] & _). }
  destruct (CartSchema.items (fields cart)) as [|first l] eqn:Hitems.
  { eexists. split; [reflexivity|]. simpl.
    split; [auto|]. split; [reflexivity|]. split; [reflexivity|].
    split; [discriminate|].
    intros (method & cart' & customer & _ & _ & [= <-] & Hlines & _).
    now rewrite Hitems in Hlines. }
  cbn [length Nat.eqb].
  unfold mbind at 1, M_bind. rewrite verifyAvailability_eq. cbn [isValid].
  rewrite Hitems.
  destruct (unavailableIn w (first :: l)) as [|u us] eqn:Hverified.
  2: { eexists. split; [reflexivity|]. simpl.
       split; [auto|]. split; [reflexivity|]. split; [reflexivity|].
       split; [discriminate|].
       intros (method & cart' & customer & _ & _ & [= <-] & _ & Hnone & _).
       rewrite Hitems, Hverified in Hnone. discriminate. }
  cbn [length Nat.eqb negb].
  unfold mbind at 1, M_bind, gets.
  destruct (Customers w !! user) as [customer|] eqn:Hcustomer.
  2: { eexists. split; [reflexivity|]. simpl.
       split; [auto|]. split; [reflexivity|]. split; [reflexivity|].
       split; [discriminate|].
       intros (method & cart' & customer & _ & _ & _ & _ & _ & [=]). }
  unfold mbind at 1, M_bind.
  match goal with
  | |- context [Order.createFromCart ?id ?pd ?dd w] =>
      destruct (createFromCart_throws id pd dd w) as (e & -> & _)
  end.
  eexists. split; [reflexivity|]. simpl.
  split; [auto|]. split; [reflexivity|]. split; [reflexivity|].
  split; [|reflexivity]. intros _.
  exists (String a m), cart, customer.
  split; [reflexivity|]. split; [discriminate|]. split; [reflexivity|].
  rewrite Hitems. split; [discriminate|]. split; [exact Hverified|].
  reflexivity.
Qed.

(** ** The handlers of the retailer *)

(** X18. The retailer's status update, given the id of an order as the
    database has them, always answers, with 200, 400, 403 or 404 and not
    with 500. It answers 200 exactly when the status is one of
    the four it accepts, the order exists, holds an item of the retailer and
    is not cancelled; it then stores the order with the new status, the
    history entry and the delivery stamps, whatever the status was (no order
    of the statuses is asked for). Any other answer has written nothing. *)
Theorem putOrderStatus_outcomes (user : N) (orderId : nat)
    (status : option Status) (w : World) :
  exists resp w',
    retailer.putOrderStatus user orderId status w = (inr resp, w')
    /\ (code resp = 200 \/ code resp = 400 \/ code resp = 403
        \/ code resp = 404)%nat
    /\ (code resp <> 200%nat -> w' = w /\ body_order resp = None)
    /\ (code resp = 200%nat <->
        exists s o,
          status = Some s /\ s ∈ retailer.validStatuses
          /\ Orders w !! orderId = Some o
          /\ existsb (fun item => N.eqb (OrderItemSchema.retailer item) user)
               (OrderSchema.items o) = true
          /\ OrderSchema.status o <> cancelled)
    /\ (code resp = 200%nat ->
        exists s o,
          status = Some s
          /\ Orders w !! orderId = Some o
          /\ body_order resp
             = Some {| _id := orderId;
                       fields :=
                         statusUpdated o s (getTime (clock w))
                           ("Status updated by retailer ID: "
                            ++ toString (Z.of_N user)) |}
          /\ w' = set_Orders
                    (<[orderId :=
                         statusUpdated o s (getTime (clock w))
                           ("Status updated by retailer ID: "
                            ++ toString (Z.of_N user))]> (Orders w)) w).
Proof.
  unfold retailer.putOrderStatus, try_catch.
  destruct status as [s|]; simpl.
  2: { eexists. eexists. split; [reflexivity|]. simpl.
       split; [auto|]. split; [auto|].
       split; [|discriminate].
       split; [discriminate|]. intros (s & o & Hs & _). discriminate. }
  destruct (bool_decide (s ∈ retailer.validStatuses)) eqn:Hvalid; simpl.
  2: { eexists. eexists. split; [reflexivity|]. simpl.
       split; [auto|]. split; [auto|].
       split; [|discriminate].
       split; [discriminate|]. intros (s' & o & [= <-] & Hs' & _).
       apply bool_decide_eq_false in Hvalid. contradiction. }
  apply bool_decide_eq_true in Hvalid.
  unfold Order.findById. unfold_M.
  destruct (Orders w !! orderId) as [o|] eqn:Ho; simpl.
  2: { eexists. eexists. split; [reflexivity|]. simpl.
       split; [auto|]. split; [auto|].
       split; [|discriminate].
       split; [discriminate|]. intros (s' & o & _ & _ & [=] & _). }
  destruct (existsb _ (OrderSchema.items o)) eqn:Hitems; simpl.
  2: { eexists. eexists. split; [reflexivity|]. simpl.
       split; [auto|]. split; [auto|].
       split; [|discriminate].
       split; [discriminate|]. intros (s' & o' & _ & _ & [= <-] & Hhas & _).
       congruence. }
  destruct (decide (OrderSchema.status o = cancelled)) as [Hc|Hc]; simpl.
  { eexists. eexists. split; [reflexivity|]. simpl.
    split; [auto|]. split; [auto|].
    split; [|discriminate].
    split; [discriminate|]. intros (s' & o' & _ & _ & [= <-] & _ & Hnot).
    contradiction. }
  eexists. eexists. split; [reflexivity|]. simpl.
  split; [auto|]. split; [intros Hcode; now destruct Hcode|].
  split.
  - split; [|reflexivity]. intros _. exists s, o. auto.
  - intros _. exists s, o. auto.
Qed.

(** ** The order: cancelling *)

(** X19. [cancelOrder] on an order that is not delivered, a cancelled one
    included, returns: the order is stored cancelled with the reason, which
    is also the note of the entry pushed on its history. Nothing else is
    undone: the payment is the payment it had, paid or not, the lines and
    the delivery stay, and the catalog is untouched, so the stock the
    checkout took is not given back. *)
Theorem cancelOrder_cancels (this : Doc nat OrderSchema.t) (reason : string)
    (w : World) :
  OrderSchema.status (fields this) <> delivered ->
  exists saved w',
    Order.cancelOrder this reason w = (inr saved, w')
    /\ _id saved = _id this
    /\ Orders w' = <[_id this := fields saved]> (Orders w)
    /\ OrderSchema.status (fields saved) = cancelled
    /\ OrderSchema.cancelReason (fields saved) = Some reason
    /\ OrderSchema.statusHistory (fields saved)
       = (OrderSchema.statusHistory (fields this)
          ++ [{| StatusHistorySchema.status := cancelled;
                 StatusHistorySchema.timestamp := getTime (clock w);
                 StatusHistorySchema.note := reason |}])%list
    /\ OrderSchema.payment (fields saved) = OrderSchema.payment (fields this)
    /\ OrderSchema.delivery (fields saved)
       = OrderSchema.delivery (fields this)
    /\ OrderSchema.items (fields saved) = OrderSchema.items (fields this)
    /\ Products w' = Products w
    /\ Carts w' = Carts w.
Proof.
  intros Hstatus. unfold Order.cancelOrder.
  rewrite decide_False by exact Hstatus.
  eexists. eexists. split; [reflexivity|]. simpl. repeat split.
Qed.

(** A confirmed order of an apple is cancelled: the order is stored
    cancelled and the eight apples in stock are eight. *)
Lemma cancelOrder_cancels_witness :
  exists saved w',
    Order.cancelOrder
      {| _id := 0%nat; fields := Sample.order "NM-261101-0001" confirmed |}
      "changed my mind"
      (Sample.world 8 (Sample.cart [] 0)
         [Sample.order "NM-261101-0001" confirmed])
    = (inr saved, w')
    /\ OrderSchema.status <$> Orders w' !! 0%nat = Some cancelled
    /\ ProductSchema.stock <$> Products w' !! 1%N = Some 8.
Proof.
  destruct (cancelOrder_cancels
              {| _id := 0%nat;
                 fields := Sample.order "NM-261101-0001" confirmed |}
              "changed my mind"
              (Sample.world 8 (Sample.cart [] 0)
                 [Sample.order "NM-261101-0001" confirmed]))
    as (saved & w' & Hrun & _ & Horders & Hstatus & _ & _ & _ & _ & _
        & Hproducts & _); [discriminate|].
  exists saved, w'. split; [exact Hrun|].
  rewrite Horders, Hproducts. simpl. rewrite Hstatus. split; reflexivity.
Defined.

(** X20. A retailer deletes its own products only. Asked for a product of
    its own, the handler answers 200 and the product leaves the catalog,
    and nothing else is written: the carts keep their lines for it, and the
    checkout of any cart holding such a line is then refused with 'Some
    items are unavailable or out of stock', the world as it is. Asked for a
    product that is not stored or that another retailer owns, the handler
    answers 404 and writes nothing. *)
Theorem deleteProduct_owner_only (user productId : N) (w : World) :
  (forall p,
     Products w !! productId = Some p ->
     ProductSchema.retailer p = user ->
     exists resp,
       retailer.deleteProduct user productId w
       = (inr resp, set_Products (delete productId (Products w)) w)
       /\ code resp = 200%nat
       /\ forall cartId c item paymentDetails deliveryDetails,
            Carts w !! cartId = Some c ->
            item ∈ CartSchema.items c ->
            CartItemSchema.product item = productId ->
            Order.createFromCart cartId paymentDetails deliveryDetails
              (set_Products (delete productId (Products w)) w)
            = (inl (Error "Some items are unavailable or out of stock"),
               set_Products (delete productId (Products w)) w))
  /\ ((forall p, Products w !! productId = Some p ->
                 ProductSchema.retailer p <> user) ->
      retailer.deleteProduct user productId w
      = (inr (reply 404 false
                "Product not found or not owned by this retailer"), w)).
Proof.
  unfold retailer.deleteProduct, try_catch, Product.findOne, Product.remove.
  unfold_M. split.
  - intros p Hp Howner. rewrite Hp, <- Howner, N.eqb_refl. simpl.
    eexists. split; [reflexivity|]. split; [reflexivity|].
    intros cartId c item paymentDetails deliveryDetails Hc Hitem Hproduct.
    eapply createFromCart_unavailable; [exact Hc|].
    eapply unavailableIn_elem; [exact Hitem|].
    cbn [Products set_Products]. rewrite Hproduct, lookup_delete_eq.
    apply list_elem_of_here.
  - intros Hother. destruct (Products w !! productId) as [p|];
      [|reflexivity].
    specialize (Hother p eq_refl).
    now rewrite (proj2 (N.eqb_neq _ _) Hother).
Qed.

(** Retailer 100 deletes its apples, which the cart 50 holds, and the
    checkout of that cart is refused; retailer 200 cannot delete them. *)
Lemma deleteProduct_owner_only_witness :
  (exists resp,
     retailer.deleteProduct 100%N 1%N
       (Sample.world 10
          (Sample.cart [Sample.line 1%N "apple" (299 # 100) 2 100%N] 0) [])
     = (inr resp,
        set_Products
          (delete 1%N
             (Products
                (Sample.world 10
                   (Sample.cart [Sample.line 1%N "apple" (299 # 100) 2 100%N]
                      0) [])))
          (Sample.world 10
             (Sample.cart [Sample.line 1%N "apple" (299 # 100) 2 100%N] 0)
             []))
     /\ code resp = 200%nat
     /\ Order.createFromCart 50%N Sample.cash Sample.toHome
          (set_Products
             (delete 1%N
                (Products
                   (Sample.world 10
                      (Sample.cart
                         [Sample.line 1%N "apple" (299 # 100) 2 100%N] 0)
                      [])))
             (Sample.world 10
                (Sample.cart [Sample.line 1%N "apple" (299 # 100) 2 100%N] 0)
                []))
        = (inl (Error "Some items are unavailable or out of stock"),
           set_Products
             (delete 1%N
                (Products
                   (Sample.world 10
                      (Sample.cart
                         [Sample.line 1%N "apple" (299 # 100) 2 100%N] 0)
                      [])))
             (Sample.world 10
                (Sample.cart [Sample.line 1%N "apple" (299 # 100) 2 100%N] 0)
                [])))
  /\ retailer.deleteProduct 200%N 1%N
       (Sample.world 10 (Sample.cart [] 0) [])
     = (inr (reply 404 false
               "Product not found or not owned by this retailer"),
        Sample.world 10 (Sample.cart [] 0) []).
Proof.
  split.
  - destruct (proj1 (deleteProduct_owner_only 100%N 1%N
                       (Sample.world 10
                          (Sample.cart
                             [Sample.line 1%N "apple" (299 # 100) 2 100%N] 0)
                          []))
                (Sample.product "apple" (299 # 100) 10 100%N)
                eq_refl eq_refl)
      as (resp & Hrun & Hcode & Hcheckout).
    exists resp. split; [exact Hrun|]. split; [exact Hcode|].
    apply (Hcheckout 50%N
             (Sample.cart [Sample.line 1%N "apple" (299 # 100) 2 100%N] 0)
             (Sample.line 1%N "apple" (299 # 100) 2 100%N));
      [reflexivity | apply list_elem_of_here | reflexivity].
  - apply (proj2 (deleteProduct_owner_only 200%N 1%N
                    (Sample.world 10 (Sample.cart [] 0) []))).
    intros p Hp. vm_compute in Hp. injection Hp as <-. discriminate.
Defined.

Section RetailerOrders.

Lemma docs_cons (k : nat) (o : OrderSchema.t) (l : list OrderSchema.t) :
  docsFrom k (o :: l) = {| _id := k; fields := o |} :: docsFrom (S k) l.
Proof.
  unfold docsFrom. rewrite imap_cons, Nat.add_0_r. f_equal.
  apply imap_ext. intros i x _. simpl. f_equal. lia.
Qed.

Lemma filter_docs_sorted (f : Doc nat OrderSchema.t -> bool)
    (l : list OrderSchema.t) (k : nat) :
  StronglySorted lt (map _id (List.filter f (docsFrom k l)))
  /\ Forall (fun i => (k <= i)%nat)
       (map _id (List.filter f (docsFrom k l))).
Proof.
  revert k. induction l as [|o l IH]; intros k.
  - split; constructor.
  - rewrite docs_cons. destruct (IH (S k)) as [Hsorted Hfrom].
    cbn [List.filter].
    destruct (f _); cbn [map _id].
    + split.
      * constructor; [exact Hsorted|].
        eapply Forall_impl; [exact Hfrom|]. intros i Hi. simpl in Hi. lia.
      * constructor; [lia|].
        eapply Forall_impl; [exact Hfrom|]. intros i Hi. simpl in Hi. lia.
    + split; [exact Hsorted|].
      eapply Forall_impl; [exact Hfrom|]. intros i Hi. simpl in Hi. lia.
Qed.

Lemma map_reverse {A B} (g : A -> B) (l : list A) :
  map g (reverse l) = reverse (map g l).
Proof. unfold reverse. rewrite <- !rev_alt. apply map_rev. Qed.

(** The answer of [getOrders], whichever branch builds it. *)
Lemma getOrders_eq (user : N) (w : World) :
  exists orders,
    retailer.findByRetailer user w = (inr orders, w)
    /\ retailer.getOrders user w
       = (inr {| orders_code := 200; orders_success := true;
                 orders_count :=
                   length (map (retailer.retailerOrder user) orders);
                 orders_body := map (retailer.retailerOrder user) orders |},
          w).
Proof.
  eexists. split; [reflexivity|].
  unfold retailer.getOrders, try_catch. unfold mbind, M_bind.
  unfold retailer.findByRetailer, gets.
  destruct (reverse _) as [|order orders]; reflexivity.
Qed.

End RetailerOrders.

(** X21. The list of orders of a retailer only reads, and answers 200 with
    exactly the stored orders that hold an item of the retailer, the newest
    first, each with its id, number, customer, status, delivery and history
    and cut down to the retailer's own items, whose prices times quantities
    make its subtotal; the count is the number of orders shown. *)
Theorem getOrders_own_items (user : N) (w : World) :
  exists resp,
    retailer.getOrders user w = (inr resp, w)
    /\ orders_code resp = 200%nat
    /\ orders_count resp = length (orders_body resp)
    /\ (forall ro, ro ∈ orders_body resp ->
          exists o,
            Orders w !! ro_id ro = Some o
            /\ ro_orderNumber ro = OrderSchema.orderNumber o
            /\ ro_customer ro = OrderSchema.customer o
            /\ ro_status ro = OrderSchema.status o
            /\ ro_delivery ro = OrderSchema.delivery o
            /\ ro_statusHistory ro = OrderSchema.statusHistory o
            /\ ro_items ro <> []
            /\ ro_items ro
               = List.filter
                   (fun item => N.eqb (OrderItemSchema.retailer item) user)
                   (OrderSchema.items o)
            /\ (forall item, item ∈ ro_items ro ->
                  OrderItemSchema.retailer item = user)
            /\ ro_subtotal ro
               = fold_left
                   (fun total item =>
                      (total + OrderItemSchema.price item
                               * inject_Z (OrderItemSchema.quantity item))%Q)
                   (ro_items ro) 0%Q)
    /\ (forall i o item,
          Orders w !! i = Some o ->
          item ∈ OrderSchema.items o ->
          OrderItemSchema.retailer item = user ->
          exists ro, ro ∈ orders_body resp /\ ro_id ro = i)
    /\ StronglySorted lt (reverse (map ro_id (orders_body resp))).
Proof.
  destruct (getOrders_eq user w) as (orders & Horders & Hrun).
  eexists. split; [exact Hrun|]. cbn [orders_code orders_count orders_body].
  split; [reflexivity|]. split; [reflexivity|].
  unfold retailer.findByRetailer, gets in Horders. injection Horders as <-.
  split; [|split].
  - intros ro Hro. rewrite list_elem_of_In, in_map_iff in Hro.
    destruct Hro as (order & <- & Horder).
    rewrite <- list_elem_of_In, elem_of_reverse, list_elem_of_In, filter_In
      in Horder.
    destruct Horder as [Hstored Hhas].
    rewrite <- list_elem_of_In, elem_of_lookup_imap in Hstored.
    destruct Hstored as (i & o & -> & Hi).
    exists o. cbn. split; [exact Hi|]. repeat (split; [reflexivity|]).
    cbn [fields] in Hhas. split.
    + intros Hnone. apply existsb_exists in Hhas as (item & Hitem & Hhas).
      assert (In item (List.filter
                         (fun item => OrderItemSchema.retailer item =? user)%N
                         (OrderSchema.items o))) as Hin
        by (apply filter_In; auto).
      rewrite Hnone in Hin. destruct Hin.
    + split; [reflexivity|]. split; [|reflexivity].
      intros item Hitem. rewrite list_elem_of_In, filter_In in Hitem.
      destruct Hitem as [_ Hitem]. now apply N.eqb_eq in Hitem.
  - intros i o item Hi Hitem Hretailer.
    exists (retailer.retailerOrder user {| _id := i; fields := o |}).
    split; [|reflexivity].
    rewrite list_elem_of_In. apply in_map.
    rewrite <- list_elem_of_In, elem_of_reverse, list_elem_of_In, filter_In.
    split.
    + rewrite <- list_elem_of_In.
      apply (elem_of_lookup_imap_2
               (fun i o => {| _id := i; fields := o |}) _ _ _ Hi).
    + cbn [fields]. apply existsb_exists. exists item.
      split; [now apply list_elem_of_In | now apply N.eqb_eq].
  - rewrite map_map, map_reverse, reverse_involutive. cbn [ro_id
      retailer.retailerOrder].
    apply (filter_docs_sorted _ (Orders w) 0).
Qed.

(** ** The handlers of the cart *)

Section CartHandlers.

Import CartSchema.





End CartHandlers.


(** X23. Removing from the cart through the handler, the stored carts being
    single-retailer carts, always answers, with 200, 400 or 404: 200 exactly
    when the customer has a cart with a line for the product. It then
    stores that cart without the lines of the product, the other lines in
    their order, and shows it; any other answer has written nothing, and
    the catalog is never written. *)
Theorem deleteCartRemove_outcomes (user : N) (productId : option N)
    (w : World) :
  cartsSingleRetailer w ->
  exists resp w',
    customer.deleteCartRemove user productId w = (inr resp, w')
    /\ (cart_code resp = 200 \/ cart_code resp = 400
        \/ cart_code resp = 404)%nat
    /\ (cart_code resp <> 200%nat -> w' = w /\ cart_body resp = None)
    /\ (cart_code resp = 200%nat <->
        exists pid cart item,
          productId = Some pid
          /\ Cart.findOne user w = (inr (Some cart), w)
          /\ item ∈ CartSchema.items (fields cart)
          /\ CartItemSchema.product item = pid)
    /\ (cart_code resp = 200%nat ->
        exists pid cart c',
          productId = Some pid
          /\ Cart.findOne user w = (inr (Some cart), w)
          /\ Carts w' = <[_id cart := c']> (Carts w)
          /\ CartSchema.items c'
             = filter (fun item => CartItemSchema.product item <> pid)
                 (CartSchema.items (fields cart))
          /\ CartSchema.customer c' = user
          /\ cart_body resp
             = Some (customer.cartView (env w)
                       {| _id := _id cart; fields := c' |} false)
          /\ Products w' = Products w).
Proof.
  intros Hinv. unfold customer.deleteCartRemove, try_catch.
  destruct productId as [pid|].
  2: { eexists. eexists. split; [reflexivity|]. simpl.
       split; [auto|]. split; [auto|]. split; [|discriminate].
       split; [discriminate|]. intros (? & ? & ? & ? & _). discriminate. }
  unfold mbind at 1, M_bind.
  destruct (findOne_run user w) as [[cart|] Hfound]; rewrite Hfound.
  2: { eexists. eexists. split; [reflexivity|]. simpl.
       split; [auto|]. split; [auto|]. split; [|discriminate].
       split; [discriminate|]. intros (? & ? & ? & _ & ? & _). discriminate. }
  destruct (existsb _ (CartSchema.items (fields cart))) eqn:Hexists; simpl.
  2: { eexists. eexists. split; [reflexivity|]. simpl.
       split; [auto|]. split; [auto|]. split; [|discriminate].
       split; [discriminate|].
       intros (pid' & cart' & item & [= <-] & [= <-] & Hitem & Hproduct).
       apply not_true_iff_false in Hexists. destruct Hexists.
       apply existsb_exists. exists item.
       split; [now apply list_elem_of_In | now apply N.eqb_eq]. }
  assert (singleRetailer
            (CartSchema.set_items
               (filter (fun item => CartItemSchema.product item <> pid)
                  (CartSchema.items (fields cart)))
               (fields cart))) as Hsingle.
  { eapply singleRetailer_sub;
      [|exact (Hinv _ _ (findOne_stored _ _ _ Hfound))].
    intros x Hx. simpl in Hx. now apply list_elem_of_filter in Hx as [_ Hx]. }
  unfold Cart.removeItem. unfold mbind at 1, M_bind.
  destruct (save_single (with_fields cart _) w Hsingle)
    as (saved & Hrun & Hid & Hitems & Hcustomer & _).
  rewrite Hrun. unfold Cart.findById. unfold mbind at 1, M_bind, gets.
  cbn [Carts set_Carts _id with_fields]. rewrite lookup_insert_eq. simpl.
  eexists. eexists. split; [reflexivity|]. simpl.
  split; [auto|]. split; [intros Hcode; now destruct Hcode|].
  apply existsb_exists in Hexists as (item & Hitem & Hproduct).
  split.
  - split; [|reflexivity]. intros _. exists pid, cart, item.
    split; [reflexivity|]. split; [reflexivity|].
    split; [now apply list_elem_of_In | now apply N.eqb_eq].
  - intros _. exists pid, cart, (fields saved).
    split; [reflexivity|]. split; [reflexivity|]. split; [reflexivity|].
    split; [exact Hitems|].
    split; [rewrite Hcustomer; exact (findOne_customer _ _ _ Hfound)|].
    split; reflexivity.
Qed.

(** The customer takes the apples out of the cart of apples and bread: the
    bread stays. *)
Lemma deleteCartRemove_outcomes_witness :
  exists resp w',
    customer.deleteCartRemove 7%N (Some 1%N)
      (Sample.world 10
         (Sample.cart [Sample.line 1%N "apple" (299 # 100) 2 100%N;
                       Sample.line 2%N "bread" (199 # 100) 1 100%N] 0) [])
    = (inr resp, w')
    /\ cart_code resp = 200%nat
    /\ CartSchema.items <$> Carts w' !! 50%N
       = Some [Sample.line 2%N "bread" (199 # 100) 1 100%N].
Proof.
  destruct (deleteCartRemove_outcomes 7%N (Some 1%N)
              (Sample.world 10
                 (Sample.cart [Sample.line 1%N "apple" (299 # 100) 2 100%N;
                               Sample.line 2%N "bread" (199 # 100) 1 100%N] 0)
                 []))
    as (resp & w' & Hrun & _).
  { intros id c. simpl. rewrite lookup_insert.
    case_decide; [|now rewrite lookup_empty].
    intros [= <-] x y Hx Hy. simpl in Hx, Hy.
    apply elem_of_cons in Hx as [->|Hx];
      [|apply list_elem_of_singleton in Hx as ->];
      (apply elem_of_cons in Hy as [->|Hy];
        [|apply list_elem_of_singleton in Hy as ->]); reflexivity. }
  exists resp, w'. split; [exact Hrun|].
  vm_compute in Hrun. injection Hrun as <- <-.
  split; reflexivity.
Defined.

Section LazyCart.

(** A cart stored under a free id for a customer who had none is the cart
    [findOne] then returns. *)
Lemma findOne_created (user cartId : N) (c : CartSchema.t) (w : World) :
  Cart.findOne user w = (inr None, w) ->
  Carts w !! cartId = None ->
  CartSchema.customer c = user ->
  Cart.findOne user (set_Carts (<[cartId := c]> (Carts w)) w)
  = (inr (Some {| _id := cartId; fields := c |}),
     set_Carts (<[cartId := c]> (Carts w)) w).
Proof.
  unfold Cart.findOne, gets. intros [= Hhead] Hfree Hcustomer.
  destruct (filter _ (map_to_list (Carts w))) as [|kc l] eqn:Hnone;
    [clear Hhead | discriminate].
  cbn [Carts set_Carts].
  assert (filter (fun kc : N * CartSchema.t =>
                    CartSchema.customer kc.2 = user)
            (map_to_list (<[cartId := c]> (Carts w))) = [(cartId, c)])
    as ->; [|reflexivity].
  apply Permutation_singleton_r.
  rewrite (map_to_list_insert _ _ _ Hfree).
  rewrite filter_cons_True by exact Hcustomer. now rewrite Hnone.
Qed.

End LazyCart.

(** X24. Showing the cart always answers 200. When the customer has a cart
    it is shown and nothing is written. When the customer has none, an
    empty cart of the customer is stored under an id no cart had, the other
    carts as they were, and is shown with no item; the cart is created
    once, since asking again gives the same answer and writes nothing. *)
Theorem getCart_creates_once (user : N) (w : World) :
  exists resp w',
    customer.getCart user w = (inr resp, w')
    /\ cart_code resp = 200%nat
    /\ (forall cart,
          Cart.findOne user w = (inr (Some cart), w) ->
          w' = w
          /\ cart_body resp = Some (customer.cartView (env w) cart true))
    /\ (Cart.findOne user w = (inr None, w) ->
        exists cartId c,
          Carts w !! cartId = None
          /\ Carts w' = <[cartId := c]> (Carts w)
          /\ CartSchema.customer c = user
          /\ CartSchema.items c = []
          /\ CartSchema.discount c = 0%Q
          /\ cart_body resp
             = Some (customer.cartView (env w)
                       {| _id := cartId; fields := c |} true)
          /\ Products w' = Products w
          /\ Orders w' = Orders w)
    /\ customer.getCart user w' = (inr resp, w').
Proof.
  unfold customer.getCart, try_catch. unfold mbind at 1 3, M_bind.
  destruct (findOne_run user w) as [[cart|] Hfound]; rewrite Hfound.
  - eexists. eexists. split; [reflexivity|]. split; [reflexivity|].
    split; [|split].
    + intros cart' [= <-]. split; reflexivity.
    + discriminate.
    + unfold mbind at 1, M_bind. rewrite Hfound. reflexivity.
  - pose proof (is_fresh (dom (Carts w))) as Hfree.
    apply not_elem_of_dom in Hfree.
    eexists. eexists. split; [reflexivity|]. split; [reflexivity|].
    split; [|split].
    + discriminate.
    + intros _. eexists. eexists. split; [exact Hfree|].
      split; [reflexivity|]. repeat split.
    + cbn [snd fst]. unfold mbind at 1, M_bind. cbn [_id fields].
      rewrite (findOne_created user (fresh (dom (Carts w)))
                 {| CartSchema.customer := user;
                    CartSchema.retailer := None;
                    CartSchema.items := [];
                    CartSchema.couponCode := None;
                    CartSchema.discount := 0%Q |} w Hfound Hfree eq_refl).
      reflexivity.
Qed.

(** ** The order: its payment and its amounts *)

Section Payment.

(** An order that passes the validators passes them with its payment
    updated to a status of the [enum]. *)
Lemma validate_paymentUpdated (o : OrderSchema.t) (p : PaymentSchema.t)
    (status : string) (transactionId : option string) (now : Z) :
  Order.validate o = true ->
  OrderSchema.payment o = Some p ->
  Order.oneOf Order.paymentStatuses status = true ->
  Order.validate
    (Order.set_payment
       (Some (paymentUpdated p status transactionId now)) o) = true.
Proof.
  unfold Order.validate, Order.validatePayment. intros Hvalid Hp Henum.
  rewrite Hp in Hvalid.
  cbn [Order.set_payment paymentUpdated OrderSchema.orderNumber
       OrderSchema.items OrderSchema.subtotal OrderSchema.discount
       OrderSchema.tax OrderSchema.deliveryFee OrderSchema.total
       OrderSchema.payment OrderSchema.delivery PaymentSchema.method
       PaymentSchema.status PaymentSchema.amount].
  rewrite !andb_true_iff in *. tauto.
Qed.

End Payment.

(** X26. [updatePayment] throws 'Payment information not found' on an order
    with no payment, and its save refuses a status that is not 'pending',
    'completed', 'failed' or 'refunded'; either way nothing is written.
    On an order that is valid as it is stored, with a status of these four,
    it stores the order, still valid, with the new payment status, the
    method and the amount the payment had, the transaction id given or else
    the one it had, and the time of the update as [paidAt] when the status
    is 'completed', the [paidAt] it had when not.  The status, the history,
    the lines and the delivery of the order are left alone. *)
Theorem updatePayment_updates (this : Doc nat OrderSchema.t)
    (status : string) (transactionId : option string) (w : World) :
  (OrderSchema.payment (fields this) = None ->
   Order.updatePayment this status transactionId w
   = (inl (Error "Payment information not found"), w))
  /\ (forall p,
        OrderSchema.payment (fields this) = Some p ->
        Order.oneOf Order.paymentStatuses status = false ->
        Order.updatePayment this status transactionId w
        = (inl ValidationError, w))
  /\ (forall p,
        Order.validate (fields this) = true ->
        OrderSchema.payment (fields this) = Some p ->
        Order.oneOf Order.paymentStatuses status = true ->
        exists saved p',
          Order.updatePayment this status transactionId w
          = (inr saved,
             set_Orders (<[_id this := fields saved]> (Orders w)) w)
          /\ Order.validate (fields saved) = true
          /\ OrderSchema.payment (fields saved) = Some p'
          /\ PaymentSchema.status p' = status
          /\ PaymentSchema.method p' = PaymentSchema.method p
          /\ PaymentSchema.amount p' = PaymentSchema.amount p
          /\ PaymentSchema.transactionId p'
             = or_else transactionId (PaymentSchema.transactionId p)
          /\ (status = "completed" ->
              PaymentSchema.paidAt p' = Some (getTime (clock w)))
          /\ (status <> "completed" ->
              PaymentSchema.paidAt p' = PaymentSchema.paidAt p)
          /\ OrderSchema.status (fields saved)
             = OrderSchema.status (fields this)
          /\ OrderSchema.statusHistory (fields saved)
             = OrderSchema.statusHistory (fields this)
          /\ OrderSchema.items (fields saved)
             = OrderSchema.items (fields this)
          /\ OrderSchema.delivery (fields saved)
             = OrderSchema.delivery (fields this)).
Proof.
  unfold Order.updatePayment. split; [|split].
  - now intros ->.
  - intros p -> Henum. unfold mbind, M_bind, gets. now rewrite Henum.
  - intros p Hvalid Hp Henum. rewrite Hp.
    unfold mbind, M_bind, gets. rewrite Henum.
    cbn [negb]. eexists. eexists. split; [reflexivity|].
    split; [exact (validate_paymentUpdated _ _ _ _ _ Hvalid Hp Henum)|].
    cbn.
    repeat (split; [reflexivity|]).
    split; [intros ->; reflexivity|].
    split; [|repeat split].
    intros Hother. apply String.eqb_neq in Hother. now rewrite Hother.
Qed.

(** An order paid in cash is marked completed on 2 November 2026; 'paid' is
    not a status of the payment and is refused; an order with no payment
    has none to update. *)
Lemma updatePayment_updates_witness :
  Order.updatePayment {| _id := 0%nat;
                         fields := Sample.order "NM-261101-0001" pending |}
    "completed" None
    (Sample.world 10 (Sample.cart [] 0)
       [Sample.order "NM-261101-0001" pending])
  = (inl (Error "Payment information not found"),
     Sample.world 10 (Sample.cart [] 0)
       [Sample.order "NM-261101-0001" pending])
  /\ Order.updatePayment
       {| _id := 0%nat;
          fields :=
            Order.set_payment
              (Some {| PaymentSchema.method := "cash_on_delivery";
                       PaymentSchema.transactionId := None;
                       PaymentSchema.status := "pending";
                       PaymentSchema.amount := 829 # 100;
                       PaymentSchema.paidAt := None |})
              (Sample.order "NM-261101-0001" delivered) |}
       "paid" None
       (Sample.world 10 (Sample.cart [] 0)
          [Sample.order "NM-261101-0001" delivered])
     = (inl ValidationError,
        Sample.world 10 (Sample.cart [] 0)
          [Sample.order "NM-261101-0001" delivered])
  /\ (exists saved p' w',
        Order.updatePayment
          {| _id := 0%nat;
             fields :=
               Order.set_payment
                 (Some {| PaymentSchema.method := "cash_on_delivery";
                          PaymentSchema.transactionId := None;
                          PaymentSchema.status := "pending";
                          PaymentSchema.amount := 829 # 100;
                          PaymentSchema.paidAt := None |})
                 (Sample.order "NM-261101-0001" delivered) |}
          "completed" None
          (Sample.world 10 (Sample.cart [] 0)
             [Sample.order "NM-261101-0001" delivered])
        = (inr saved, w')
        /\ OrderSchema.payment (fields saved) = Some p'
        /\ PaymentSchema.status p' = "completed"
        /\ PaymentSchema.paidAt p' = Some 1793577600000
        /\ OrderSchema.status (fields saved) = delivered).
Proof.
  split; [|split].
  - apply (proj1 (updatePayment_updates _ _ _ _)). reflexivity.
  - apply (proj1 (proj2 (updatePayment_updates _ _ _ _))
             {| PaymentSchema.method := "cash_on_delivery";
                PaymentSchema.transactionId := None;
                PaymentSchema.status := "pending";
                PaymentSchema.amount := 829 # 100;
                PaymentSchema.paidAt := None |}); reflexivity.
  - destruct (proj2 (proj2 (updatePayment_updates
                {| _id := 0%nat;
                   fields :=
                     Order.set_payment
                       (Some {| PaymentSchema.method := "cash_on_delivery";
                                PaymentSchema.transactionId := None;
                                PaymentSchema.status := "pending";
                                PaymentSchema.amount := 829 # 100;
                                PaymentSchema.paidAt := None |})
                       (Sample.order "NM-261101-0001" delivered) |}
                "completed" None
                (Sample.world 10 (Sample.cart [] 0)
                   [Sample.order "NM-261101-0001" delivered])))
                _ eq_refl eq_refl eq_refl)
      as (saved & p' & Hrun & _ & Hp & Hstatus & _ & _ & _ & Hpaid & _
          & Hkept & _).
    exists saved, p'. eexists. split; [exact Hrun|].
    split; [exact Hp|]. split; [exact Hstatus|].
    split; [now apply Hpaid | exact Hkept].
Defined.

(** X27. The five amounts of a stored order (subtotal, discount, tax,
    delivery fee, total) are never changed: after any sequence of later
    operations ([updateStatus], [cancelOrder], [updatePayment], the
    retailer's status update, a checkout) the order is stored at its place
    with the amounts it had. *)
Theorem order_amounts_kept (ops : list OrderOp) (w : World) (i : nat)
    (o : OrderSchema.t) :
  Orders w !! i = Some o ->
  exists o',
    Orders (runOrderOps ops w) !! i = Some o'
    /\ amounts o' = amounts o.
Proof.
  apply (runOrderOps_related (fun o o' => amounts o' = amounts o)).
  - reflexivity.
  - intros o1 o2 o3 H12 H23. congruence.
  - reflexivity.
  - reflexivity.
  - reflexivity.
Qed.

(** A stored order keeps its amounts through five operations. *)
Lemma order_amounts_kept_witness :
  exists o',
    Orders (runOrderOps
              [OpUpdateStatus 0 confirmed "accepted";
               OpPutOrderStatus 100%N 0 (Some delivered);
               OpUpdatePayment 0 "completed" None;
               OpCheckout 50%N Sample.cash Sample.toHome;
               OpCancelOrder 0 "too late"]
              (Sample.world 10 (Sample.cart [] 0)
                 [Sample.order "NM-261101-0001" pending])) !! 0%nat
    = Some o'
    /\ amounts o' = amounts (Sample.order "NM-261101-0001" pending).
Proof.
  apply (order_amounts_kept _ _ 0%nat). reflexivity.
Defined.
